(** * AutoDevOps AI Orchestrator: the workflow orchestration core

    A shallow embedding of the JavaScript classes [OrchestrationEngine]
    (src/core/orchestration-engine.js), [StateManager] and
    [WorkflowExecutor] (src/core/state-manager.js) and [TaskQueue]
    (src/core/task-queue.js), followed by the properties of the
    specification that concern them.

    Conventions of the embedding
    - JavaScript values that cross the boundary of the core (the plan an
      AI provider returns, step parameters, provider results, thrown
      values) are terms of [JSValue]; numbers are integers, and an
      integer that is not a double stands for the double nearest to it,
      as a numeric literal does.
    - A string is the sequence of bytes of its UTF-8 encoding, a
      surrogate that stands alone being encoded like any code point of
      three bytes.
    - A function that may throw, or an [async] function that may reject,
      is a computation in the monad [M]: it reads the runtime environment
      [Env], threads the mutable [World] and ends in a [Completion].
      Side effects made before a throw persist, as in JavaScript.
    - [await] runs the awaited promise to settlement: one call of an
      [async] method is modelled without other callers interleaved, and
      every provider promise settles after a finite latency.
    - Objects shared by reference (a workflow is held by the engine's
      registry, by the executor's registry and by the running call at
      once) live in [heap] and are named by their location.
    - Logging through the injected logger has no effect on the state and
      is left out. *)

From Stdlib Require Import QArith.
From stdpp Require Import gmap strings list pretty.

Set Warnings "-register-all".

Open Scope Z_scope.
Open Scope string_scope.

(** ** JavaScript values *)

Inductive JSValue : Type :=
  | JUndefined
  | JNull
  | JBool (b : bool)
  | JNumber (n : Z)
  | JString (s : string)
  | JArray (items : list JSValue)
  | JObject (fields : list (string * JSValue)).

(** The character U+0022, for the template literals that contain it. *)
Definition dquote : string := String (Ascii.ascii_of_nat 34%nat) EmptyString.

(** *** Numbers as text

    [Number::toString] prints the shortest decimal that reads back as
    the number. Every integer below 2^53 is a double and is its own
    shortest decimal; from 2^53 on the doubles are 2^e apart and the
    digits that do not matter are printed as zeros, and from 10^21 on
    the exponent is written out. *)

(** The double nearest to the integer [n >= 0], a tie going to the even
    significand. *)
Definition nearest_double (n : Z) : Z :=
  if Z.ltb n (2 ^ 53) then n
  else
    let e := Z.log2 n - 52 in
    let significand := n / 2 ^ e in
    let rest := n mod 2 ^ e in
    let half := 2 ^ (e - 1) in
    (if Z.ltb rest half then significand
     else if Z.ltb half rest then significand + 1
     else if Z.even significand then significand else significand + 1)
    * 2 ^ e.

(** The digits [s] and the exponent [p] of the shortest decimal
    [s * 10^p] that reads back as the double [x]: the largest [p],
    counting down from [p], for which a multiple of [10^p] does, and of
    the two multiples around [x] the one closer to it (the even one when
    they are equally close). *)
Fixpoint shortest_decimal (x : Z) (p : nat) : Z * nat :=
  let unit := 10 ^ Z.of_nat p in
  let below := x / unit * unit in
  let above := below + unit in
  let below_reads_back := Z.ltb 0 below && Z.eqb (nearest_double below) x in
  let above_reads_back := Z.eqb (nearest_double above) x in
  match below_reads_back, above_reads_back, p with
  | true, true, _ =>
      if Z.ltb (x - below) (above - x) then (below / unit, p)
      else if Z.ltb (above - x) (x - below) then (above / unit, p)
      else if Z.even (below / unit) then (below / unit, p) else (above / unit, p)
  | true, false, _ => (below / unit, p)
  | false, true, _ => (above / unit, p)
  | false, false, S p' => shortest_decimal x p'
  | false, false, O => (x, O)
  end.

Fixpoint zeros (p : nat) : string :=
  match p with
  | O => EmptyString
  | S p' => "0" +:+ zeros p'
  end.

(** [Number::toString(n)] in radix 10. *)
Definition number_to_string (n : Z) : string :=
  if Z.ltb (Z.abs n) (2 ^ 53) then pretty n
  else
    let sign := if Z.ltb n 0 then "-" else EmptyString in
    let x := nearest_double (Z.abs n) in
    if Z.leb (2 ^ 1024) x then sign +:+ "Infinity"
    else
      let '(s, p) := shortest_decimal x (String.length (pretty x)) in
      let digits := pretty s in
      let point := (String.length digits + p)%nat in
      if Nat.leb point 21 then sign +:+ digits +:+ zeros p
      else
        sign
        +:+ match digits with
            | String d EmptyString => String d EmptyString
            | String d more => String d ("." +:+ more)
            | EmptyString => EmptyString
            end
        +:+ "e+" +:+ pretty (point - 1)%nat.

(** [ToString]: the conversion applied by template literals, by property
    keys and by [JSON.parse] to its argument. *)
Fixpoint ToString (v : JSValue) : string :=
  match v with
  | JUndefined => "undefined"
  | JNull => "null"
  | JBool b => if b then "true" else "false"
  | JNumber n => number_to_string n
  | JString s => s
  | JArray items =>
      (fix join (l : list JSValue) : string :=
         match l with
         | [] => EmptyString
         | x :: l' =>
             (match x with
              | JUndefined | JNull => EmptyString
              | _ => ToString x
              end)
             +:+ (match l' with [] => EmptyString | _ => "," +:+ join l' end)
         end) items
  | JObject _ => "[object Object]"
  end.

(** *** Strings as sequences

    The iterator of a string yields its code points, and the indices of
    a string number its UTF-16 code units: one for a code point of one,
    two or three bytes, the two halves of the surrogate pair for a code
    point of four bytes. *)

(** A byte that continues a code point: [10xxxxxx]. *)
Definition continuation (c : Ascii.ascii) : bool :=
  let n := Ascii.N_of_ascii c in N.leb 128 n && N.ltb n 192.

Definition continues (s : string) : bool :=
  match s with
  | String c _ => continuation c
  | EmptyString => false
  end.

Fixpoint code_points (s : string) : list string :=
  match s with
  | EmptyString => []
  | String c rest =>
      match code_points rest with
      | point :: points =>
          if continues rest then String c point :: points
          else String c EmptyString :: point :: points
      | [] => [String c EmptyString]
      end
  end.

(** The three bytes of a code unit from U+0800 on:
    [1110xxxx 10xxxxxx 10xxxxxx]. *)
Definition three_bytes (u : N) : string :=
  String (Ascii.ascii_of_N (224 + u / 4096))
    (String (Ascii.ascii_of_N (128 + (u / 64) mod 64))
       (String (Ascii.ascii_of_N (128 + u mod 64)) EmptyString)).

(** The code units of one code point. Four bytes
    [11110xxx 10xxxxxx 10xxxxxx 10xxxxxx] hold a code point [cp] from
    U+10000 on, whose halves are [D800 + (cp - 10000) / 400] and
    [DC00 + (cp - 10000) mod 400] (hexadecimal). *)
Definition surrogates (point : string) : list string :=
  match point with
  | String b0 (String b1 (String b2 (String b3 EmptyString))) =>
      let cp := (Ascii.N_of_ascii b0 mod 8 * 262144
                 + Ascii.N_of_ascii b1 mod 64 * 4096
                 + Ascii.N_of_ascii b2 mod 64 * 64
                 + Ascii.N_of_ascii b3 mod 64)%N in
      [three_bytes (55296 + (cp - 65536) / 1024);
       three_bytes (56320 + (cp - 65536) mod 1024)]
  | _ => [point]
  end.

Definition code_units (s : string) : list string :=
  flat_map surrogates (code_points s).

(** [ToBoolean]: what [||], [&&], [!] and [if] test. *)
Definition truthy (v : JSValue) : bool :=
  match v with
  | JUndefined | JNull => false
  | JBool b => b
  | JNumber n => negb (Z.eqb n 0)
  | JString s => negb (String.eqb s EmptyString)
  | JArray _ | JObject _ => true
  end.

(** [a || b] when evaluating [b] has no effect. *)
Definition js_or (a b : JSValue) : JSValue := if truthy a then a else b.

Definition nullish (v : JSValue) : bool :=
  match v with JUndefined | JNull => true | _ => false end.

Fixpoint assoc (k : string) (fields : list (string * JSValue)) : option JSValue :=
  match fields with
  | [] => None
  | (k', v) :: rest => if String.eqb k k' then Some v else assoc k rest
  end.

(** [v.k] on a value that is neither [null] nor [undefined]. None of the
    property names read by the core ([steps], [id], [timeout], [files],
    [message], ...) is defined on a built-in prototype, so a value without
    the own property yields [undefined]. *)
Definition own_prop (v : JSValue) (k : string) : JSValue :=
  match v with
  | JObject fields => default JUndefined (assoc k fields)
  | _ => JUndefined
  end.

Definition isArray (v : JSValue) : bool :=
  match v with JArray _ => true | _ => false end.

(** [new Error(msg)]: only the own property [message] is ever read. *)
Definition Error (msg : string) : JSValue := JObject [("message", JString msg)].
Definition TypeError (msg : string) : JSValue := Error msg.
Definition SyntaxError (msg : string) : JSValue := Error msg.

(** ** Plans and steps (orchestration-engine.js, validateWorkflowPlan) *)

Record Step := mkStep {
  step_id : JSValue;
  step_type : JSValue;
  step_description : JSValue;
  step_integration : JSValue;
  step_parameters : JSValue;
  step_timeout : JSValue;
  step_retryCount : JSValue
}.

Record Plan := mkPlan {
  plan_steps : list Step;
  estimatedDuration : JSValue;
  priority : JSValue;
  dependencies : JSValue;
  rollbackStrategy : JSValue
}.

(** ** Capability providers

    A provider method is an oracle: given the provider calls made so far
    and the arguments, it tells after how many milliseconds the returned
    promise settles and how. *)

Record Call := mkCall {
  callee : string;
  method : string;
  args : list JSValue
}.

Inductive Settle : Type :=
  | Resolves (v : JSValue)
  | Rejects (e : JSValue).

Record Reply := mkReply {
  latency : Z;
  settle : Settle
}.

Definition Method : Type := list Call -> list JSValue -> Reply.

(** An integration object: its methods by name ([None]: no such method). *)
Definition Integration : Type := string -> option Method.

(** ** Workflows, results and events *)

(** The values the code assigns to [workflow.status]. *)
Inductive Status : Type :=
  | pending | running | completed | failed | cancelled | cancelling.

#[global] Instance Status_eq_dec : EqDecision Status.
Proof. solve_decision. Defined.

(** What a step handler returns: [{ type, data, timestamp }]. *)
Record StepResult := mkStepResult {
  result_type : string;
  result_data : JSValue;
  result_timestamp : Z
}.

(** An entry of [workflow.steps]:
    [{ ...step, status: 'completed', result, executedAt }]. *)
Record StepRecord := mkStepRecord {
  rec_step : Step;
  rec_status : string;
  rec_result : StepResult;
  rec_executedAt : Z
}.

Record Summary := mkSummary {
  totalSteps : nat;
  successfulSteps : nat;
  executionTime : Z;
  artifacts : list JSValue;
  recommendations : list JSValue;
  testsPassed : option JSValue;
  testsFailed : option JSValue;
  commitSha : option JSValue;
  commitUrl : option JSValue
}.

Record FinalResult := mkFinalResult {
  fin_workflowId : string;
  fin_status : string;
  fin_steps : list StepResult;
  fin_summary : Summary
}.

Record FailureResult := mkFailureResult {
  fail_workflowId : string;
  fail_status : string;
  fail_error : JSValue;
  fail_completedSteps : nat;
  fail_totalSteps : nat
}.

Inductive Event : Type :=
  | WorkflowStarted (workflowId : string) (plan : option Plan)
  | WorkflowCompleted (r : FinalResult)
  | WorkflowFailed (r : FailureResult).

Record Workflow := mkWorkflow {
  wf_id : string;
  wf_instruction : string;
  wf_options : JSValue;
  wf_status : Status;
  wf_createdAt : Z;
  wf_steps : list StepRecord;
  wf_plan : option Plan;
  wf_result : option FinalResult;
  wf_completedAt : option Z;
  wf_error : option JSValue;
  wf_failedAt : option Z;
  wf_cancelledAt : option Z
}.

(** What [executeWorkflow] resolves with. *)
Record Envelope := mkEnvelope {
  success : bool;
  env_workflowId : string;
  env_result : option FinalResult;
  env_error : option JSValue
}.

(** [StateManager.metrics]. The counters are JavaScript numbers used as
    integers; [averageDuration] is a double in the source and a rational
    here. *)
Record Metrics := mkMetrics {
  totalWorkflows : Z;
  completedWorkflows : Z;
  failedWorkflows : Z;
  averageDuration : Q
}.

(** ** The mutable world

    [workflowExecutor] holds the executor's [runningWorkflows] and
    [stateManager] the aggregator's [metrics]; both are [null] ([None])
    until [initialize] has run. Locations index [heap]. *)
Record World := mkWorld {
  isInitialized : bool;
  activeWorkflows : gmap string nat;
  workflowExecutor : option (gmap string nat);
  stateManager : option Metrics;
  heap : list Workflow;
  clock : Z;
  uuid_count : nat;
  calls : list Call;
  emitted : list Event
}.

(** The runtime around the core: the stream of identifiers [uuidv4]
    draws from, [JSON.parse] ([None] when it throws a [SyntaxError]), the
    conversion of a string to a number ([None] for [NaN]) and the registry
    of integrations passed to the engine's constructor: the integrations
    it holds as properties of its own. *)
Record Env := mkEnv {
  uuid_of : nat -> string;
  JSON_parse : string -> option JSValue;
  StringToNumber : string -> option Z;
  integrations : string -> option Integration
}.

Definition set_isInitialized (b : bool) (w : World) : World :=
  mkWorld b (activeWorkflows w) (workflowExecutor w) (stateManager w)
          (heap w) (clock w) (uuid_count w) (calls w) (emitted w).

Definition set_activeWorkflows (m : gmap string nat) (w : World) : World :=
  mkWorld (isInitialized w) m (workflowExecutor w) (stateManager w)
          (heap w) (clock w) (uuid_count w) (calls w) (emitted w).

Definition set_workflowExecutor (x : option (gmap string nat)) (w : World) : World :=
  mkWorld (isInitialized w) (activeWorkflows w) x (stateManager w)
          (heap w) (clock w) (uuid_count w) (calls w) (emitted w).

Definition set_stateManager (x : option Metrics) (w : World) : World :=
  mkWorld (isInitialized w) (activeWorkflows w) (workflowExecutor w) x
          (heap w) (clock w) (uuid_count w) (calls w) (emitted w).

Definition set_heap (h : list Workflow) (w : World) : World :=
  mkWorld (isInitialized w) (activeWorkflows w) (workflowExecutor w) (stateManager w)
          h (clock w) (uuid_count w) (calls w) (emitted w).

Definition set_clock (t : Z) (w : World) : World :=
  mkWorld (isInitialized w) (activeWorkflows w) (workflowExecutor w) (stateManager w)
          (heap w) t (uuid_count w) (calls w) (emitted w).

Definition set_uuid_count (n : nat) (w : World) : World :=
  mkWorld (isInitialized w) (activeWorkflows w) (workflowExecutor w) (stateManager w)
          (heap w) (clock w) n (calls w) (emitted w).

Definition set_calls (c : list Call) (w : World) : World :=
  mkWorld (isInitialized w) (activeWorkflows w) (workflowExecutor w) (stateManager w)
          (heap w) (clock w) (uuid_count w) c (emitted w).

Definition set_emitted (e : list Event) (w : World) : World :=
  mkWorld (isInitialized w) (activeWorkflows w) (workflowExecutor w) (stateManager w)
          (heap w) (clock w) (uuid_count w) (calls w) e.

(** ** The monad of throwing, stateful computations *)

Inductive Completion (A : Type) : Type :=
  | Normal (a : A)
  | Throw (e : JSValue).
Arguments Normal {A} a.
Arguments Throw {A} e.

Definition M (A : Type) : Type := Env -> World -> Completion A * World.

Definition ret {A : Type} (a : A) : M A := fun _ w => (Normal a, w).

Definition bind {A B : Type} (m : M A) (f : A -> M B) : M B :=
  fun env w =>
    match m env w with
    | (Normal a, w') => f a env w'
    | (Throw e, w') => (Throw e, w')
    end.

Definition throw {A : Type} (e : JSValue) : M A := fun _ w => (Throw e, w).

Definition ask : M Env := fun env w => (Normal env, w).
Definition get_world : M World := fun _ w => (Normal w, w).
Definition modify (f : World -> World) : M unit := fun _ w => (Normal tt, f w).

(** [try { body } catch (e) { handler e }] *)
Definition try_catch {A : Type} (body : M A) (handler : JSValue -> M A) : M A :=
  fun env w =>
    match body env w with
    | (Normal a, w') => (Normal a, w')
    | (Throw e, w') => handler e env w'
    end.

(** [try { body } finally { fin }] *)
Definition try_finally {A : Type} (body : M A) (fin : M unit) : M A :=
  fun env w =>
    match body env w with
    | (r, w') =>
        match fin env w' with
        | (Normal _, w'') => (r, w'')
        | (Throw e, w'') => (Throw e, w'')
        end
    end.

Declare Scope js_scope.
Delimit Scope js_scope with js.
Notation "x <- m ;; k" := (bind m (fun x => k))
  (at level 100, m at next level, right associativity) : js_scope.
Notation "m ;;; k" := (bind m (fun _ => k))
  (at level 100, right associativity) : js_scope.
Open Scope js_scope.

Fixpoint mapM {A B : Type} (f : A -> M B) (l : list A) : M (list B) :=
  match l with
  | [] => ret []
  | x :: l' => y <- f x ;; ys <- mapM f l' ;; ret (y :: ys)
  end.

(** [v.k], which throws a [TypeError] on [null] and [undefined]. *)
Definition get_prop (v : JSValue) (k : string) : M JSValue :=
  if nullish v
  then throw (TypeError ("Cannot read properties of " +:+ ToString v
                         +:+ " (reading '" +:+ k +:+ "')"))
  else ret (own_prop v k).

(** Running a computation and looking at how it completed. *)
Definition attempt {A : Type} (m : M A) : M (Completion A) :=
  fun env w => match m env w with (r, w') => (Normal r, w') end.

(** [uuidv4()] *)
Definition uuidv4 : M string :=
  fun env w => (Normal (uuid_of env (uuid_count w)), set_uuid_count (S (uuid_count w)) w).

(** [new Date()], in milliseconds. *)
Definition now : M Z := fun _ w => (Normal (clock w), w).

(** Waiting [ms] milliseconds at an [await]. *)
Definition sleep (ms : Z) : M unit := modify (fun w => set_clock (clock w + ms) w).

(** ** Plan normalizer (orchestration-engine.js, lines 132-213) *)

(** The callback of [plan.steps.map] in [validateWorkflowPlan]. In
    [step.id || uuidv4()] an identifier is drawn only when [step.id] is
    falsy. *)
Definition validateStep (step : JSValue) : M Step :=
  raw_id <- get_prop step "id" ;;
  id <- (if truthy raw_id then ret raw_id
         else (u <- uuidv4 ;; ret (JString u))) ;;
  ty <- get_prop step "type" ;;
  description <- get_prop step "description" ;;
  integration <- get_prop step "integration" ;;
  parameters <- get_prop step "parameters" ;;
  timeout <- get_prop step "timeout" ;;
  retryCount <- get_prop step "retryCount" ;;
  ret {| step_id := id;
         step_type := ty;
         step_description := description;
         step_integration := integration;
         step_parameters := js_or parameters (JObject []);
         step_timeout := js_or timeout (JNumber 60000);
         step_retryCount := js_or retryCount (JNumber 2) |}.

Definition validateWorkflowPlan (plan : JSValue) : M Plan :=
  ed <- get_prop plan "estimatedDuration" ;;
  pr <- get_prop plan "priority" ;;
  deps <- get_prop plan "dependencies" ;;
  rb <- get_prop plan "rollbackStrategy" ;;
  raw_steps <- get_prop plan "steps" ;;
  validated <- (if truthy raw_steps && isArray raw_steps
                then match raw_steps with
                     | JArray items => mapM validateStep items
                     | _ => ret []
                     end
                else ret []) ;;
  ret {| plan_steps := validated;
         estimatedDuration := js_or ed (JNumber 300);
         priority := js_or pr (JString "medium");
         dependencies := js_or deps (JArray []);
         rollbackStrategy := js_or rb (JString "automatic") |}.

(** A step of the fallback plan; only its identifier is drawn. *)
Definition fallbackStep (id ty description integration : string)
    (timeout retryCount : Z) : Step :=
  {| step_id := JString id;
     step_type := JString ty;
     step_description := JString description;
     step_integration := JString integration;
     step_parameters := JObject [];
     step_timeout := JNumber timeout;
     step_retryCount := JNumber retryCount |}.

(** The object literal of [createFallbackPlan], the four identifiers
    apart. *)
Definition fallbackPlan (id1 id2 id3 id4 : string) : Plan :=
  {| plan_steps :=
       [ fallbackStep id1 "analyze" "Analyze requirements" "taskMaster" 30000 1;
         fallbackStep id2 "generate_code" "Generate or modify code" "taskMaster" 120000 2;
         fallbackStep id3 "run_tests" "Execute test suite" "playwright" 180000 1;
         fallbackStep id4 "commit_changes" "Commit changes to repository" "github" 30000 2 ];
     estimatedDuration := JNumber 360;
     priority := JString "medium";
     dependencies := JArray [];
     rollbackStrategy := JString "automatic" |}.

Definition createFallbackPlan : M Plan :=
  id1 <- uuidv4 ;;
  id2 <- uuidv4 ;;
  id3 <- uuidv4 ;;
  id4 <- uuidv4 ;;
  ret (fallbackPlan id1 id2 id3 id4).

(** [JSON.parse(aiResponse)]: the argument is converted to a string
    first. The message of the [SyntaxError] depends on the engine and is
    never read: the only caller catches it. *)
Definition JSON_parse_or_throw (source : JSValue) : M JSValue :=
  env <- ask ;;
  match JSON_parse env (ToString source) with
  | Some v => ret v
  | None => throw (SyntaxError "Unexpected token in JSON")
  end.

Definition parseWorkflowPlan (aiResponse : JSValue) : M Plan :=
  try_catch
    (plan <- JSON_parse_or_throw aiResponse ;;
     validateWorkflowPlan plan)
    (fun _error => createFallbackPlan).

(** ** State/metrics aggregator (state-manager.js, class StateManager) *)

Module StateManager.

(** The metrics set by the constructor. *)
Definition initial : Metrics :=
  {| totalWorkflows := 0; completedWorkflows := 0; failedWorkflows := 0;
     averageDuration := 0%Q |}.

(** [updateMetrics(workflow)]. [workflow.createdAt] is always a
    non-empty string, so the duration is folded in exactly when
    [workflow.completedAt] is set. *)
Definition updateMetrics (workflow : Workflow) (m : Metrics) : Metrics :=
  let total := totalWorkflows m + 1 in
  {| totalWorkflows := total;
     completedWorkflows :=
       match wf_status workflow with
       | completed => completedWorkflows m + 1
       | _ => completedWorkflows m
       end;
     failedWorkflows :=
       match wf_status workflow with
       | failed => failedWorkflows m + 1
       | _ => failedWorkflows m
       end;
     averageDuration :=
       match wf_completedAt workflow with
       | Some completedAt =>
           let duration := completedAt - wf_createdAt workflow in
           ((averageDuration m * inject_Z (total - 1) + inject_Z duration)
            / inject_Z total)%Q
       | None => averageDuration m
       end |}.

Definition getTotalWorkflows (m : Metrics) : Z := totalWorkflows m.

Definition getSuccessRate (m : Metrics) : Q :=
  if Z.eqb (totalWorkflows m) 0 then 0%Q
  else (inject_Z (completedWorkflows m) / inject_Z (totalWorkflows m))%Q.

Definition getAverageDuration (m : Metrics) : Q := averageDuration m.

(** [getMetrics()] returns a copy of the counters. *)
Definition getMetrics (m : Metrics) : Metrics := m.

End StateManager.

(** ** Workflow objects on the heap *)

Definition set_wf_status (s : Status) (wf : Workflow) : Workflow :=
  mkWorkflow (wf_id wf) (wf_instruction wf) (wf_options wf) s (wf_createdAt wf)
             (wf_steps wf) (wf_plan wf) (wf_result wf) (wf_completedAt wf)
             (wf_error wf) (wf_failedAt wf) (wf_cancelledAt wf).

Definition set_wf_steps (log : list StepRecord) (wf : Workflow) : Workflow :=
  mkWorkflow (wf_id wf) (wf_instruction wf) (wf_options wf) (wf_status wf) (wf_createdAt wf)
             log (wf_plan wf) (wf_result wf) (wf_completedAt wf)
             (wf_error wf) (wf_failedAt wf) (wf_cancelledAt wf).

Definition set_wf_plan (p : Plan) (wf : Workflow) : Workflow :=
  mkWorkflow (wf_id wf) (wf_instruction wf) (wf_options wf) (wf_status wf) (wf_createdAt wf)
             (wf_steps wf) (Some p) (wf_result wf) (wf_completedAt wf)
             (wf_error wf) (wf_failedAt wf) (wf_cancelledAt wf).

Definition set_wf_result (r : FinalResult) (wf : Workflow) : Workflow :=
  mkWorkflow (wf_id wf) (wf_instruction wf) (wf_options wf) (wf_status wf) (wf_createdAt wf)
             (wf_steps wf) (wf_plan wf) (Some r) (wf_completedAt wf)
             (wf_error wf) (wf_failedAt wf) (wf_cancelledAt wf).

Definition set_wf_completedAt (t : Z) (wf : Workflow) : Workflow :=
  mkWorkflow (wf_id wf) (wf_instruction wf) (wf_options wf) (wf_status wf) (wf_createdAt wf)
             (wf_steps wf) (wf_plan wf) (wf_result wf) (Some t)
             (wf_error wf) (wf_failedAt wf) (wf_cancelledAt wf).

Definition set_wf_error (e : JSValue) (wf : Workflow) : Workflow :=
  mkWorkflow (wf_id wf) (wf_instruction wf) (wf_options wf) (wf_status wf) (wf_createdAt wf)
             (wf_steps wf) (wf_plan wf) (wf_result wf) (wf_completedAt wf)
             (Some e) (wf_failedAt wf) (wf_cancelledAt wf).

Definition set_wf_failedAt (t : Z) (wf : Workflow) : Workflow :=
  mkWorkflow (wf_id wf) (wf_instruction wf) (wf_options wf) (wf_status wf) (wf_createdAt wf)
             (wf_steps wf) (wf_plan wf) (wf_result wf) (wf_completedAt wf)
             (wf_error wf) (Some t) (wf_cancelledAt wf).

Definition set_wf_cancelledAt (t : Z) (wf : Workflow) : Workflow :=
  mkWorkflow (wf_id wf) (wf_instruction wf) (wf_options wf) (wf_status wf) (wf_createdAt wf)
             (wf_steps wf) (wf_plan wf) (wf_result wf) (wf_completedAt wf)
             (wf_error wf) (wf_failedAt wf) (Some t).

(** Reading the object behind a reference. A reference handed out by
    [alloc] is never dangling; the second branch is there for totality. *)
Definition deref (l : nat) : M Workflow :=
  fun _ w =>
    match heap w !! l with
    | Some wf => (Normal wf, w)
    | None => (Throw (Error "dangling reference"), w)
    end.

(** An assignment to a field of the object behind a reference. *)
Definition update_wf (l : nat) (f : Workflow -> Workflow) : M unit :=
  modify (fun w => set_heap (alter f l (heap w)) w).

(** A new object; its reference is returned. *)
Definition alloc (wf : Workflow) : M nat :=
  fun _ w => (Normal (length (heap w)), set_heap (heap w ++ [wf]) w).

(** ** Promises of provider calls *)

Record Promise (A : Type) := mkPromise {
  settles_after : Z;
  outcome : Completion A
}.
Arguments mkPromise {A} _ _.
Arguments settles_after {A} _.
Arguments outcome {A} _.

Definition rejected {A : Type} (e : JSValue) : Promise A := mkPromise 0 (Throw e).

(** The body of an [async] function up to its first [await]: what it
    throws there becomes a promise that is already rejected. *)
Definition async {A : Type} (body : M (Promise A)) : M (Promise A) :=
  try_catch body (fun e => ret (rejected e)).

(** [await p] *)
Definition await {A : Type} (p : Promise A) : M A :=
  sleep (settles_after p) ;;;
  match outcome p with
  | Normal a => ret a
  | Throw e => throw e
  end.

(** Calling the method [meth] of an integration. The call is appended to
    the trace the moment it is made. *)
Definition call_method (path name : string) (ig : Integration) (meth : string)
    (arguments : list JSValue) : M (Promise JSValue) :=
  match ig meth with
  | None => throw (TypeError (path +:+ "." +:+ meth +:+ " is not a function"))
  | Some f =>
      w <- get_world ;;
      let reply := f (calls w) arguments in
      modify (fun w => set_calls (calls w ++ [mkCall name meth arguments]) w) ;;;
      ret (mkPromise (latency reply)
             (match settle reply with
              | Resolves v => Normal v
              | Rejects e => Throw e
              end))
  end.

(** The listeners [OrchestrationEngine.setupEventListeners] registers on
    the executor: the engine forgets a workflow when the executor reports
    it completed or failed, and emits the event again under its own name.
    [emitted] is the sequence of events the engine has emitted. *)
Definition setupEventListeners (ev : Event) (w : World) : World :=
  let w' :=
    match ev with
    | WorkflowStarted _ _ => w
    | WorkflowCompleted data =>
        set_activeWorkflows (delete (fin_workflowId data) (activeWorkflows w)) w
    | WorkflowFailed data =>
        set_activeWorkflows (delete (fail_workflowId data) (activeWorkflows w)) w
    end in
  set_emitted (emitted w' ++ [ev]) w'.

(** [v === 'literal'] *)
Definition strict_eq_string (v : JSValue) (literal : string) : bool :=
  match v with
  | JString s => String.eqb s literal
  | _ => false
  end.

(** [ToNumber], as far as the integers go. *)
Definition ToNumber (env : Env) (v : JSValue) : option Z :=
  match v with
  | JUndefined => None
  | JNull => Some 0
  | JBool b => Some (if b then 1 else 0)
  | JNumber n => Some n
  | JString s => StringToNumber env s
  | JArray _ | JObject _ => StringToNumber env (ToString v)
  end.

(** The delay [setTimeout(callback, timeout)] arms the timer with: the
    runtime converts [timeout] to a number and replaces anything outside
    the range from 1 to 2^31 - 1 (and [NaN]) by 1. *)
Definition timer_delay (env : Env) (timeout : JSValue) : Z :=
  match ToNumber env timeout with
  | Some n => if Z.leb 1 n && Z.leb n 2147483647 then n else 1
  | None => 1
  end.

(** What a plain object inherits from [Object.prototype]: eleven
    functions and, under [__proto__], the prototype itself. *)
Definition Object_prototype : list string :=
  ["constructor"; "__defineGetter__"; "__defineSetter__"; "hasOwnProperty";
   "__lookupGetter__"; "__lookupSetter__"; "isPrototypeOf"; "propertyIsEnumerable";
   "toString"; "valueOf"; "__proto__"; "toLocaleString"].

(** [this.integrations[integrationName]] converts the key to a string.
    The registry is an object literal (the entry point builds it from
    [{}], the tests write it out), so a name it does not hold is looked
    up on [Object.prototype]; what is found there is truthy and has none
    of the methods of an integration. *)
Definition lookup_integration (env : Env) (name : string) : option Integration :=
  match integrations env name with
  | Some integration => Some integration
  | None =>
      if bool_decide (name ∈ Object_prototype) then Some (fun _ => None) else None
  end.

(** ** Workflow executor (state-manager.js, class WorkflowExecutor) *)

Module WorkflowExecutor.

(** An update of [this.runningWorkflows]. *)
Definition modify_running (f : gmap string nat -> gmap string nat) : M unit :=
  modify (fun w => set_workflowExecutor (f <$> workflowExecutor w) w).

(** [this.emit(name, data)], with the engine's listeners. *)
Definition emit (ev : Event) : M unit := modify (setupEventListeners ev).

(** The part of a step handler after its [await]: it wraps the data
    the provider resolved with and stamps the time of settlement. *)
Definition then_result (kind : string) (p : Promise JSValue) : M (Promise StepResult) :=
  t <- now ;;
  ret (mkPromise (settles_after p)
         (match outcome p with
          | Normal data => Normal (mkStepResult kind data (t + settles_after p))
          | Throw e => Throw e
          end)).

Definition handleAnalyzeStep (name : string) (integration : Integration)
    (parameters : JSValue) (workflow : Workflow) : M (Promise StepResult) :=
  async (p <- call_method "integration" name integration "analyzeRequirements"
                [JString (wf_instruction workflow); parameters] ;;
         then_result "analysis" p).

Definition handleGenerateCodeStep (name : string) (integration : Integration)
    (parameters : JSValue) (workflow : Workflow) : M (Promise StepResult) :=
  async (p <- call_method "integration" name integration "generateCode"
                [JString (wf_instruction workflow); parameters] ;;
         then_result "code_generation" p).

Definition handleRunTestsStep (name : string) (integration : Integration)
    (parameters : JSValue) (workflow : Workflow) : M (Promise StepResult) :=
  async (p <- call_method "integration" name integration "runTests" [parameters] ;;
         then_result "test_results" p).

Definition handleCommitChangesStep (name : string) (integration : Integration)
    (parameters : JSValue) (workflow : Workflow) : M (Promise StepResult) :=
  async (message <- get_prop parameters "message" ;;
         files <- get_prop parameters "files" ;;
         branch <- get_prop parameters "branch" ;;
         p <- call_method "integration" name integration "commitChanges"
                [JObject
                   [("message",
                     js_or message
                       (JString ("Automated commit for workflow " +:+ wf_id workflow)));
                    ("files", js_or files (JArray []));
                    ("branch", js_or branch (JString "main"))]] ;;
         then_result "commit" p).

Definition handleMonitorStep (name : string) (integration : Integration)
    (parameters : JSValue) (workflow : Workflow) : M (Promise StepResult) :=
  async (p <- call_method "integration" name integration "setupMonitoring"
                [JString (wf_id workflow); parameters] ;;
         then_result "monitoring" p).

Definition handleDeployStep (name : string) (integration : Integration)
    (parameters : JSValue) (workflow : Workflow) : M (Promise StepResult) :=
  async (p <- call_method "integration" name integration "deploy" [parameters] ;;
         then_result "deployment" p).

Definition runStepWithIntegration (type integrationName parameters : JSValue)
    (workflow : Workflow) : M (Promise StepResult) :=
  async (env <- ask ;;
         let name := ToString integrationName in
         match lookup_integration env name with
         | None => throw (Error ("Integration '" +:+ name +:+ "' not found"))
         | Some integration =>
             if strict_eq_string type "analyze"
             then handleAnalyzeStep name integration parameters workflow
             else if strict_eq_string type "generate_code"
             then handleGenerateCodeStep name integration parameters workflow
             else if strict_eq_string type "run_tests"
             then handleRunTestsStep name integration parameters workflow
             else if strict_eq_string type "commit_changes"
             then handleCommitChangesStep name integration parameters workflow
             else if strict_eq_string type "monitor"
             then handleMonitorStep name integration parameters workflow
             else if strict_eq_string type "deploy"
             then handleDeployStep name integration parameters workflow
             else throw (Error ("Unknown step type: " +:+ ToString type))
         end).

(** The error the timer of [executeStep] rejects with. *)
Definition timeout_error (step : Step) : JSValue :=
  Error ("Step " +:+ ToString (step_id step) +:+ " timed out after "
         +:+ ToString (step_timeout step) +:+ "ms").

(** [Promise.race([stepPromise, timeoutPromise])]: the step promise is
    created first, so it wins when both settle at the same instant.
    Abandoning the wait does not undo the provider call. *)
Definition executeStep (step : Step) (workflow : Workflow) : M StepResult :=
  stepPromise <- runStepWithIntegration (step_type step) (step_integration step)
                   (step_parameters step) workflow ;;
  env <- ask ;;
  let delay := timer_delay env (step_timeout step) in
  if Z.leb (settles_after stepPromise) delay
  then await stepPromise
  else (sleep delay ;;; throw (timeout_error step)).

(** [results.filter(r => r.data && !r.error).length]: a step result
    has no [error] property. *)
Definition count_successful (results : list StepResult) : nat :=
  length (filter (fun r => truthy (result_data r) = true) results).

(** [...v] in an argument list: the entries of an array, the code
    points of a string. *)
Definition spread (v : JSValue) : M (list JSValue) :=
  match v with
  | JArray items => ret items
  | JString s => ret (map JString (code_points s))
  | _ => throw (TypeError "Spread syntax requires ...iterable[Symbol.iterator] to be a function")
  end.

(** The callback of [results.forEach] in [generateSummary]. *)
Definition summarize (summary : Summary) (result : StepResult) : M Summary :=
  s1 <- (if String.eqb (result_type result) "code_generation"
         then files <- get_prop (result_data result) "files" ;;
              if truthy files
              then items <- spread files ;;
                   ret (mkSummary (totalSteps summary) (successfulSteps summary)
                          (executionTime summary) (artifacts summary ++ items)
                          (recommendations summary) (testsPassed summary)
                          (testsFailed summary) (commitSha summary) (commitUrl summary))
              else ret summary
         else ret summary) ;;
  s2 <- (if String.eqb (result_type result) "test_results"
         then passed <- get_prop (result_data result) "passed" ;;
              failed <- get_prop (result_data result) "failed" ;;
              ret (mkSummary (totalSteps s1) (successfulSteps s1)
                     (executionTime s1) (artifacts s1) (recommendations s1)
                     (Some (js_or passed (JNumber 0)))
                     (Some (js_or failed (JNumber 0)))
                     (commitSha s1) (commitUrl s1))
         else ret s1) ;;
  if String.eqb (result_type result) "commit"
  then sha <- get_prop (result_data result) "sha" ;;
       html_url <- get_prop (result_data result) "html_url" ;;
       ret (mkSummary (totalSteps s2) (successfulSteps s2)
              (executionTime s2) (artifacts s2) (recommendations s2)
              (testsPassed s2) (testsFailed s2) (Some sha) (Some html_url))
  else ret s2.

Fixpoint forEach (results : list StepResult) (summary : Summary) : M Summary :=
  match results with
  | [] => ret summary
  | result :: rest => s <- summarize summary result ;; forEach rest s
  end.

Definition generateSummary (results : list StepResult) : M Summary :=
  forEach results
    {| totalSteps := length results;
       successfulSteps := count_successful results;
       executionTime := 0;
       artifacts := [];
       recommendations := [];
       testsPassed := None;
       testsFailed := None;
       commitSha := None;
       commitUrl := None |}.

(** The [for] loop of [execute]. [results] is declared before the
    [try], and the [catch] block reads its length: the loop hands back
    the results gathered so far together with the value a step threw,
    if one did. The handlers read [workflow.id] and
    [workflow.instruction] the moment they are called: they are given
    the object as it is then. *)
Fixpoint run_steps (steps : list Step) (workflow : nat) (results : list StepResult)
    : M (list StepResult * option JSValue) :=
  match steps with
  | [] => ret (results, None)
  | step :: rest =>
      r <- attempt (wf <- deref workflow ;; executeStep step wf) ;;
      match r with
      | Throw error => ret (results, Some error)
      | Normal stepResult =>
          executedAt <- now ;;
          update_wf workflow
            (fun wf => set_wf_steps
                         (wf_steps wf
                          ++ [mkStepRecord step "completed" stepResult executedAt])
                         wf) ;;;
          run_steps rest workflow (results ++ [stepResult])
      end
  end.

(** The [catch] block of [execute]. *)
Definition on_error (id : string) (plan : Plan) (results : list StepResult)
    (error : JSValue) : M FinalResult :=
  message <- get_prop error "message" ;;
  emit (WorkflowFailed
          {| fail_workflowId := id;
             fail_status := "failed";
             fail_error := message;
             fail_completedSteps := length results;
             fail_totalSteps := length (plan_steps plan) |}) ;;;
  throw error.

(** [execute(workflow)]. Reading [plan.steps.length] for the log line
    before the [try] throws when the workflow has no plan. *)
Definition execute (workflow : nat) : M FinalResult :=
  wf <- deref workflow ;;
  let id := wf_id wf in
  modify_running (insert id workflow) ;;;
  emit (WorkflowStarted id (wf_plan wf)) ;;;
  match wf_plan wf with
  | None => throw (TypeError "Cannot read properties of undefined (reading 'steps')")
  | Some plan =>
      try_finally
        (ran <- run_steps (plan_steps plan) workflow [] ;;
         match ran with
         | (results, Some error) => on_error id plan results error
         | (results, None) =>
             try_catch
               (summary <- generateSummary results ;;
                let finalResult :=
                  {| fin_workflowId := id;
                     fin_status := "completed";
                     fin_steps := results;
                     fin_summary := summary |} in
                emit (WorkflowCompleted finalResult) ;;;
                ret finalResult)
               (on_error id plan results)
         end)
        (modify_running (delete id))
  end.

(** [cancel(workflowId)] *)
Definition cancel (workflowId : string) : M unit :=
  w <- get_world ;;
  match workflowExecutor w ≫= (fun runningWorkflows => runningWorkflows !! workflowId) with
  | Some workflow =>
      update_wf workflow (set_wf_status cancelling) ;;;
      modify_running (delete workflowId)
  | None => ret tt
  end.

End WorkflowExecutor.

(** ** Orchestration facade (orchestration-engine.js) *)

(** What [getMetrics()] of the engine returns, [process.uptime()] left
    aside. *)
Record EngineMetrics := mkEngineMetrics {
  em_activeWorkflows : nat;
  em_totalWorkflows : Z;
  em_successRate : Q;
  em_averageDuration : Q
}.

Module OrchestrationEngine.

(** The engine as its constructor leaves it, in a runtime that has not
    drawn an identifier or called a provider yet. *)
Definition constructor : World :=
  {| isInitialized := false;
     activeWorkflows := ∅;
     workflowExecutor := None;
     stateManager := None;
     heap := [];
     clock := 0;
     uuid_count := 0%nat;
     calls := [];
     emitted := [] |}.

(** [initialize()]: the components are created, the listeners of
    [setupEventListeners] are attached to the new executor. *)
Definition initialize : M unit :=
  modify (fun w =>
            set_isInitialized true
              (set_stateManager (Some StateManager.initial)
                 (set_workflowExecutor (Some ∅) w))).

Definition prompt (instruction : string) : string :=
  "
Analyze this development instruction and create a detailed workflow plan:
" +:+ dquote +:+ instruction +:+ dquote +:+ "

Consider these available integrations:
- GitHub API (repository management, commits, PRs)
- Playwright (testing, browser automation)
- Phoenix (monitoring, observability)
- FastMCP (inter-service communication)

Create a step-by-step plan with:
1. Code analysis/generation steps
2. Testing requirements
3. Repository operations
4. Monitoring setup
5. Deployment considerations

Respond with a JSON workflow plan.
".

Definition createWorkflowPlan (instruction : string) (options : JSValue) : M Plan :=
  env <- ask ;;
  match integrations env "taskMaster" with
  | None => throw (TypeError "Cannot read properties of undefined (reading 'generatePlan')")
  | Some taskMaster =>
      generated <- call_method "this.integrations.taskMaster" "taskMaster" taskMaster
                     "generatePlan" [JString (prompt instruction); options] ;;
      aiResponse <- await generated ;;
      parseWorkflowPlan aiResponse
  end.

(** Lines 60-70 of [executeWorkflow]: the workflow object is created
    and registered under a fresh identifier. *)
Definition new_workflow (instruction : string) (options : JSValue) : M (string * nat) :=
  workflowId <- uuidv4 ;;
  createdAt <- now ;;
  workflow <- alloc {| wf_id := workflowId;
                       wf_instruction := instruction;
                       wf_options := options;
                       wf_status := pending;
                       wf_createdAt := createdAt;
                       wf_steps := [];
                       wf_plan := None;
                       wf_result := None;
                       wf_completedAt := None;
                       wf_error := None;
                       wf_failedAt := None;
                       wf_cancelledAt := None |} ;;
  modify (fun w => set_activeWorkflows (<[workflowId := workflow]> (activeWorkflows w)) w) ;;;
  ret (workflowId, workflow).

(** [this.workflowExecutor.execute(workflow)] *)
Definition workflowExecutor_execute (workflow : nat) : M FinalResult :=
  w <- get_world ;;
  match workflowExecutor w with
  | None => throw (TypeError "Cannot read properties of null (reading 'execute')")
  | Some _ => WorkflowExecutor.execute workflow
  end.

(** [this.workflowExecutor.cancel(workflowId)] *)
Definition workflowExecutor_cancel (workflowId : string) : M unit :=
  w <- get_world ;;
  match workflowExecutor w with
  | None => throw (TypeError "Cannot read properties of null (reading 'cancel')")
  | Some _ => WorkflowExecutor.cancel workflowId
  end.

(** The [try] block of [executeWorkflow]. *)
Definition run_workflow (workflowId : string) (workflow : nat)
    (instruction : string) (options : JSValue) : M Envelope :=
  plan <- createWorkflowPlan instruction options ;;
  update_wf workflow (set_wf_plan plan) ;;;
  update_wf workflow (set_wf_status running) ;;;
  result <- workflowExecutor_execute workflow ;;
  update_wf workflow (set_wf_status completed) ;;;
  update_wf workflow (set_wf_result result) ;;;
  completedAt <- now ;;
  update_wf workflow (set_wf_completedAt completedAt) ;;;
  ret {| success := true;
         env_workflowId := workflowId;
         env_result := Some result;
         env_error := None |}.

(** The [catch] block of [executeWorkflow]. *)
Definition on_failure (workflowId : string) (workflow : nat) (error : JSValue) : M Envelope :=
  update_wf workflow (set_wf_status failed) ;;;
  message <- get_prop error "message" ;;
  update_wf workflow (set_wf_error message) ;;;
  failedAt <- now ;;
  update_wf workflow (set_wf_failedAt failedAt) ;;;
  ret {| success := false;
         env_workflowId := workflowId;
         env_result := None;
         env_error := Some message |}.

Definition executeWorkflow (instruction : string) (options : JSValue) : M Envelope :=
  w <- get_world ;;
  if negb (isInitialized w)
  then throw (Error "Orchestration Engine not initialized")
  else
    created <- new_workflow instruction options ;;
    let '(workflowId, workflow) := created in
    try_catch (run_workflow workflowId workflow instruction options)
              (on_failure workflowId workflow).

(** [getWorkflowStatus(workflowId)] returns the registered object. *)
Definition getWorkflowStatus (workflowId : string) : M nat :=
  w <- get_world ;;
  match activeWorkflows w !! workflowId with
  | None => throw (Error ("Workflow " +:+ workflowId +:+ " not found"))
  | Some workflow => ret workflow
  end.

Definition cancelWorkflow (workflowId : string) : M nat :=
  w <- get_world ;;
  match activeWorkflows w !! workflowId with
  | None => throw (Error ("Workflow " +:+ workflowId +:+ " not found"))
  | Some workflow =>
      wf <- deref workflow ;;
      (match wf_status wf with
       | running =>
           workflowExecutor_cancel workflowId ;;;
           update_wf workflow (set_wf_status cancelled) ;;;
           cancelledAt <- now ;;
           update_wf workflow (set_wf_cancelledAt cancelledAt)
       | _ => ret tt
       end) ;;;
      modify (fun w => set_activeWorkflows (delete workflowId (activeWorkflows w)) w) ;;;
      ret workflow
  end.

Definition getMetrics : M EngineMetrics :=
  w <- get_world ;;
  match stateManager w with
  | None => throw (TypeError "Cannot read properties of null (reading 'getTotalWorkflows')")
  | Some m =>
      ret {| em_activeWorkflows := size (activeWorkflows w);
             em_totalWorkflows := StateManager.getTotalWorkflows m;
             em_successRate := StateManager.getSuccessRate m;
             em_averageDuration := StateManager.getAverageDuration m |}
  end.

End OrchestrationEngine.

(** ** Task queue (task-queue.js, class TaskQueue)

    The queue is driven by events that interleave freely: a caller
    enqueues a task, starts or stops the admission loop, the loop wakes
    from its 100 ms sleep, a task that was started settles. Each event is
    one synchronous stretch of code, run here as one function on the
    state of the queue; the time of the event is handed to it. *)

Module TaskQueue.

Inductive TaskStatus : Type := queued | processing | completed | failed.

(** The argument of [addTask]; [raw_id] is [None] when [task.id] is
    missing. *)
Record RawTask := mkRawTask {
  raw_id : option string;
  raw_type : JSValue;
  raw_data : JSValue
}.

Record Task := mkTask {
  id : string;
  type : JSValue;
  data : JSValue;
  status : TaskStatus;
  queuedAt : Z;
  startedAt : option Z;
  result : option JSValue;
  completedAt : option Z;
  error : option JSValue;
  failedAt : option Z
}.

(** The fields of the queue, and with them the calls of [processTask]
    that have not settled yet ([inflight]), the admission loops that
    are asleep ([loops]) and the events emitted so far. *)
Record State := mkState {
  queue : list Task;
  is_processing : bool;
  maxConcurrent : nat;
  activeJobs : gset string;
  inflight : list Task;
  loops : nat;
  events : list (string * Task)
}.

Definition constructor : State :=
  {| queue := [];
     is_processing := false;
     maxConcurrent := 3;
     activeJobs := ∅;
     inflight := [];
     loops := 0;
     events := [] |}.

(** [task.id || Date.now().toString()] *)
Definition task_id (task : RawTask) (now : Z) : string :=
  match raw_id task with
  | Some i => if String.eqb i EmptyString then ToString (JNumber now) else i
  | None => ToString (JNumber now)
  end.

Definition addTask (task : RawTask) (now : Z) (q : State) : string * State :=
  let queuedTask :=
    {| id := task_id task now;
       type := raw_type task;
       data := raw_data task;
       status := queued;
       queuedAt := now;
       startedAt := None;
       result := None;
       completedAt := None;
       error := None;
       failedAt := None |} in
  (id queuedTask,
   mkState (queue q ++ [queuedTask]) (is_processing q) (maxConcurrent q)
           (activeJobs q) (inflight q) (loops q)
           (events q ++ [("task:queued", queuedTask)])).

(** [processTask(task)] up to its [await]. *)
Definition processTask (task : Task) (now : Z) (q : State) : State :=
  let started :=
    mkTask (id task) (type task) (data task) processing (queuedAt task)
           (Some now) (result task) (completedAt task) (error task) (failedAt task) in
  mkState (queue q) (is_processing q) (maxConcurrent q)
          ({[ id task ]} ∪ activeJobs q) (inflight q ++ [started]) (loops q)
          (events q ++ [("task:started", started)]).

(** [executeTask(task)]: the three handlers are stubs that resolve at
    once. *)
Definition executeTask (task : Task) : Completion JSValue :=
  if strict_eq_string (type task) "code_analysis"
  then Normal (JObject [("analyzed", JBool true); ("metrics", JObject [])])
  else if strict_eq_string (type task) "test_execution"
  then Normal (JObject [("passed", JNumber 0); ("failed", JNumber 0);
                        ("coverage", JNumber 0)])
  else if strict_eq_string (type task) "deployment"
  then Normal (JObject [("deployed", JBool true); ("url", JString EmptyString)])
  else Throw (Error ("Unknown task type: " +:+ ToString (type task))).

(** [processTask] from its [await] on, for the call at position [i] of
    [inflight]. A thrown value without a [message] is not met here:
    [executeTask] throws [Error]s only. *)
Definition settle (i : nat) (now : Z) (q : State) : State :=
  match inflight q !! i with
  | None => q
  | Some task =>
      let '(finished, name) :=
        match executeTask task with
        | Normal r =>
            (mkTask (id task) (type task) (data task) completed (queuedAt task)
                    (startedAt task) (Some r) (Some now) (error task) (failedAt task),
             "task:completed")
        | Throw e =>
            (mkTask (id task) (type task) (data task) failed (queuedAt task)
                    (startedAt task) (result task) (completedAt task)
                    (Some (own_prop e "message")) (Some now),
             "task:failed")
        end in
      mkState (queue q) (is_processing q) (maxConcurrent q)
              (activeJobs q ∖ {[ id task ]}) (delete i (inflight q)) (loops q)
              (events q ++ [(name, finished)])
  end.

(** The body of the [while] loop of [startProcessing], up to its
    [await]. *)
Definition poll (now : Z) (q : State) : State :=
  match queue q with
  | task :: rest =>
      if decide (size (activeJobs q) < maxConcurrent q)%nat
      then processTask task now
             (mkState rest (is_processing q) (maxConcurrent q)
                      (activeJobs q) (inflight q) (loops q) (events q))
      else q
  | [] => q
  end.

(** [startProcessing()]: returns at once when the queue is processing
    already; otherwise a new loop runs its first round and goes to
    sleep. *)
Definition startProcessing (now : Z) (q : State) : State :=
  if is_processing q then q
  else poll now
         (mkState (queue q) true (maxConcurrent q) (activeJobs q)
                  (inflight q) (S (loops q)) (events q)).

(** A sleeping loop wakes: it ends when [processing] has been cleared
    and runs another round otherwise. *)
Definition wake (now : Z) (q : State) : State :=
  match loops q with
  | O => q
  | S n =>
      if is_processing q then poll now q
      else mkState (queue q) (is_processing q) (maxConcurrent q) (activeJobs q)
                   (inflight q) n (events q)
  end.

Definition stop (q : State) : State :=
  mkState (queue q) false (maxConcurrent q) (activeJobs q)
          (inflight q) (loops q) (events q).

(** [initialize()] *)
Definition initialize (now : Z) (q : State) : State := startProcessing now q.

Record QueueStatus := mkQueueStatus {
  qs_queued : nat;
  qs_active : nat;
  qs_processing : bool
}.

Definition getQueueStatus (q : State) : QueueStatus :=
  {| qs_queued := length (queue q);
     qs_active := size (activeJobs q);
     qs_processing := is_processing q |}.

(** The events of the queue's life. *)
Inductive Action : Type :=
  | Enqueue (task : RawTask) (now : Z)
  | Start (now : Z)
  | Wake (now : Z)
  | Settle (i : nat) (now : Z)
  | Stop.

Definition step (a : Action) (q : State) : State :=
  match a with
  | Enqueue task now => snd (addTask task now q)
  | Start now => startProcessing now q
  | Wake now => wake now q
  | Settle i now => settle i now q
  | Stop => stop q
  end.

(** The queue after a sequence of events, oldest first. *)
Definition run (actions : list Action) (q : State) : State :=
  fold_left (fun q a => step a q) actions q.

End TaskQueue.

(** ** A concrete runtime for the examples

    Stub providers in the manner of the repository's test-suite
    (tests/setup.js): every method resolves after 5 ms with a fixed
    value. *)

Module Sample.

Definition uuid (n : nat) : string := "uuid-" +:+ pretty n.

(** [JSON.parse] on the sources the examples use: three JSON texts, and
    prose, which is not JSON. *)
Definition parse (source : string) : option JSValue :=
  if String.eqb source "{}" then Some (JObject [])
  else if String.eqb source "null" then Some JNull
  else if String.eqb source "[null]" then Some (JArray [JNull])
  else None.

(** No example arms a timer with a string. *)
Definition to_number (s : string) : option Z := None.

Definition resolves (ms : Z) (v : JSValue) : Method := fun _ _ => mkReply ms (Resolves v).
Definition rejects (ms : Z) (e : JSValue) : Method := fun _ _ => mkReply ms (Rejects e).

(** An integration with the methods listed. *)
Fixpoint methods (table : list (string * Method)) : Integration :=
  fun name =>
    match table with
    | [] => None
    | (n, m) :: rest => if String.eqb name n then Some m else methods rest name
    end.

Fixpoint registry (table : list (string * Integration)) : string -> option Integration :=
  fun name =>
    match table with
    | [] => None
    | (n, ig) :: rest => if String.eqb name n then Some ig else registry rest name
    end.

(** The three providers of the fallback plan; [generatePlan] answers
    with [aiResponse]. *)
Definition providers (generatePlan generateCode : Method) : string -> option Integration :=
  registry
    [ ("taskMaster",
       methods [ ("generatePlan", generatePlan);
                 ("analyzeRequirements",
                  resolves 5 (JObject [("requirements", JString "mock requirements")]));
                 ("generateCode", generateCode) ]);
      ("playwright",
       methods [ ("runTests",
                  resolves 5 (JObject [("passed", JNumber 1); ("failed", JNumber 0)])) ]);
      ("github",
       methods [ ("commitChanges", resolves 5 (JObject [("sha", JString "mock-sha")])) ]) ].

Definition runtime (generatePlan generateCode : Method) : Env :=
  {| uuid_of := uuid;
     JSON_parse := parse;
     StringToNumber := to_number;
     integrations := providers generatePlan generateCode |}.

(** A plan provider that answers with prose, and a code generator that
    returns no files. *)
Definition prose : Method := resolves 5 (JString "Sure! First analyze, then write the code.").
Definition no_files : Method := resolves 5 (JObject [("files", JArray [])]).

(** A code generator that rejects, one that is slower than the timeout
    of its step (120000 ms), one that resolves with nothing; a plan
    provider that rejects with nothing. *)
Definition overloaded : Method := rejects 5 (Error "model overloaded").
Definition slow : Method := resolves 200000 (JObject [("files", JArray [])]).
Definition nothing : Method := resolves 5 JUndefined.
Definition rejects_nothing : Method := rejects 5 JUndefined.

(** An initialized engine. *)
Definition engine : World :=
  snd (OrchestrationEngine.initialize (runtime prose no_files)
         OrchestrationEngine.constructor).

(** The engine with a pending workflow in its registry, and with a
    running one (the workflows the test-suite registers by hand). *)
Definition with_pending : World :=
  snd (OrchestrationEngine.new_workflow "Test instruction" (JObject [])
         (runtime prose no_files) engine).

Definition with_running : World :=
  snd (update_wf 0 (set_wf_status running) (runtime prose no_files) with_pending).

(** A burst of five tasks, then the admission loop is started and wakes
    four times while nothing settles; then one task settles and the
    loop wakes again. *)
Definition task (name : string) : TaskQueue.RawTask :=
  {| TaskQueue.raw_id := Some name;
     TaskQueue.raw_type := JString "code_analysis";
     TaskQueue.raw_data := JObject [] |}.

Definition burst : list TaskQueue.Action :=
  [ TaskQueue.Enqueue (task "a") 0; TaskQueue.Enqueue (task "b") 0;
    TaskQueue.Enqueue (task "c") 0; TaskQueue.Enqueue (task "d") 0;
    TaskQueue.Enqueue (task "e") 0;
    TaskQueue.Start 1; TaskQueue.Wake 101; TaskQueue.Wake 201; TaskQueue.Wake 301 ].

End Sample.

(** ** Notions the properties are stated with *)

(** The fallback plan, whatever identifiers were drawn for its steps. *)
Definition is_fallback (p : Plan) : Prop :=
  exists id1 id2 id3 id4 : string, p = fallbackPlan id1 id2 id3 id4.

(** The raw source parses into an object that has a sequence under
    [steps]. *)
Definition has_steps_sequence (env : Env) (source : JSValue) : bool :=
  match JSON_parse env (ToString source) with
  | Some (JObject fields) => isArray (own_prop (JObject fields) "steps")
  | _ => false
  end.

(** The parsed values on which coercion throws: [null], whose
    properties cannot be read, and a value whose [steps] is an array with
    a [null] (or [undefined]) entry. *)
Definition coercion_throws (v : JSValue) : bool :=
  nullish v
  || match own_prop v "steps" with
     | JArray items => existsb nullish items
     | _ => false
     end.

(** The raw sources on which parsing or coercion throws. *)
Definition normalization_throws (env : Env) (source : JSValue) : bool :=
  match JSON_parse env (ToString source) with
  | None => true
  | Some v => coercion_throws v
  end.

(** What the coercion of a raw step does to a field that has a default. *)
Definition defaulted (raw : JSValue) (field : string) (fallback : JSValue)
    (validated : JSValue) : Prop :=
  if truthy (own_prop raw field)
  then validated = own_prop raw field
  else validated = fallback.

(** What the coercion of a raw step guarantees of the validated one. *)
Definition coerced (raw : JSValue) (s : Step) : Prop :=
  defaulted raw "parameters" (JObject []) (step_parameters s)
  /\ defaulted raw "timeout" (JNumber 60000) (step_timeout s)
  /\ defaulted raw "retryCount" (JNumber 2) (step_retryCount s)
  /\ step_type s = own_prop raw "type"
  /\ step_integration s = own_prop raw "integration".

(** The world after [n] more identifiers have been drawn. *)
Definition drawn (n : nat) (w : World) : World := set_uuid_count (n + uuid_count w) w.

(** A computation that changes the clock and the trace of provider
    calls and nothing else, and whose course depends on them alone. *)
Definition runtime_only {A : Type} (m : M A) : Prop :=
  forall env w, exists r t c,
    forall w', clock w' = clock w -> calls w' = calls w ->
               m env w' = (r, set_clock t (set_calls c w')).

(** [workflow.steps.push(...)] for each of [recs]. *)
Definition append_log (recs : list StepRecord) (wf : Workflow) : Workflow :=
  set_wf_steps (wf_steps wf ++ recs) wf.

(** The world after a run of the loop that pushed [recs] onto the log of
    the workflow at [l] and left the clock at [t] and the trace at [c]. *)
Definition looped (recs : list StepRecord) (l : nat) (t : Z) (c : list Call)
    (w : World) : World :=
  set_heap (alter (append_log recs) l (heap w)) (set_clock t (set_calls c w)).

(** The world when [execute] enters its [try] block: the workflow is
    in [runningWorkflows] and its start has been announced. *)
Definition entered (id : string) (l : nat) (plan : option Plan) (w : World) : World :=
  setupEventListeners (WorkflowStarted id plan)
    (set_workflowExecutor (insert id l <$> workflowExecutor w) w).

(** The world when [execute] has left its [finally] block. *)
Definition left_running (id : string) (w : World) : World :=
  set_workflowExecutor (delete id <$> workflowExecutor w) w.

(** The payload of [workflow:failed]. *)
Definition failure (id : string) (plan : Plan) (results : list StepResult)
    (error : JSValue) : FailureResult :=
  {| fail_workflowId := id;
     fail_status := "failed";
     fail_error := own_prop error "message";
     fail_completedSteps := length results;
     fail_totalSteps := length (plan_steps plan) |}.

(** The [TypeError] of reading [message] from [null] or [undefined]. *)
Definition no_message (e : JSValue) : JSValue :=
  TypeError ("Cannot read properties of " +:+ ToString e +:+ " (reading 'message')").

(** The world when the engine hands the workflow at [l] to the
    executor: the plan is attached and the status is [running]. *)
Definition attached (plan : Plan) (l : nat) (w : World) : World :=
  set_heap (alter (set_wf_status running) l (alter (set_wf_plan plan) l (heap w))) w.

(** The workflow object [executeWorkflow] creates. *)
Definition created (id instruction : string) (options : JSValue) (t : Z) : Workflow :=
  {| wf_id := id;
     wf_instruction := instruction;
     wf_options := options;
     wf_status := pending;
     wf_createdAt := t;
     wf_steps := [];
     wf_plan := None;
     wf_result := None;
     wf_completedAt := None;
     wf_error := None;
     wf_failedAt := None;
     wf_cancelledAt := None |}.

(** The assignments of the [catch] block of [executeWorkflow]. *)
Definition marked_failed (message : JSValue) (l : nat) (w : World) : World :=
  set_heap
    (alter (set_wf_failedAt (clock w)) l
       (alter (set_wf_error message) l
          (alter (set_wf_status failed) l (heap w)))) w.

(** The assignments that end the [try] block of [executeWorkflow]. *)
Definition marked_completed (result : FinalResult) (l : nat) (w : World) : World :=
  set_heap
    (alter (set_wf_completedAt (clock w)) l
       (alter (set_wf_result result) l
          (alter (set_wf_status completed) l (heap w)))) w.

(** A computation that neither reads nor writes the world. *)
Definition pure_comp {A : Type} (m : M A) : Prop :=
  exists r, forall env w, m env w = (r, w).

(** The values [...v] accepts. *)
Definition iterable (v : JSValue) : bool :=
  match v with
  | JArray _ | JString _ => true
  | _ => false
  end.

(** The step results [generateSummary] can read: the data of a
    code-generation, test or commit result is neither [null] nor
    [undefined], and the [files] of a code-generation result, when
    truthy, can be spread. *)
Definition readable (r : StepResult) : bool :=
  (if String.eqb (result_type r) "code_generation"
   then negb (nullish (result_data r))
        && (negb (truthy (own_prop (result_data r) "files"))
            || iterable (own_prop (result_data r) "files"))
   else true)
  && (if String.eqb (result_type r) "test_results"
      then negb (nullish (result_data r)) else true)
  && (if String.eqb (result_type r) "commit"
      then negb (nullish (result_data r)) else true).

(** The plan provider rejects with errors, never with [null] or
    [undefined]. *)
Definition plan_provider_throws_errors (env : Env) : Prop :=
  forall taskMaster generatePlan history arguments e,
    integrations env "taskMaster" = Some taskMaster ->
    taskMaster "generatePlan" = Some generatePlan ->
    settle (generatePlan history arguments) = Rejects e ->
    nullish e = false.

(** A computation every run of which relates the world it starts in to
    the world it ends in by [P]. *)
Definition respects (P : World -> World -> Prop) {A : Type} (m : M A) : Prop :=
  forall env w, P w (snd (m env w)).

Definition same_clock (w w' : World) : Prop := clock w' = clock w.

Definition same_metrics (w w' : World) : Prop := stateManager w' = stateManager w.

(** * The rest of the core

    The parts of the three files that the claims leave aside: the store
    of saved states of the aggregator, the routes that expose the engine
    over HTTP (task-queue.js, class APIRoutes), and the notions the
    further properties of the executor, the engine and the queue are
    stated with. *)

(** ** Object literals and array methods *)

(** The own enumerable properties that [{ ...v }] copies, in order:
    the fields of an object, the entries of an array under their
    indices, the code units of a string under theirs. *)
Definition own_properties (v : JSValue) : list (string * JSValue) :=
  match v with
  | JObject fields => fields
  | JArray items => imap (fun i x => (pretty i, x)) items
  | JString s => imap (fun i c => (pretty i, JString c)) (code_units s)
  | _ => []
  end.

(** [k: v] in an object literal, after the properties [fields]: a
    property of that name keeps its place and takes the new value. *)
Fixpoint define_property (k : string) (v : JSValue) (fields : list (string * JSValue))
    : list (string * JSValue) :=
  match fields with
  | [] => [(k, v)]
  | (k', v') :: rest =>
      if String.eqb k k' then (k, v) :: rest
      else (k', v') :: define_property k v rest
  end.

(** [s.includes(needle)] on strings. *)
Fixpoint substring (needle s : string) : bool :=
  String.prefix needle s
  || match s with
     | EmptyString => false
     | String _ rest => substring needle rest
     end.

(** [v.includes(needle)]: the method of strings and of arrays; other
    values have no such method. *)
Definition includes (v : JSValue) (needle : string) : M bool :=
  match v with
  | JString s => ret (substring needle s)
  | JArray items => ret (existsb (fun item => strict_eq_string item needle) items)
  | JUndefined | JNull =>
      throw (TypeError ("Cannot read properties of " +:+ ToString v
                        +:+ " (reading 'includes')"))
  | _ => throw (TypeError "error.message.includes is not a function")
  end.

(** [Array.prototype.slice(start, end)]: a negative index counts from
    the end of the array, and both are clamped to its bounds. *)
Definition relative_index (len k : Z) : Z :=
  if Z.ltb k 0 then Z.max (len + k) 0 else Z.min k len.

Definition slice {A : Type} (l : list A) (start finish : Z) : list A :=
  let len := Z.of_nat (length l) in
  let k := relative_index len start in
  let final := relative_index len finish in
  take (Z.to_nat (final - k)) (drop (Z.to_nat k) l).

(** ** Saved workflow states (state-manager.js, StateManager.workflows) *)

Module WorkflowStates.

(** An entry of [StateManager.workflows]: [{ ...state, lastUpdated }].
    [saved] holds the properties copied from [state], a [lastUpdated] of
    its own apart: the literal overwrites it. The time is kept in
    milliseconds, as everywhere. *)
Record SavedState := mkSavedState {
  saved : list (string * JSValue);
  lastUpdated : Z
}.

(** [new Map()] *)
Definition constructor : gmap string SavedState := ∅.

Definition saveWorkflowState (workflowId : string) (state : JSValue) (now : Z)
    (workflows : gmap string SavedState) : gmap string SavedState :=
  <[workflowId :=
      {| saved := filter (fun p => p.1 <> "lastUpdated") (own_properties state);
         lastUpdated := now |}]> workflows.

(** [getWorkflowState(workflowId)]: [None] is [undefined]. *)
Definition getWorkflowState (workflowId : string)
    (workflows : gmap string SavedState) : option SavedState :=
  workflows !! workflowId.

(** [cleanup()]: the loop over the entries of the map, which deletes
    those last updated before the cutoff, 24 hours before [now]. *)
Definition cleanup (now : Z) (workflows : gmap string SavedState)
    : gmap string SavedState :=
  let cutoff := now - 24 * 60 * 60 * 1000 in
  fold_left
    (fun remaining entry =>
       if decide (lastUpdated entry.2 < cutoff)
       then delete entry.1 remaining
       else remaining)
    (map_to_list workflows) workflows.

End WorkflowStates.

(** ** HTTP routes (task-queue.js, class APIRoutes) *)

Module APIRoutes.

(** What a handler sends with [res.status(code).json(body)]; the status
    is 200 unless the handler sets it. The bodies:
    - [ValidationFailed details] is [{ error: 'Validation failed', details }],
    - [NotFound error] is [{ error }],
    - [InternalServerError message] is
      [{ error: 'Internal server error', message }],
    - [Unsuccessful error message] is [{ success: false, error, message }],
    - [TheWorkflow workflow] is the workflow object,
    - [Cancelled workflow] is
      [{ message: 'Workflow cancelled successfully', workflow }],
    - [Outcome result] is the envelope of [executeWorkflow],
    - [Page workflows page limit total totalPages] is
      [{ workflows, pagination: { page, limit, total, totalPages } }]. *)
Inductive Body : Type :=
  | ValidationFailed (details : list JSValue)
  | NotFound (error : JSValue)
  | InternalServerError (message : JSValue)
  | Unsuccessful (error : string) (message : JSValue)
  | TheWorkflow (workflow : Workflow)
  | Cancelled (workflow : Workflow)
  | Outcome (result : Envelope)
  | Page (workflows : list Workflow) (page limit : Z) (total : nat) (totalPages : Z).

Record Response := mkResponse {
  statusCode : Z;
  sent : Body
}.

(** [!errors.isEmpty()], where [errors] is [validationResult(req)]: the
    errors the validators of the route have found in the request. *)
Definition invalid (errors : list JSValue) : bool :=
  match errors with [] => false | _ => true end.

(** [handleGetWorkflowStatus(req, res)], for a request with the route
    parameter [workflowId]. [res.json(workflow)] sends the workflow
    object as it is then. *)
Definition handleGetWorkflowStatus (errors : list JSValue) (workflowId : string)
    : M Response :=
  try_catch
    (if invalid errors
     then ret (mkResponse 400 (ValidationFailed errors))
     else workflow <- OrchestrationEngine.getWorkflowStatus workflowId ;;
          sent_workflow <- deref workflow ;;
          ret (mkResponse 200 (TheWorkflow sent_workflow)))
    (fun error =>
       message <- get_prop error "message" ;;
       found <- includes message "not found" ;;
       if found
       then ret (mkResponse 404 (NotFound message))
       else ret (mkResponse 500 (InternalServerError message))).

Definition handleCancelWorkflow (errors : list JSValue) (workflowId : string)
    : M Response :=
  try_catch
    (if invalid errors
     then ret (mkResponse 400 (ValidationFailed errors))
     else workflow <- OrchestrationEngine.cancelWorkflow workflowId ;;
          sent_workflow <- deref workflow ;;
          ret (mkResponse 200 (Cancelled sent_workflow)))
    (fun error =>
       message <- get_prop error "message" ;;
       found <- includes message "not found" ;;
       if found
       then ret (mkResponse 404 (NotFound message))
       else ret (mkResponse 500 (InternalServerError message))).

(** [handleExecuteWorkflow(req, res)], for a request whose body carries
    the string [instruction] and [options] ([undefined] when it carries
    none); [headers] is [req.headers]. *)
Definition handleExecuteWorkflow (errors : list JSValue) (instruction : string)
    (options headers : JSValue) : M Response :=
  try_catch
    (if invalid errors
     then ret (mkResponse 400 (ValidationFailed errors))
     else
       let options := match options with JUndefined => JObject [] | _ => options end in
       requestId <- get_prop headers "x-request-id" ;;
       userAgent <- get_prop headers "user-agent" ;;
       result <- OrchestrationEngine.executeWorkflow instruction
                   (JObject
                      (define_property "userAgent" (js_or userAgent (JString "unknown"))
                         (define_property "requestId" (js_or requestId JNull)
                            (own_properties options)))) ;;
       ret (mkResponse (if success result then 200 else 500) (Outcome result)))
    (fun error =>
       message <- get_prop error "message" ;;
       ret (mkResponse 500 (InternalServerError message))).

(** The instruction [handleDeploy] makes of [environment] and [branch]. *)
Definition deploymentInstruction (environment branch : JSValue) : string :=
  "Deploy application to " +:+ ToString environment +:+ " environment"
  +:+ (if truthy branch then " from " +:+ ToString branch +:+ " branch" else EmptyString).

(** [handleDeploy(req, res)]; [body] is [req.body]. The destructuring
    [{ environment, branch, ...options } = req.body] throws on [null]
    and [undefined]. *)
Definition handleDeploy (errors : list JSValue) (body : JSValue) : M Response :=
  try_catch
    (if invalid errors
     then ret (mkResponse 400 (ValidationFailed errors))
     else if nullish body
     then throw (TypeError ("Cannot destructure property 'environment' of 'req.body' as it is "
                            +:+ ToString body +:+ "."))
     else
       let environment := own_prop body "environment" in
       let branch := own_prop body "branch" in
       let options :=
         filter (fun p => p.1 <> "environment" /\ p.1 <> "branch") (own_properties body) in
       result <- OrchestrationEngine.executeWorkflow
                   (deploymentInstruction environment branch)
                   (JObject
                      (define_property "branch" (js_or branch (JString "main"))
                         (define_property "environment" environment
                            (define_property "type" (JString "deployment") options)))) ;;
       ret (mkResponse 200 (Outcome result)))
    (fun error =>
       message <- get_prop error "message" ;;
       ret (mkResponse 500 (Unsuccessful "Deployment failed" message))).

Section Pagination.

(** [parseInt] of the runtime: [None] is [NaN]. *)
Variable parseInt : JSValue -> option Z.

(** [parseInt(v) || fallback] *)
Definition parsed_or (v : JSValue) (fallback : Z) : Z :=
  match parseInt v with
  | Some n => if Z.eqb n 0 then fallback else n
  | None => fallback
  end.

(** [Math.ceil(total / limit)], for a [limit] that is not 0. *)
Definition pages (total : nat) (limit : Z) : Z := - ((- Z.of_nat total) / limit).

(** [handleGetActiveWorkflows(req, res)]. [workflows] is
    [Array.from(activeWorkflows.values())], the registered workflows in
    the order of their registration, and [query] is [req.query]; reading
    [req.query.page] is all that can throw in the [try] block. *)
Definition handleGetActiveWorkflows (workflows : list Workflow) (query : JSValue)
    : Response :=
  if nullish query
  then mkResponse 500
         (InternalServerError
            (JString ("Cannot read properties of " +:+ ToString query
                      +:+ " (reading 'page')")))
  else
    let page := parsed_or (own_prop query "page") 1 in
    let limit := parsed_or (own_prop query "limit") 10 in
    let startIndex := (page - 1) * limit in
    let endIndex := startIndex + limit in
    let paginatedWorkflows := slice workflows startIndex endIndex in
    mkResponse 200
      (Page paginatedWorkflows page limit (length workflows)
            (pages (length workflows) limit)).

End Pagination.

End APIRoutes.

(** ** Notions of the further properties *)

(** The metrics of an aggregator that has been told of [workflows], one
    after the other, with [updateMetrics]. *)
Definition told (workflows : list Workflow) : Metrics :=
  fold_left (fun m workflow => StateManager.updateMetrics workflow m)
            workflows StateManager.initial.

(** The workflows with a given status. *)
Definition with_status (s : Status) (workflows : list Workflow) : list Workflow :=
  filter (fun workflow => wf_status workflow = s) workflows.

(** [new Date(workflow.completedAt) - new Date(workflow.createdAt)] *)
Definition duration (workflow : Workflow) : Z :=
  match wf_completedAt workflow with
  | Some completedAt => completedAt - wf_createdAt workflow
  | None => 0
  end.

Definition total_duration (workflows : list Workflow) : Z :=
  foldr Z.add 0 (map duration workflows).

(** The identifiers of the tasks the queue has announced under the
    event [name], oldest first. *)
Definition announced (name : string) (q : TaskQueue.State) : list string :=
  map (fun ev => TaskQueue.id ev.2) (filter (fun ev => ev.1 = name) (TaskQueue.events q)).

(** The identifiers of the tasks that wait in the queue, and of those
    whose [processTask] has not settled. *)
Definition waiting (q : TaskQueue.State) : list string := map TaskQueue.id (TaskQueue.queue q).

Definition in_flight (q : TaskQueue.State) : list string :=
  map TaskQueue.id (TaskQueue.inflight q).

(** The identifiers [addTask] gives the tasks enqueued by [actions]. *)
Definition enqueued (actions : list TaskQueue.Action) : list string :=
  flat_map (fun a => match a with
                     | TaskQueue.Enqueue task now => [TaskQueue.task_id task now]
                     | _ => []
                     end) actions.

(** No call of [startProcessing] among [actions]. *)
Definition never_started (actions : list TaskQueue.Action) : Prop :=
  Forall (fun a => match a with TaskQueue.Start _ => False | _ => True end) actions.

(** The invariant of first-in, first-out admission and of the
    accounting of tasks. *)
Definition accounted (q : TaskQueue.State) : Prop :=
  (announced "task:started" q ++ waiting q)%list = announced "task:queued" q
  /\ (length (announced "task:started" q)
      = length (in_flight q) + length (announced "task:completed" q)
        + length (announced "task:failed" q))%nat.

(** Every identifier in [activeJobs] is the identifier of a task in
    flight. *)
Definition covered (q : TaskQueue.State) : Prop :=
  TaskQueue.activeJobs q ⊆ list_to_set (in_flight q).

(** The identifiers in the queue are pairwise distinct and were given
    by [addTask] to one of the tasks [seen]; [activeJobs] holds the
    identifiers of the tasks in flight. *)
Definition tracked (seen : list string) (q : TaskQueue.State) : Prop :=
  NoDup (in_flight q ++ waiting q)
  /\ (forall x, x ∈ (in_flight q ++ waiting q)%list -> x ∈ seen)
  /\ TaskQueue.activeJobs q = list_to_set (in_flight q).

(** The step types [runStepWithIntegration] has a handler for. *)
Definition handled (type : JSValue) : bool :=
  existsb (strict_eq_string type)
    ["analyze"; "generate_code"; "run_tests"; "commit_changes"; "monitor"; "deploy"].

(** A computation that makes at most [n] provider calls: it appends at
    most [n] entries to the trace and rewrites none. *)
Definition calls_at_most (n : nat) {A : Type} (m : M A) : Prop :=
  forall env w, exists made,
    calls (snd (m env w)) = (calls w ++ made)%list /\ (length made <= n)%nat.

(** The artifacts a step result contributes to the summary: the
    entries of the [files] of a code-generation result, which are the
    code points of a [files] that is a string. *)
Definition files_of (result : StepResult) : list JSValue :=
  if String.eqb (result_type result) "code_generation"
  then match own_prop (result_data result) "files" with
       | JArray items => items
       | JString s => map JString (code_points s)
       | _ => []
       end
  else [].

(** The step results of a given type, in order. *)
Definition of_type (kind : string) (results : list StepResult) : list StepResult :=
  filter (fun result => result_type result = kind) results.

(** What the summary holds of the last result among [results], and the
    value it held before when there is none. *)
Definition latest {A : Type} (read : StepResult -> A) (results : list StepResult)
    (before : option A) : option A :=
  match last results with
  | Some result => Some (read result)
  | None => before
  end.

(** A computation that, in the runtime [env], lets at most [d]
    milliseconds pass. *)
Definition takes_at_most (env : Env) (d : Z) {A : Type} (m : M A) : Prop :=
  forall w, clock (snd (m env w)) <= clock w + d.

(** The time the timers of [steps] allow: the sum of their delays. *)
Definition allowance (env : Env) (steps : list Step) : Z :=
  foldr (fun step sum => timer_delay env (step_timeout step) + sum) 0 steps.

(** The identifier counter never goes back. *)
Definition uuid_grows (w w' : World) : Prop := (uuid_count w <= uuid_count w')%nat.

(** The workflows a response lists. *)
Definition listed (response : APIRoutes.Response) : list Workflow :=
  match APIRoutes.sent response with
  | APIRoutes.Page workflows _ _ _ _ => workflows
  | _ => []
  end.

(** The options [handleExecuteWorkflow] hands to the engine. *)
Definition request_options (options headers : JSValue) : JSValue :=
  JObject
    (define_property "userAgent" (js_or (own_prop headers "user-agent") (JString "unknown"))
       (define_property "requestId" (js_or (own_prop headers "x-request-id") JNull)
          (own_properties (match options with JUndefined => JObject [] | _ => options end)))).

(** The options [handleDeploy] hands to the engine. *)
Definition deploy_options (body : JSValue) : JSValue :=
  JObject
    (define_property "branch" (js_or (own_prop body "branch") (JString "main"))
       (define_property "environment" (own_prop body "environment")
          (define_property "type" (JString "deployment")
             (filter (fun p => p.1 <> "environment" /\ p.1 <> "branch")
                     (own_properties body))))).

(** ** Further examples *)

Module Scenario.

Definition env : Env := Sample.runtime Sample.prose Sample.overloaded.

(** A plan of one step. *)
Definition analyze_only : Plan :=
  {| plan_steps :=
       [fallbackStep "step-1" "analyze" "Analyze requirements" "taskMaster" 30000 1];
     estimatedDuration := JNumber 300;
     priority := JString "medium";
     dependencies := JArray [];
     rollbackStrategy := JString "automatic" |}.

(** The engine as it hands a workflow with that plan to the executor. *)
Definition planned : World :=
  snd (update_wf 0 (set_wf_plan analyze_only) env Sample.with_running).

(** A workflow that took from [createdAt] to [completedAt]. *)
Definition finished (id : string) (createdAt completedAt : Z) : Workflow :=
  set_wf_completedAt completedAt
    (set_wf_status completed (created id "Test instruction" (JObject []) createdAt)).

(** [parseInt] on numbers. *)
Definition parseInt (v : JSValue) : option Z :=
  match v with
  | JNumber n => Some n
  | _ => None
  end.

(** Two tasks arrive at a queue that was never started; its loop, were
    there one, would wake; the queue is stopped. *)
Definition idle : list TaskQueue.Action :=
  [ TaskQueue.Enqueue (Sample.task "a") 0; TaskQueue.Enqueue (Sample.task "b") 5;
    TaskQueue.Wake 100; TaskQueue.Stop ].

End Scenario.

(** * Properties *)

(** ** The monad *)

Lemma bind_Normal {A B : Type} (m : M A) (f : A -> M B) env w a w' :
  m env w = (Normal a, w') -> bind m f env w = f a env w'.
Proof. intros H. unfold bind. rewrite H. reflexivity. Qed.

Lemma bind_Throw {A B : Type} (m : M A) (f : A -> M B) env w e w' :
  m env w = (Throw e, w') -> bind m f env w = (Throw e, w').
Proof. intros H. unfold bind. rewrite H. reflexivity. Qed.

Lemma get_prop_defined v k env w :
  nullish v = false -> get_prop v k env w = (Normal (own_prop v k), w).
Proof. intros H. unfold get_prop. rewrite H. reflexivity. Qed.

Lemma get_prop_nullish v k env w :
  nullish v = true -> exists e, get_prop v k env w = (Throw e, w).
Proof. intros H. unfold get_prop. rewrite H. eexists. reflexivity. Qed.

(** ** Plan normalizer *)

Lemma drawn_0 w : drawn 0 w = w.
Proof. destruct w. reflexivity. Qed.

Lemma drawn_S n w : set_uuid_count (S (uuid_count (drawn n w))) (drawn n w) = drawn (S n) w.
Proof. destruct w. reflexivity. Qed.

Lemma validateStep_defined step env w :
  nullish step = false ->
  exists s n,
    validateStep step env w = (Normal s, drawn n w)
    /\ defaulted step "parameters" (JObject []) (step_parameters s)
    /\ defaulted step "timeout" (JNumber 60000) (step_timeout s)
    /\ defaulted step "retryCount" (JNumber 2) (step_retryCount s)
    /\ step_type s = own_prop step "type"
    /\ step_integration s = own_prop step "integration".
Proof.
  intros Hs. unfold validateStep.
  rewrite (bind_Normal _ _ _ _ _ _ (get_prop_defined step "id" env w Hs)).
  assert (Hfields : forall (id : JSValue) w1,
    exists s,
      (ty <- get_prop step "type" ;;
       description <- get_prop step "description" ;;
       integration <- get_prop step "integration" ;;
       parameters <- get_prop step "parameters" ;;
       timeout <- get_prop step "timeout" ;;
       retryCount <- get_prop step "retryCount" ;;
       ret {| step_id := id;
              step_type := ty;
              step_description := description;
              step_integration := integration;
              step_parameters := js_or parameters (JObject []);
              step_timeout := js_or timeout (JNumber 60000);
              step_retryCount := js_or retryCount (JNumber 2) |}) env w1
      = (Normal s, w1)
      /\ defaulted step "parameters" (JObject []) (step_parameters s)
      /\ defaulted step "timeout" (JNumber 60000) (step_timeout s)
      /\ defaulted step "retryCount" (JNumber 2) (step_retryCount s)
      /\ step_type s = own_prop step "type"
      /\ step_integration s = own_prop step "integration").
  { intros id w1. eexists. split.
    - repeat (erewrite bind_Normal; [| apply get_prop_defined; exact Hs]).
      reflexivity.
    - unfold defaulted, js_or; cbn [step_parameters step_timeout step_retryCount
                                     step_type step_integration].
      repeat split;
        match goal with |- context [truthy ?v] => destruct (truthy v) end;
        reflexivity. }
  destruct (truthy (own_prop step "id")) eqn:Hid.
  - destruct (Hfields (own_prop step "id") w) as (s & Hrun & Hrest).
    exists s, 0%nat. rewrite drawn_0.
    unfold bind at 1, ret at 1. split; [exact Hrun | exact Hrest].
  - destruct (Hfields (JString (uuid_of env (uuid_count w)))
                (set_uuid_count (S (uuid_count w)) w)) as (s & Hrun & Hrest).
    exists s, 1%nat. split; [| exact Hrest].
    unfold bind at 1. unfold bind at 1, uuidv4, ret at 1.
    replace (drawn 1 w) with (set_uuid_count (S (uuid_count w)) w)
      by (destruct w; reflexivity).
    exact Hrun.
Qed.

Lemma drawn_drawn n m w : drawn n (drawn m w) = drawn (n + m) w.
Proof. destruct w. unfold drawn, set_uuid_count. cbn. f_equal. lia. Qed.

Lemma validateStep_nullish step env w :
  nullish step = true -> exists e, validateStep step env w = (Throw e, w).
Proof.
  intros Hs. unfold validateStep.
  destruct (get_prop_nullish step "id" env w Hs) as [e He].
  exists e. apply bind_Throw. exact He.
Qed.

Lemma mapM_validateStep_defined items env w :
  existsb nullish items = false ->
  exists steps n,
    mapM validateStep items env w = (Normal steps, drawn n w)
    /\ Forall2 coerced items steps.
Proof.
  revert w. induction items as [| raw items IH]; intros w Hall.
  - exists [], 0%nat. rewrite drawn_0. split; [reflexivity | constructor].
  - cbn [existsb] in Hall. apply orb_false_iff in Hall as [Hraw Hitems].
    destruct (validateStep_defined raw env w Hraw) as (s & n & Hs & Hco).
    destruct (IH (drawn n w) Hitems) as (steps & m & Hsteps & Hall2).
    exists (s :: steps), (m + n)%nat. split.
    + cbn [mapM]. rewrite (bind_Normal _ _ _ _ _ _ Hs).
      rewrite (bind_Normal _ _ _ _ _ _ Hsteps).
      rewrite drawn_drawn. reflexivity.
    + constructor; [exact Hco | exact Hall2].
Qed.

Lemma mapM_validateStep_throws items env w :
  existsb nullish items = true ->
  exists e n, mapM validateStep items env w = (Throw e, drawn n w).
Proof.
  revert w. induction items as [| raw items IH]; intros w Hex.
  - discriminate.
  - cbn [existsb] in Hex. destruct (nullish raw) eqn:Hraw.
    + destruct (validateStep_nullish raw env w Hraw) as [e He].
      exists e, 0%nat. rewrite drawn_0. cbn [mapM]. apply bind_Throw. exact He.
    + cbn [orb] in Hex.
      destruct (validateStep_defined raw env w Hraw) as (s & n & Hs & _).
      destruct (IH (drawn n w) Hex) as (e & m & He).
      exists e, (m + n)%nat. cbn [mapM].
      rewrite (bind_Normal _ _ _ _ _ _ Hs).
      rewrite (bind_Throw _ _ _ _ _ _ He).
      rewrite drawn_drawn. reflexivity.
Qed.

Lemma validateWorkflowPlan_throws plan env w :
  coercion_throws plan = true ->
  exists e n, validateWorkflowPlan plan env w = (Throw e, drawn n w).
Proof.
  unfold coercion_throws. intros Hthrows. unfold validateWorkflowPlan.
  destruct (nullish plan) eqn:Hplan.
  - destruct (get_prop_nullish plan "estimatedDuration" env w Hplan) as [e He].
    exists e, 0%nat. rewrite drawn_0. apply bind_Throw. exact He.
  - cbn [orb] in Hthrows.
    repeat (erewrite bind_Normal; [| apply get_prop_defined; exact Hplan]).
    destruct (own_prop plan "steps") as [| | | | | items |] eqn:Hsteps;
      try discriminate.
    cbn [truthy isArray andb].
    destruct (mapM_validateStep_throws items env w Hthrows) as (e & n & He).
    exists e, n. apply bind_Throw. exact He.
Qed.

Lemma validateWorkflowPlan_defined plan env w :
  coercion_throws plan = false ->
  exists p n,
    validateWorkflowPlan plan env w = (Normal p, drawn n w)
    /\ match own_prop plan "steps" with
       | JArray items => Forall2 coerced items (plan_steps p)
       | _ => plan_steps p = []
       end
    /\ estimatedDuration p = js_or (own_prop plan "estimatedDuration") (JNumber 300)
    /\ priority p = js_or (own_prop plan "priority") (JString "medium").
Proof.
  unfold coercion_throws. intros Hthrows.
  apply orb_false_iff in Hthrows as [Hplan Hitems].
  unfold validateWorkflowPlan.
  repeat (erewrite bind_Normal; [| apply get_prop_defined; exact Hplan]).
  destruct (own_prop plan "steps") as [| | b | k | s | items | fields] eqn:Hsteps.
  1-5, 7: cbn [isArray]; rewrite andb_false_r;
    eexists; exists 0%nat; rewrite drawn_0;
    (split; [unfold bind at 1, ret at 1; reflexivity | cbn; auto]).
  cbn [truthy isArray andb].
  destruct (mapM_validateStep_defined items env w Hitems) as (steps & n & Hrun & Hall).
  eexists; exists n.
  rewrite (bind_Normal _ _ _ _ _ _ Hrun).
  split; [reflexivity |]. cbn. auto.
Qed.

Lemma createFallbackPlan_run env w :
  createFallbackPlan env w
  = (Normal (fallbackPlan (uuid_of env (uuid_count w))
                          (uuid_of env (1 + uuid_count w))
                          (uuid_of env (2 + uuid_count w))
                          (uuid_of env (3 + uuid_count w))),
     drawn 4 w).
Proof. destruct w. reflexivity. Qed.

Lemma parseWorkflowPlan_fallback source env w :
  normalization_throws env source = true ->
  exists n, parseWorkflowPlan source env w = createFallbackPlan env (drawn n w).
Proof.
  unfold normalization_throws, parseWorkflowPlan, try_catch, JSON_parse_or_throw.
  intros Hthrows. unfold bind at 1. unfold bind at 1, ask.
  destruct (JSON_parse env (ToString source)) as [v |].
  - destruct (validateWorkflowPlan_throws v env w Hthrows) as (e & n & He).
    exists n. unfold ret at 1. rewrite He. reflexivity.
  - exists 0%nat. rewrite drawn_0. reflexivity.
Qed.

Lemma parseWorkflowPlan_validated source env w v :
  JSON_parse env (ToString source) = Some v ->
  coercion_throws v = false ->
  parseWorkflowPlan source env w = validateWorkflowPlan v env w.
Proof.
  intros Hparse Hv.
  unfold parseWorkflowPlan, try_catch, JSON_parse_or_throw.
  unfold bind at 1. unfold bind at 1, ask. rewrite Hparse. unfold ret at 1.
  destruct (validateWorkflowPlan_defined v env w Hv) as (p & n & Hrun & _).
  rewrite Hrun. reflexivity.
Qed.

(** The result of normalization is a plan, never an exception. *)
Lemma parseWorkflowPlan_returns source env w :
  exists p n, parseWorkflowPlan source env w = (Normal p, drawn n w).
Proof.
  destruct (normalization_throws env source) eqn:Hthrows.
  - destruct (parseWorkflowPlan_fallback source env w Hthrows) as [n Hrun].
    rewrite Hrun, createFallbackPlan_run, drawn_drawn. eauto.
  - unfold normalization_throws in Hthrows.
    destruct (JSON_parse env (ToString source)) as [v |] eqn:Hparse; [| discriminate].
    rewrite (parseWorkflowPlan_validated source env w v Hparse Hthrows).
    destruct (validateWorkflowPlan_defined v env w Hthrows) as (p & n & Hrun & _).
    eauto.
Qed.

(** C3 (as amended). Plan normalization never throws, and for every raw
    plan source on which parsing or coercion throws (the text is not
    JSON, it parses to [null], or its [steps] array has a [null] entry)
    it returns the fixed fallback plan: the four steps analyze,
    generate_code, run_tests, commit_changes in this order, priority
    medium. *)
Theorem parseWorkflowPlan_never_throws (env : Env) (w : World) (source : JSValue) :
  exists p w',
    parseWorkflowPlan source env w = (Normal p, w')
    /\ (normalization_throws env source = true ->
        is_fallback p
        /\ map step_type (plan_steps p)
           = [JString "analyze"; JString "generate_code";
              JString "run_tests"; JString "commit_changes"]
        /\ priority p = JString "medium").
Proof.
  destruct (normalization_throws env source) eqn:Hthrows.
  - destruct (parseWorkflowPlan_fallback source env w Hthrows) as [n Hrun].
    rewrite Hrun, createFallbackPlan_run.
    eexists. eexists. split; [reflexivity |].
    intros _. split; [| split; reflexivity].
    do 4 eexists. reflexivity.
  - destruct (parseWorkflowPlan_returns source env w) as (p & n & Hrun).
    exists p, (drawn n w). split; [exact Hrun | discriminate].
Qed.

(** C9 (as amended). Normalization always yields a plan with a step
    list, and the list has: the 4 steps of the fallback when parsing or
    coercion throws; as many steps as the parsed [steps] array has
    entries when there is such an array; no step at all when the parsed
    value carries no array under [steps]. *)
Theorem parseWorkflowPlan_step_count (env : Env) (w : World) (source : JSValue) :
  exists p w',
    parseWorkflowPlan source env w = (Normal p, w')
    /\ match JSON_parse env (ToString source) with
       | None => length (plan_steps p) = 4%nat
       | Some v =>
           if coercion_throws v then length (plan_steps p) = 4%nat
           else match own_prop v "steps" with
                | JArray items => length (plan_steps p) = length items
                | _ => plan_steps p = []
                end
       end.
Proof.
  destruct (normalization_throws env source) eqn:Hthrows.
  - destruct (parseWorkflowPlan_fallback source env w Hthrows) as [n Hrun].
    rewrite Hrun, createFallbackPlan_run.
    eexists. eexists. split; [reflexivity |].
    unfold normalization_throws in Hthrows.
    destruct (JSON_parse env (ToString source)) as [v |]; [| reflexivity].
    rewrite Hthrows. reflexivity.
  - unfold normalization_throws in Hthrows.
    destruct (JSON_parse env (ToString source)) as [v |] eqn:Hparse; [| discriminate].
    rewrite (parseWorkflowPlan_validated source env w v Hparse Hthrows).
    destruct (validateWorkflowPlan_defined v env w Hthrows) as (p & n & Hrun & Hsteps & _).
    exists p, (drawn n w). split; [exact Hrun |].
    rewrite Hthrows.
    destruct (own_prop v "steps"); try exact Hsteps.
    symmetry. eapply Forall2_length. exact Hsteps.
Qed.

(** C10. During plan validation a raw step whose [timeout] or
    [retryCount] is falsy, 0 included, gets the default (60000, 2): no
    validated step has a timeout or a retry count of 0. *)
Theorem validateWorkflowPlan_falsy_defaults (env : Env) (w : World)
    (plan : JSValue) (items : list JSValue) :
  nullish plan = false ->
  own_prop plan "steps" = JArray items ->
  existsb nullish items = false ->
  exists p w',
    validateWorkflowPlan plan env w = (Normal p, w')
    /\ Forall2
         (fun raw s =>
            (truthy (own_prop raw "timeout") = false -> step_timeout s = JNumber 60000)
            /\ (truthy (own_prop raw "retryCount") = false -> step_retryCount s = JNumber 2)
            /\ step_timeout s <> JNumber 0
            /\ step_retryCount s <> JNumber 0)
         items (plan_steps p).
Proof.
  intros Hplan Hsteps Hitems.
  assert (Hco : coercion_throws plan = false).
  { unfold coercion_throws. rewrite Hplan, Hsteps. exact Hitems. }
  destruct (validateWorkflowPlan_defined plan env w Hco) as (p & n & Hrun & Hall & _).
  exists p, (drawn n w). split; [exact Hrun |].
  rewrite Hsteps in Hall.
  eapply Forall2_impl; [exact Hall |].
  intros raw s (_ & Ht & Hr & _). unfold defaulted in Ht, Hr.
  destruct (truthy (own_prop raw "timeout")) eqn:Htt;
    destruct (truthy (own_prop raw "retryCount")) eqn:Hrt;
    rewrite ?Ht, ?Hr; repeat split; try discriminate; try reflexivity;
    intros Heq; rewrite Heq in *; discriminate.
Qed.

(** A raw step with a timeout and a retry count of 0. *)
Lemma validateWorkflowPlan_falsy_defaults_witness :
  exists p w',
    validateWorkflowPlan
      (JObject [("steps",
                 JArray [JObject [("type", JString "deploy");
                                  ("timeout", JNumber 0);
                                  ("retryCount", JNumber 0)]])])
      (Sample.runtime Sample.prose Sample.no_files) Sample.engine
    = (Normal p, w')
    /\ Forall2
         (fun raw s =>
            (truthy (own_prop raw "timeout") = false -> step_timeout s = JNumber 60000)
            /\ (truthy (own_prop raw "retryCount") = false -> step_retryCount s = JNumber 2)
            /\ step_timeout s <> JNumber 0
            /\ step_retryCount s <> JNumber 0)
         [JObject [("type", JString "deploy");
                   ("timeout", JNumber 0);
                   ("retryCount", JNumber 0)]]
         (plan_steps p).
Proof.
  apply validateWorkflowPlan_falsy_defaults; reflexivity.
Defined.

(** The plan provider answered with prose. *)
Lemma parseWorkflowPlan_never_throws_witness :
  normalization_throws (Sample.runtime Sample.prose Sample.no_files)
    (JString "Sure! First analyze, then write the code.") = true
  /\ exists p w',
       parseWorkflowPlan (JString "Sure! First analyze, then write the code.")
         (Sample.runtime Sample.prose Sample.no_files) Sample.engine = (Normal p, w')
       /\ is_fallback p.
Proof.
  split; [reflexivity |].
  destruct (parseWorkflowPlan_never_throws
              (Sample.runtime Sample.prose Sample.no_files) Sample.engine
              (JString "Sure! First analyze, then write the code."))
    as (p & w' & Hrun & Hfallback).
  exists p, w'. split; [exact Hrun |].
  apply Hfallback. reflexivity.
Defined.

(** C3, as stated, fails: the source [{}] does not parse into an object
    with a steps sequence, yet normalization returns a plan that is not
    the fallback (it has no steps, and an estimated duration of 300). *)
Lemma parseWorkflowPlan_empty_object_not_fallback :
  has_steps_sequence (Sample.runtime Sample.prose Sample.no_files) (JString "{}") = false
  /\ exists p w',
       parseWorkflowPlan (JString "{}")
         (Sample.runtime Sample.prose Sample.no_files) Sample.engine = (Normal p, w')
       /\ plan_steps p = []
       /\ ~ is_fallback p.
Proof.
  split; [reflexivity |].
  eexists. eexists. split; [reflexivity |]. split; [reflexivity |].
  intros (id1 & id2 & id3 & id4 & H). discriminate H.
Qed.

(** C9, as stated, fails: the plan validated from the object
    [{ steps: 'not-an-array' }] of the test-suite has no step, and so has
    the plan normalized from the source [{}]. *)
Lemma validateWorkflowPlan_without_steps_is_empty :
  (exists p w',
      validateWorkflowPlan (JObject [("steps", JString "not-an-array")])
        (Sample.runtime Sample.prose Sample.no_files) Sample.engine = (Normal p, w')
      /\ plan_steps p = [])
  /\ (exists p w',
        parseWorkflowPlan (JString "{}")
          (Sample.runtime Sample.prose Sample.no_files) Sample.engine = (Normal p, w')
        /\ length (plan_steps p) = 0%nat).
Proof.
  split; eexists; eexists; (split; [reflexivity |]); reflexivity.
Qed.


(** ** What a step may touch *)

Lemma set_clock_calls_twice t c t' c' w :
  set_clock t' (set_calls c' (set_clock t (set_calls c w))) = set_clock t' (set_calls c' w).
Proof. destruct w. reflexivity. Qed.

Lemma set_clock_calls_same w : set_clock (clock w) (set_calls (calls w) w) = w.
Proof. destruct w. reflexivity. Qed.

Lemma runtime_only_ret {A : Type} (a : A) : runtime_only (ret a).
Proof.
  intros env w. exists (Normal a), (clock w), (calls w). intros w' Hc Hk.
  rewrite <- Hc, <- Hk, set_clock_calls_same. reflexivity.
Qed.

Lemma runtime_only_throw {A : Type} (e : JSValue) : runtime_only (@throw A e).
Proof.
  intros env w. exists (Throw e), (clock w), (calls w). intros w' Hc Hk.
  rewrite <- Hc, <- Hk, set_clock_calls_same. reflexivity.
Qed.

Lemma runtime_only_ask : runtime_only ask.
Proof.
  intros env w. exists (Normal env), (clock w), (calls w). intros w' Hc Hk.
  rewrite <- Hc, <- Hk, set_clock_calls_same. reflexivity.
Qed.

Lemma runtime_only_now : runtime_only now.
Proof.
  intros env w. exists (Normal (clock w)), (clock w), (calls w). intros w' Hc Hk.
  unfold now. rewrite <- Hc, <- Hk, set_clock_calls_same. reflexivity.
Qed.

Lemma runtime_only_sleep ms : runtime_only (sleep ms).
Proof.
  intros env w. exists (Normal tt), (clock w + ms), (calls w). intros w' Hc Hk.
  unfold sleep, modify. rewrite <- Hc, <- Hk. destruct w'. reflexivity.
Qed.

Lemma runtime_only_get_prop v k : runtime_only (get_prop v k).
Proof.
  unfold get_prop. destruct (nullish v);
    [apply runtime_only_throw | apply runtime_only_ret].
Qed.

Lemma runtime_only_bind {A B : Type} (m : M A) (f : A -> M B) :
  runtime_only m -> (forall a, runtime_only (f a)) -> runtime_only (bind m f).
Proof.
  intros Hm Hf env w. destruct (Hm env w) as (r & t & c & Hr).
  destruct r as [a | e].
  - destruct (Hf a env (set_clock t (set_calls c w))) as (r' & t' & c' & Hr').
    exists r', t', c'. intros w' Hc Hk. unfold bind. rewrite (Hr w' Hc Hk).
    rewrite (Hr' (set_clock t (set_calls c w'))) by (destruct w, w'; reflexivity).
    rewrite set_clock_calls_twice. reflexivity.
  - exists (Throw e), t, c. intros w' Hc Hk. unfold bind. rewrite (Hr w' Hc Hk).
    reflexivity.
Qed.

Lemma runtime_only_try_catch {A : Type} (m : M A) (h : JSValue -> M A) :
  runtime_only m -> (forall e, runtime_only (h e)) -> runtime_only (try_catch m h).
Proof.
  intros Hm Hh env w. destruct (Hm env w) as (r & t & c & Hr).
  destruct r as [a | e].
  - exists (Normal a), t, c. intros w' Hc Hk. unfold try_catch.
    rewrite (Hr w' Hc Hk). reflexivity.
  - destruct (Hh e env (set_clock t (set_calls c w))) as (r' & t' & c' & Hr').
    exists r', t', c'. intros w' Hc Hk. unfold try_catch. rewrite (Hr w' Hc Hk).
    rewrite (Hr' (set_clock t (set_calls c w'))) by (destruct w, w'; reflexivity).
    rewrite set_clock_calls_twice. reflexivity.
Qed.

Lemma runtime_only_async {A : Type} (m : M (Promise A)) :
  runtime_only m -> runtime_only (async m).
Proof.
  intros Hm. apply runtime_only_try_catch; [exact Hm |].
  intros e. apply runtime_only_ret.
Qed.

Lemma runtime_only_await {A : Type} (p : Promise A) : runtime_only (await p).
Proof.
  unfold await. apply runtime_only_bind; [apply runtime_only_sleep |].
  intros _. destruct (outcome p); [apply runtime_only_ret | apply runtime_only_throw].
Qed.

Lemma runtime_only_call_method path name ig meth arguments :
  runtime_only (call_method path name ig meth arguments).
Proof.
  unfold call_method. destruct (ig meth) as [f |]; [| apply runtime_only_throw].
  intros env w. eexists. exists (clock w), (calls w ++ [mkCall name meth arguments])%list.
  intros w' Hc Hk. unfold bind, get_world, modify, ret. rewrite Hk, <- Hc.
  destruct w'. cbn in *. subst. reflexivity.
Qed.

Lemma runtime_only_then_result kind p : runtime_only (WorkflowExecutor.then_result kind p).
Proof.
  unfold WorkflowExecutor.then_result.
  apply runtime_only_bind; [apply runtime_only_now |].
  intros t. apply runtime_only_ret.
Qed.

Ltac runtime_only :=
  repeat first
    [ apply runtime_only_ret
    | apply runtime_only_throw
    | apply runtime_only_ask
    | apply runtime_only_now
    | apply runtime_only_sleep
    | apply runtime_only_get_prop
    | apply runtime_only_call_method
    | apply runtime_only_then_result
    | apply runtime_only_await
    | apply runtime_only_async
    | apply runtime_only_bind; [| intros ?]
    | match goal with
      | |- runtime_only (if ?b then _ else _) => destruct b
      | |- runtime_only (match ?x with Some _ => _ | None => _ end) => destruct x
      end ].

Lemma runtime_only_runStepWithIntegration type integrationName parameters wf :
  runtime_only (WorkflowExecutor.runStepWithIntegration type integrationName parameters wf).
Proof.
  unfold WorkflowExecutor.runStepWithIntegration,
    WorkflowExecutor.handleAnalyzeStep, WorkflowExecutor.handleGenerateCodeStep,
    WorkflowExecutor.handleRunTestsStep, WorkflowExecutor.handleCommitChangesStep,
    WorkflowExecutor.handleMonitorStep, WorkflowExecutor.handleDeployStep.
  runtime_only.
Qed.

Lemma runtime_only_executeStep step wf :
  runtime_only (WorkflowExecutor.executeStep step wf).
Proof.
  unfold WorkflowExecutor.executeStep.
  apply runtime_only_bind; [apply runtime_only_runStepWithIntegration |].
  intros p. runtime_only.
Qed.

(** A step reads the identifier and the instruction of the workflow it
    is given, and nothing else of it. *)
Lemma executeStep_identity step wf wf' :
  wf_id wf' = wf_id wf ->
  wf_instruction wf' = wf_instruction wf ->
  WorkflowExecutor.executeStep step wf' = WorkflowExecutor.executeStep step wf.
Proof.
  intros Hid Hin.
  unfold WorkflowExecutor.executeStep, WorkflowExecutor.runStepWithIntegration,
    WorkflowExecutor.handleAnalyzeStep, WorkflowExecutor.handleGenerateCodeStep,
    WorkflowExecutor.handleRunTestsStep, WorkflowExecutor.handleCommitChangesStep,
    WorkflowExecutor.handleMonitorStep, WorkflowExecutor.handleDeployStep.
  rewrite Hid, Hin. reflexivity.
Qed.


(** ** The loop of the executor *)

Lemma append_log_nil wf : append_log [] wf = wf.
Proof. destruct wf. unfold append_log, set_wf_steps. cbn. rewrite app_nil_r. reflexivity. Qed.

Lemma append_log_app r1 r2 wf : append_log r2 (append_log r1 wf) = append_log (r1 ++ r2) wf.
Proof. destruct wf. unfold append_log, set_wf_steps. cbn. rewrite app_assoc. reflexivity. Qed.

Lemma looped_nil l w : looped [] l (clock w) (calls w) w = w.
Proof.
  unfold looped. rewrite list_alter_id by apply append_log_nil.
  destruct w. reflexivity.
Qed.

Lemma looped_looped r1 r2 l t1 c1 t2 c2 w :
  looped r2 l t2 c2 (looped r1 l t1 c1 w) = looped (r1 ++ r2) l t2 c2 w.
Proof.
  unfold looped, set_heap, set_clock, set_calls. destruct w. cbn.
  rewrite list_alter_alter_eq.
  f_equal. apply list_alter_ext; [| reflexivity].
  intros x _. apply append_log_app.
Qed.

Lemma deref_Some l wf env w : heap w !! l = Some wf -> deref l env w = (Normal wf, w).
Proof. intros H. unfold deref. rewrite H. reflexivity. Qed.

Lemma run_steps_cons step rest l rs env w :
  WorkflowExecutor.run_steps (step :: rest) l rs env w
  = match (wf <- deref l ;; WorkflowExecutor.executeStep step wf) env w with
    | (Throw e, w1) => (Normal (rs, Some e), w1)
    | (Normal stepResult, w1) =>
        WorkflowExecutor.run_steps rest l (rs ++ [stepResult]) env
          (looped [mkStepRecord step "completed" stepResult (clock w1)] l
                  (clock w1) (calls w1) w1)
    end.
Proof.
  cbn [WorkflowExecutor.run_steps]. unfold bind at 1, attempt.
  destruct ((wf <- deref l ;; WorkflowExecutor.executeStep step wf) env w) as [[sr | e] w1].
  - unfold bind at 1, now. unfold bind at 1, update_wf, modify.
    unfold looped. rewrite set_clock_calls_same. reflexivity.
  - reflexivity.
Qed.

Lemma run_steps_spec steps :
  forall l rs env w wf,
    heap w !! l = Some wf ->
    exists recs thrown t c,
      Forall (fun r => rec_status r = "completed") recs
      /\ match thrown with
         | None => map rec_step recs = steps
         | Some _ => exists s post, steps = (map rec_step recs ++ s :: post)%list
         end
      /\ forall w' wf',
           clock w' = clock w -> calls w' = calls w ->
           heap w' !! l = Some wf' ->
           wf_id wf' = wf_id wf -> wf_instruction wf' = wf_instruction wf ->
           WorkflowExecutor.run_steps steps l rs env w'
           = (Normal ((rs ++ map rec_result recs)%list, thrown), looped recs l t c w').
Proof.
  induction steps as [| step rest IH]; intros l rs env w wf Hwf.
  - exists [], None, (clock w), (calls w).
    split; [constructor |]. split; [reflexivity |].
    intros w' wf' Hc Hk _ _ _. cbn. rewrite app_nil_r.
    rewrite <- Hc, <- Hk, looped_nil. reflexivity.
  - destruct (runtime_only_executeStep step wf env w) as (r & t1 & c1 & Hr).
    destruct r as [sr | e].
    + set (rec1 := mkStepRecord step "completed" sr t1).
      assert (Hwf1 : heap (looped [rec1] l t1 c1 w) !! l = Some (append_log [rec1] wf)).
      { unfold looped. destruct w. cbn in *. rewrite list_lookup_alter_eq, Hwf. reflexivity. }
      destruct (IH l (rs ++ [sr])%list env _ _ Hwf1) as (recs & thrown & t & c & Hall & Hshape & Hrun).
      exists (rec1 :: recs), thrown, t, c.
      split; [constructor; [reflexivity | exact Hall] |].
      split.
      { destruct thrown as [e |].
        - destruct Hshape as (s & post & Heq). exists s, post. cbn. rewrite Heq. reflexivity.
        - cbn. rewrite Hshape. reflexivity. }
      intros w' wf' Hc Hk Hwf' Hid Hin.
      rewrite run_steps_cons.
      rewrite (bind_Normal _ _ _ _ _ _ (deref_Some l wf' env w' Hwf')).
      rewrite (executeStep_identity step wf wf' Hid Hin).
      rewrite (Hr w' Hc Hk).
      replace (clock (set_clock t1 (set_calls c1 w'))) with t1 by (destruct w'; reflexivity).
      replace (calls (set_clock t1 (set_calls c1 w'))) with c1 by (destruct w'; reflexivity).
      fold rec1.
      replace (looped [rec1] l t1 c1 (set_clock t1 (set_calls c1 w')))
        with (looped [rec1] l t1 c1 w') by (destruct w'; reflexivity).
      rewrite (Hrun (looped [rec1] l t1 c1 w') (append_log [rec1] wf')).
      * rewrite looped_looped. cbn. rewrite <- app_assoc. reflexivity.
      * destruct w, w'; reflexivity.
      * destruct w, w'; reflexivity.
      * unfold looped. destruct w'. cbn in *. rewrite list_lookup_alter_eq, Hwf'. reflexivity.
      * destruct wf, wf'. exact Hid.
      * destruct wf, wf'. exact Hin.
    + exists [], (Some e), t1, c1.
      split; [constructor |]. split; [exists step, rest; reflexivity |].
      intros w' wf' Hc Hk Hwf' Hid Hin.
      rewrite run_steps_cons.
      rewrite (bind_Normal _ _ _ _ _ _ (deref_Some l wf' env w' Hwf')).
      rewrite (executeStep_identity step wf wf' Hid Hin).
      rewrite (Hr w' Hc Hk). cbn. rewrite app_nil_r.
      unfold looped. rewrite list_alter_id by apply append_log_nil.
      destruct w'. reflexivity.
Qed.


Lemma run_steps_app pre rest :
  forall l rs env w rs' w',
    WorkflowExecutor.run_steps pre l rs env w = (Normal (rs', None), w') ->
    WorkflowExecutor.run_steps (pre ++ rest) l rs env w
    = WorkflowExecutor.run_steps rest l rs' env w'.
Proof.
  induction pre as [| step pre IH]; intros l rs env w rs' w' Hpre.
  - cbn in Hpre. unfold ret in Hpre. injection Hpre as -> ->. reflexivity.
  - rewrite <- app_comm_cons, run_steps_cons. rewrite run_steps_cons in Hpre.
    destruct ((wf <- deref l ;; WorkflowExecutor.executeStep step wf) env w)
      as [[sr | e] w1].
    + apply IH. exact Hpre.
    + discriminate Hpre.
Qed.

(** ** The executor *)

Lemma execute_thrown l env w wf plan rs e w_out :
  heap w !! l = Some wf ->
  wf_plan wf = Some plan ->
  WorkflowExecutor.run_steps (plan_steps plan) l [] env (entered (wf_id wf) l (Some plan) w)
  = (Normal (rs, Some e), w_out) ->
  WorkflowExecutor.execute l env w
  = if nullish e
    then (Throw (no_message e), left_running (wf_id wf) w_out)
    else (Throw e,
          left_running (wf_id wf)
            (setupEventListeners (WorkflowFailed (failure (wf_id wf) plan rs e)) w_out)).
Proof.
  intros Hwf Hplan Hrun. unfold WorkflowExecutor.execute.
  rewrite (bind_Normal _ _ _ _ _ _ (deref_Some l wf env w Hwf)).
  unfold bind at 1, WorkflowExecutor.modify_running at 1, modify at 1.
  unfold bind at 1, WorkflowExecutor.emit at 1, modify at 1.
  rewrite Hplan. fold (entered (wf_id wf) l (Some plan) w).
  unfold try_finally. rewrite (bind_Normal _ _ _ _ _ _ Hrun).
  unfold WorkflowExecutor.on_error, get_prop.
  destruct (nullish e) eqn:He.
  - unfold bind, throw, WorkflowExecutor.modify_running, modify. reflexivity.
  - unfold bind, ret, throw, WorkflowExecutor.emit, WorkflowExecutor.modify_running, modify.
    reflexivity.
Qed.

Lemma execute_completed l env w wf plan rs w_out summary :
  heap w !! l = Some wf ->
  wf_plan wf = Some plan ->
  WorkflowExecutor.run_steps (plan_steps plan) l [] env (entered (wf_id wf) l (Some plan) w)
  = (Normal (rs, None), w_out) ->
  WorkflowExecutor.generateSummary rs env w_out = (Normal summary, w_out) ->
  WorkflowExecutor.execute l env w
  = (Normal (mkFinalResult (wf_id wf) "completed" rs summary),
     left_running (wf_id wf)
       (setupEventListeners
          (WorkflowCompleted (mkFinalResult (wf_id wf) "completed" rs summary)) w_out)).
Proof.
  intros Hwf Hplan Hrun Hsum. unfold WorkflowExecutor.execute.
  rewrite (bind_Normal _ _ _ _ _ _ (deref_Some l wf env w Hwf)).
  unfold bind at 1, WorkflowExecutor.modify_running at 1, modify at 1.
  unfold bind at 1, WorkflowExecutor.emit at 1, modify at 1.
  rewrite Hplan. fold (entered (wf_id wf) l (Some plan) w).
  unfold try_finally. rewrite (bind_Normal _ _ _ _ _ _ Hrun).
  unfold try_catch. rewrite (bind_Normal _ _ _ _ _ _ Hsum).
  unfold bind, ret, WorkflowExecutor.emit, WorkflowExecutor.modify_running, modify.
  reflexivity.
Qed.

Lemma execute_summary_throws l env w wf plan rs w_out e :
  heap w !! l = Some wf ->
  wf_plan wf = Some plan ->
  WorkflowExecutor.run_steps (plan_steps plan) l [] env (entered (wf_id wf) l (Some plan) w)
  = (Normal (rs, None), w_out) ->
  WorkflowExecutor.generateSummary rs env w_out = (Throw e, w_out) ->
  WorkflowExecutor.execute l env w
  = if nullish e
    then (Throw (no_message e), left_running (wf_id wf) w_out)
    else (Throw e,
          left_running (wf_id wf)
            (setupEventListeners (WorkflowFailed (failure (wf_id wf) plan rs e)) w_out)).
Proof.
  intros Hwf Hplan Hrun Hsum. unfold WorkflowExecutor.execute.
  rewrite (bind_Normal _ _ _ _ _ _ (deref_Some l wf env w Hwf)).
  unfold bind at 1, WorkflowExecutor.modify_running at 1, modify at 1.
  unfold bind at 1, WorkflowExecutor.emit at 1, modify at 1.
  rewrite Hplan. fold (entered (wf_id wf) l (Some plan) w).
  unfold try_finally. rewrite (bind_Normal _ _ _ _ _ _ Hrun).
  unfold try_catch. rewrite (bind_Throw _ _ _ _ _ _ Hsum).
  unfold WorkflowExecutor.on_error, get_prop.
  destruct (nullish e) eqn:He.
  - unfold bind, throw, WorkflowExecutor.modify_running, modify. reflexivity.
  - unfold bind, ret, throw, WorkflowExecutor.emit, WorkflowExecutor.modify_running, modify.
    reflexivity.
Qed.


(** ** The facade *)

Lemma new_workflow_run instruction options env w :
  OrchestrationEngine.new_workflow instruction options env w
  = (Normal (uuid_of env (uuid_count w), length (heap w)),
     set_activeWorkflows
       (<[uuid_of env (uuid_count w) := length (heap w)]> (activeWorkflows w))
       (set_heap (heap w ++ [created (uuid_of env (uuid_count w)) instruction options (clock w)])
          (set_uuid_count (S (uuid_count w)) w))).
Proof. destruct w. reflexivity. Qed.

(** Planning draws identifiers, calls the plan provider and waits for
    it; it touches nothing else. *)
Lemma createWorkflowPlan_frame instruction options env w r w' :
  OrchestrationEngine.createWorkflowPlan instruction options env w = (r, w') ->
  exists n t c, w' = set_uuid_count n (set_clock t (set_calls c w)).
Proof.
  destruct w as [i a x m h t u c ev].
  unfold OrchestrationEngine.createWorkflowPlan. unfold bind at 1, ask.
  destruct (integrations env "taskMaster") as [taskMaster |].
  - unfold call_method. destruct (taskMaster "generatePlan") as [f |].
    + unfold bind at 1. unfold bind at 1, get_world. unfold bind at 1, modify, ret.
      unfold bind at 1, await. unfold bind at 1, sleep, modify.
      cbn [settles_after outcome].
      destruct (settle (f _ _)) as [v | e].
      * unfold ret at 1.
        match goal with
        | |- parseWorkflowPlan v env ?w1 = _ -> _ =>
            destruct (parseWorkflowPlan_returns v env w1) as (p & n & Hp); rewrite Hp
        end.
        intros [= <- <-]. unfold drawn, set_uuid_count, set_clock, set_calls. cbn.
        eexists. eexists. eexists. reflexivity.
      * unfold throw. intros [= <- <-]. unfold set_uuid_count, set_clock, set_calls. cbn.
        eexists. eexists. eexists. reflexivity.
    + unfold bind, throw. intros [= <- <-]. exists u, t, c. reflexivity.
  - unfold throw. intros [= <- <-]. exists u, t, c. reflexivity.
Qed.

Lemma bind_update_wf {A : Type} l f (k : M A) env w :
  (update_wf l f ;;; k) env w = k env (set_heap (alter f l (heap w)) w).
Proof. reflexivity. Qed.

Lemma on_failure_run id l e env w :
  nullish e = false ->
  OrchestrationEngine.on_failure id l e env w
  = (Normal {| success := false;
               env_workflowId := id;
               env_result := None;
               env_error := Some (own_prop e "message") |},
     marked_failed (own_prop e "message") l w).
Proof.
  intros He. unfold OrchestrationEngine.on_failure, get_prop. rewrite He.
  unfold bind, update_wf, modify, ret, now, marked_failed. destruct w. reflexivity.
Qed.

Lemma executeWorkflow_planned instruction options env w plan w1 :
  isInitialized w = true ->
  OrchestrationEngine.createWorkflowPlan instruction options env
    (snd (OrchestrationEngine.new_workflow instruction options env w)) = (Normal plan, w1) ->
  is_Some (workflowExecutor w) ->
  OrchestrationEngine.executeWorkflow instruction options env w
  = match WorkflowExecutor.execute (length (heap w)) env (attached plan (length (heap w)) w1) with
    | (Normal result, w2) =>
        (Normal {| success := true;
                   env_workflowId := uuid_of env (uuid_count w);
                   env_result := Some result;
                   env_error := None |},
         marked_completed result (length (heap w)) w2)
    | (Throw e, w2) =>
        OrchestrationEngine.on_failure (uuid_of env (uuid_count w)) (length (heap w)) e env w2
    end.
Proof.
  intros Hinit Hplan [running0 Hexec].
  destruct (createWorkflowPlan_frame _ _ _ _ _ _ Hplan) as (n & t & c & Hw1).
  unfold OrchestrationEngine.executeWorkflow.
  unfold bind at 1, get_world. rewrite Hinit. cbn [negb].
  unfold bind at 1. rewrite new_workflow_run in Hplan |- *. cbn [snd] in Hplan.
  unfold try_catch, OrchestrationEngine.run_workflow.
  rewrite (bind_Normal _ _ _ _ _ _ Hplan).
  rewrite !bind_update_wf.
  replace (set_heap _ (set_heap _ w1)) with (attached plan (length (heap w)) w1)
    by (destruct w1; reflexivity).
  unfold bind at 1, OrchestrationEngine.workflowExecutor_execute.
  unfold bind at 1, get_world.
  assert (Hex1 : workflowExecutor (attached plan (length (heap w)) w1) = Some running0).
  { rewrite Hw1. destruct w. cbn in *. exact Hexec. }
  rewrite Hex1.
  destruct (WorkflowExecutor.execute (length (heap w)) env (attached plan (length (heap w)) w1))
    as [[result | e] w2].
  - unfold bind, update_wf, modify, now, ret, marked_completed. destruct w2. reflexivity.
  - reflexivity.
Qed.


Ltac workflow_simpl :=
  unfold set_wf_failedAt, set_wf_completedAt, set_wf_error, set_wf_result, set_wf_status,
    set_wf_plan, set_wf_cancelledAt, append_log, set_wf_steps, created;
  cbn [fmap option_fmap option_map wf_steps wf_status wf_error wf_id wf_instruction
       wf_plan wf_result wf_completedAt wf_failedAt wf_cancelledAt wf_createdAt
       wf_options app].

Ltac world_simpl :=
  cbn [heap clock calls uuid_count activeWorkflows workflowExecutor emitted
       stateManager isInitialized fin_workflowId fail_workflowId failure
       marked_failed marked_completed left_running setupEventListeners looped
       entered attached set_heap set_clock set_calls set_uuid_count
       set_activeWorkflows set_workflowExecutor set_emitted set_stateManager
       set_isInitialized].

(** The loop of a plan whose step after [pre] throws, in any world that
    agrees with the one where the first steps were run. *)
Lemma run_steps_throws_at env l wf0 pre s post rs w1 w2 e w3 :
  heap w1 !! l = Some wf0 ->
  WorkflowExecutor.run_steps pre l [] env w1 = (Normal (rs, None), w2) ->
  WorkflowExecutor.executeStep s wf0 env w2 = (Throw e, w3) ->
  exists recs,
    map rec_step recs = pre
    /\ map rec_result recs = rs
    /\ Forall (fun r => rec_status r = "completed") recs
    /\ forall w' wf',
         clock w' = clock w1 -> calls w' = calls w1 ->
         heap w' !! l = Some wf' ->
         wf_id wf' = wf_id wf0 -> wf_instruction wf' = wf_instruction wf0 ->
         WorkflowExecutor.run_steps (pre ++ s :: post) l [] env w'
         = (Normal (rs, Some e), looped recs l (clock w3) (calls w3) w').
Proof.
  intros Hwf Hpre Hthrow.
  destruct (run_steps_spec pre l [] env w1 wf0 Hwf)
    as (recs & thrown & t & c & Hall & Hshape & Hrun).
  pose proof (Hrun w1 wf0 eq_refl eq_refl Hwf eq_refl eq_refl) as Hsame.
  rewrite Hpre in Hsame. injection Hsame as Hrs Hthrown Hw2. subst thrown.
  cbn [app] in Hrs.
  destruct (runtime_only_executeStep s wf0 env w2) as (r & t3 & c3 & Hr).
  pose proof (Hr w2 eq_refl eq_refl) as Hsame. rewrite Hthrow in Hsame.
  injection Hsame as Hre Hw3. subst r.
  exists recs. split; [exact Hshape |]. split; [symmetry; exact Hrs |].
  split; [exact Hall |].
  intros w' wf' Hc Hk Hwf' Hid Hin.
  rewrite (run_steps_app pre (s :: post) l [] env w' rs (looped recs l t c w')).
  2: { rewrite (Hrun w' wf' Hc Hk Hwf' Hid Hin). cbn [app]. rewrite Hrs. reflexivity. }
  rewrite run_steps_cons.
  assert (Hlook : heap (looped recs l t c w') !! l = Some (append_log recs wf')).
  { unfold looped. destruct w'. cbn in *. rewrite list_lookup_alter_eq, Hwf'. reflexivity. }
  rewrite (bind_Normal _ _ _ _ _ _ (deref_Some l _ env _ Hlook)).
  rewrite (executeStep_identity s wf0 (append_log recs wf')) by (destruct wf'; assumption).
  rewrite (Hr (looped recs l t c w')).
  2: { subst w2. unfold looped, set_heap, set_clock, set_calls. reflexivity. }
  2: { subst w2. unfold looped, set_heap, set_clock, set_calls. reflexivity. }
  f_equal. subst w3 w2.
  unfold looped, set_heap, set_clock, set_calls.
  cbn [heap clock calls isInitialized activeWorkflows workflowExecutor stateManager
       uuid_count emitted].
  reflexivity.
Qed.

Lemma executeWorkflow_step_throws env w instruction options plan w1 pre s post rs w2 e w3 :
  isInitialized w = true ->
  is_Some (workflowExecutor w) ->
  OrchestrationEngine.createWorkflowPlan instruction options env
    (snd (OrchestrationEngine.new_workflow instruction options env w)) = (Normal plan, w1) ->
  plan_steps plan = (pre ++ s :: post)%list ->
  WorkflowExecutor.run_steps pre (length (heap w)) [] env w1 = (Normal (rs, None), w2) ->
  WorkflowExecutor.executeStep s
    (created (uuid_of env (uuid_count w)) instruction options (clock w)) env w2
  = (Throw e, w3) ->
  exists w' wf',
    OrchestrationEngine.executeWorkflow instruction options env w
    = (Normal {| success := false;
                 env_workflowId := uuid_of env (uuid_count w);
                 env_result := None;
                 env_error :=
                   Some (own_prop (if nullish e then no_message e else e) "message") |},
       w')
    /\ heap w' !! length (heap w) = Some wf'
    /\ wf_status wf' = failed
    /\ wf_error wf' = Some (own_prop (if nullish e then no_message e else e) "message")
    /\ map rec_step (wf_steps wf') = pre
    /\ map rec_result (wf_steps wf') = rs
    /\ Forall (fun r => rec_status r = "completed") (wf_steps wf')
    /\ calls w' = calls w3
    /\ clock w' = clock w3
    /\ (nullish e = false ->
        last (emitted w')
        = Some (WorkflowFailed (failure (uuid_of env (uuid_count w)) plan rs e))
        /\ activeWorkflows w' !! uuid_of env (uuid_count w) = None).
Proof.
  intros Hinit Hexec Hplan Hsplit Hpre Hthrow.
  set (l := length (heap w)) in *. set (id := uuid_of env (uuid_count w)) in *.
  set (wf0 := created id instruction options (clock w)) in *.
  destruct (createWorkflowPlan_frame _ _ _ _ _ _ Hplan) as (n & t & c & Hw1).
  rewrite new_workflow_run in Hw1. cbn [snd] in Hw1. fold id l wf0 in Hw1.
  assert (Hwf0 : heap w1 !! l = Some wf0).
  { rewrite Hw1. world_simpl. apply list_lookup_middle. reflexivity. }
  destruct (run_steps_throws_at env l wf0 pre s post rs w1 w2 e w3 Hwf0 Hpre Hthrow)
    as (recs & Hsteps & Hresults & Hall & Hrun).
  set (wfr := set_wf_status running (set_wf_plan plan wf0)).
  assert (Hwfr : heap (attached plan l w1) !! l = Some wfr).
  { world_simpl. rewrite !list_lookup_alter_eq, Hwf0. reflexivity. }
  assert (Hloop :
    WorkflowExecutor.run_steps (plan_steps plan) l [] env
      (entered (wf_id wfr) l (Some plan) (attached plan l w1))
    = (Normal (rs, Some e),
       looped recs l (clock w3) (calls w3)
         (entered (wf_id wfr) l (Some plan) (attached plan l w1)))).
  { rewrite Hsplit. apply (Hrun _ wfr); try reflexivity. exact Hwfr. }
  pose proof (execute_thrown l env (attached plan l w1) wfr plan rs e _ Hwfr eq_refl Hloop)
    as Hexecute.
  rewrite (executeWorkflow_planned instruction options env w plan w1 Hinit Hplan Hexec).
  fold l id. rewrite Hexecute. clear Hexecute Hloop Hrun.
  destruct (nullish e) eqn:He.
  - rewrite on_failure_run by reflexivity.
    eexists. eexists. split; [reflexivity |].
    world_simpl. rewrite !list_lookup_alter_eq, Hwf0. subst wf0. workflow_simpl.
    split; [reflexivity |]. split; [reflexivity |]. split; [reflexivity |].
    cbn [wf_steps]. rewrite Hsteps, Hresults.
    repeat split; try assumption; try reflexivity; discriminate.
  - rewrite on_failure_run by exact He.
    eexists. eexists. split; [reflexivity |].
    world_simpl. rewrite !list_lookup_alter_eq, Hwf0. subst wf0. workflow_simpl.
    split; [reflexivity |]. split; [reflexivity |]. split; [reflexivity |].
    cbn [wf_steps]. rewrite Hsteps, Hresults.
    repeat split; try assumption; try reflexivity.
    + apply last_snoc.
    + apply lookup_delete_eq.
Qed.


(** ** The summary *)

Lemma pure_comp_ret {A : Type} (a : A) : pure_comp (ret a).
Proof. exists (Normal a). reflexivity. Qed.

Lemma pure_comp_throw {A : Type} (e : JSValue) : pure_comp (@throw A e).
Proof. exists (Throw e). reflexivity. Qed.

Lemma pure_comp_get_prop v k : pure_comp (get_prop v k).
Proof.
  unfold get_prop. destruct (nullish v); [apply pure_comp_throw | apply pure_comp_ret].
Qed.

Lemma pure_comp_bind {A B : Type} (m : M A) (f : A -> M B) :
  pure_comp m -> (forall a, pure_comp (f a)) -> pure_comp (bind m f).
Proof.
  intros [r Hr] Hf. destruct r as [a | e].
  - destruct (Hf a) as [r' Hr']. exists r'. intros env w.
    unfold bind. rewrite Hr. apply Hr'.
  - exists (Throw e). intros env w. unfold bind. rewrite Hr. reflexivity.
Qed.

Lemma pure_comp_spread v : pure_comp (WorkflowExecutor.spread v).
Proof.
  destruct v; first [apply pure_comp_ret | apply pure_comp_throw].
Qed.

Ltac pure_comp :=
  repeat first
    [ apply pure_comp_ret
    | apply pure_comp_throw
    | apply pure_comp_get_prop
    | apply pure_comp_spread
    | apply pure_comp_bind; [| intros ?]
    | match goal with
      | |- pure_comp (if ?b then _ else _) => destruct b
      end ].

Lemma pure_comp_summarize summary result :
  pure_comp (WorkflowExecutor.summarize summary result).
Proof. unfold WorkflowExecutor.summarize. pure_comp. Qed.

Lemma pure_comp_forEach results :
  forall summary, pure_comp (WorkflowExecutor.forEach results summary).
Proof.
  induction results as [| r results IH]; intros summary; cbn [WorkflowExecutor.forEach].
  - apply pure_comp_ret.
  - apply pure_comp_bind; [apply pure_comp_summarize | exact IH].
Qed.

Lemma pure_comp_generateSummary results :
  pure_comp (WorkflowExecutor.generateSummary results).
Proof. apply pure_comp_forEach. Qed.

Lemma summarize_readable summary result env w :
  readable result = true ->
  exists summary',
    WorkflowExecutor.summarize summary result env w = (Normal summary', w)
    /\ totalSteps summary' = totalSteps summary.
Proof.
  unfold readable, WorkflowExecutor.summarize. intros Hr.
  apply andb_prop in Hr as [Hr Hcommit]. apply andb_prop in Hr as [Hcode Htest].
  destruct (String.eqb (result_type result) "code_generation");
    destruct (String.eqb (result_type result) "test_results");
    destruct (String.eqb (result_type result) "commit");
    repeat match goal with
           | H : negb (nullish _) && _ = true |- _ => apply andb_prop in H as [? ?]
           | H : negb (nullish ?v) = true |- _ =>
               apply negb_true_iff in H
           end;
    unfold get_prop;
    repeat match goal with
           | H : nullish ?v = false |- _ => rewrite H
           end;
    cbv [bind ret throw];
    try (destruct (truthy (own_prop (result_data result) "files")) eqn:Hfiles;
         [ destruct (own_prop (result_data result) "files"); try discriminate;
           cbv [WorkflowExecutor.spread bind ret throw]
         | ]);
    eexists; (split; [reflexivity | reflexivity]).
Qed.

Lemma forEach_readable results :
  forall summary env w,
    forallb readable results = true ->
    exists summary',
      WorkflowExecutor.forEach results summary env w = (Normal summary', w)
      /\ totalSteps summary' = totalSteps summary.
Proof.
  induction results as [| r results IH]; intros summary env w Hall.
  - exists summary. split; reflexivity.
  - cbn [forallb] in Hall. apply andb_prop in Hall as [Hr Hall].
    destruct (summarize_readable summary r env w Hr) as (s1 & Hs1 & Ht1).
    destruct (IH s1 env w Hall) as (s2 & Hs2 & Ht2).
    exists s2. cbn [WorkflowExecutor.forEach]. rewrite (bind_Normal _ _ _ _ _ _ Hs1).
    split; [exact Hs2 | congruence].
Qed.

Lemma generateSummary_readable results env w :
  forallb readable results = true ->
  exists summary,
    WorkflowExecutor.generateSummary results env w = (Normal summary, w)
    /\ totalSteps summary = length results.
Proof.
  intros Hall. unfold WorkflowExecutor.generateSummary.
  match goal with
  | |- context [WorkflowExecutor.forEach results ?s0] =>
      destruct (forEach_readable results s0 env w Hall) as (s & Hs & Ht)
  end.
  exists s. split; [exact Hs | exact Ht].
Qed.



(** [execute] throws errors, never [null] or [undefined]: its [catch]
    block reads [error.message] before it throws [error] again. *)
Lemma execute_outcome l env w :
  exists r w',
    WorkflowExecutor.execute l env w = (r, w')
    /\ forall e, r = Throw e -> nullish e = false.
Proof.
  destruct (heap w !! l) as [wf |] eqn:Hwf.
  - destruct (wf_plan wf) as [plan |] eqn:Hplan.
    + assert (Hin : heap (entered (wf_id wf) l (Some plan) w) !! l = Some wf) by exact Hwf.
      destruct (run_steps_spec (plan_steps plan) l [] env _ wf Hin)
        as (recs & thrown & t & c & _ & _ & Hrun).
      specialize (Hrun _ wf eq_refl eq_refl Hin eq_refl eq_refl). cbn [app] in Hrun.
      destruct thrown as [e |].
      * rewrite (execute_thrown l env w wf plan _ e _ Hwf Hplan Hrun).
        destruct (nullish e) eqn:He; eexists; eexists; (split; [reflexivity |]);
          intros e' [= <-]; [reflexivity | exact He].
      * destruct (pure_comp_generateSummary (map rec_result recs)) as [r Hr].
        destruct r as [summary | e].
        -- rewrite (execute_completed l env w wf plan _ _ summary Hwf Hplan Hrun (Hr _ _)).
           eexists. eexists. split; [reflexivity | discriminate].
        -- rewrite (execute_summary_throws l env w wf plan _ _ e Hwf Hplan Hrun (Hr _ _)).
           destruct (nullish e) eqn:He; eexists; eexists; (split; [reflexivity |]);
             intros e' [= <-]; [reflexivity | exact He].
    + unfold WorkflowExecutor.execute.
      rewrite (bind_Normal _ _ _ _ _ _ (deref_Some l wf env w Hwf)). rewrite Hplan.
      unfold bind, WorkflowExecutor.modify_running, WorkflowExecutor.emit, modify, throw.
      eexists. eexists. split; [reflexivity |]. intros e [= <-]. reflexivity.
  - unfold WorkflowExecutor.execute, bind at 1, deref. rewrite Hwf.
    eexists. eexists. split; [reflexivity |]. intros e [= <-]. reflexivity.
Qed.

Lemma createWorkflowPlan_throws instruction options env w e w' :
  plan_provider_throws_errors env ->
  OrchestrationEngine.createWorkflowPlan instruction options env w = (Throw e, w') ->
  nullish e = false.
Proof.
  intros Hprov. unfold OrchestrationEngine.createWorkflowPlan. unfold bind at 1, ask.
  destruct (integrations env "taskMaster") as [taskMaster |] eqn:Htm.
  - unfold call_method. destruct (taskMaster "generatePlan") as [f |] eqn:Hgp.
    + unfold bind at 1. unfold bind at 1, get_world. unfold bind at 1, modify, ret.
      unfold bind at 1, await. unfold bind at 1, sleep, modify.
      cbn [settles_after outcome].
      destruct (settle (f _ _)) as [v | e0] eqn:Hsettle.
      * unfold ret at 1.
        match goal with
        | |- parseWorkflowPlan v env ?w1 = _ -> _ =>
            destruct (parseWorkflowPlan_returns v env w1) as (p & n & Hp); rewrite Hp
        end.
        discriminate.
      * unfold throw. intros [= <- _]. exact (Hprov _ _ _ _ _ Htm Hgp Hsettle).
    + unfold bind, throw. intros [= <- _]. reflexivity.
  - unfold throw. intros [= <- _]. reflexivity.
Qed.


(** ** What a computation leaves alone *)

Section Frames.

Variable P : World -> World -> Prop.
Hypothesis P_refl : forall w, P w w.
Hypothesis P_trans : forall a b c, P a b -> P b c -> P a c.

Lemma respects_ret {A : Type} (a : A) : respects P (ret a).
Proof. intros env w. apply P_refl. Qed.

Lemma respects_throw {A : Type} (e : JSValue) : respects P (@throw A e).
Proof. intros env w. apply P_refl. Qed.

Lemma respects_ask : respects P ask.
Proof. intros env w. apply P_refl. Qed.

Lemma respects_get_world : respects P get_world.
Proof. intros env w. apply P_refl. Qed.

Lemma respects_now : respects P now.
Proof. intros env w. apply P_refl. Qed.

Lemma respects_deref l : respects P (deref l).
Proof. intros env w. unfold deref. destruct (heap w !! l); apply P_refl. Qed.

Lemma respects_get_prop v k : respects P (get_prop v k).
Proof. intros env w. unfold get_prop. destruct (nullish v); apply P_refl. Qed.

Lemma respects_modify f : (forall w, P w (f w)) -> respects P (modify f).
Proof. intros Hf env w. apply Hf. Qed.

Lemma respects_bind {A B : Type} (m : M A) (f : A -> M B) :
  respects P m -> (forall a, respects P (f a)) -> respects P (bind m f).
Proof.
  intros Hm Hf env w. unfold bind. specialize (Hm env w).
  destruct (m env w) as [[a | e] w1]; cbn [snd] in *.
  - eapply P_trans; [exact Hm | apply Hf].
  - exact Hm.
Qed.

Lemma respects_try_catch {A : Type} (m : M A) (h : JSValue -> M A) :
  respects P m -> (forall e, respects P (h e)) -> respects P (try_catch m h).
Proof.
  intros Hm Hh env w. unfold try_catch. specialize (Hm env w).
  destruct (m env w) as [[a | e] w1]; cbn [snd] in *.
  - exact Hm.
  - eapply P_trans; [exact Hm | apply Hh].
Qed.

Lemma respects_try_finally {A : Type} (m : M A) (fin : M unit) :
  respects P m -> respects P fin -> respects P (try_finally m fin).
Proof.
  intros Hm Hfin env w. unfold try_finally. specialize (Hm env w).
  destruct (m env w) as [r w1]; cbn [snd] in *.
  specialize (Hfin env w1). destruct (fin env w1) as [[u | e] w2]; cbn [snd] in *;
    eapply P_trans; eassumption.
Qed.

Lemma respects_attempt {A : Type} (m : M A) : respects P m -> respects P (attempt m).
Proof.
  intros Hm env w. unfold attempt. specialize (Hm env w).
  destruct (m env w) as [r w1]. exact Hm.
Qed.

Lemma respects_async {A : Type} (m : M (Promise A)) :
  respects P m -> respects P (async m).
Proof.
  intros Hm. apply respects_try_catch; [exact Hm |]. intros e. apply respects_ret.
Qed.

Lemma respects_mapM {A B : Type} (f : A -> M B) (l : list A) :
  (forall a, respects P (f a)) -> respects P (mapM f l).
Proof.
  intros Hf. induction l as [| a l IH]; cbn [mapM].
  - apply respects_ret.
  - apply respects_bind; [apply Hf |]. intros b.
    apply respects_bind; [exact IH |]. intros bs. apply respects_ret.
Qed.

End Frames.

Lemma same_clock_refl w : same_clock w w.
Proof. reflexivity. Qed.

Lemma same_clock_trans a b c : same_clock a b -> same_clock b c -> same_clock a c.
Proof. unfold same_clock. congruence. Qed.

Lemma same_metrics_refl w : same_metrics w w.
Proof. reflexivity. Qed.

Lemma same_metrics_trans a b c : same_metrics a b -> same_metrics b c -> same_metrics a c.
Proof. unfold same_metrics. congruence. Qed.

Create HintDb frames.

#[local] Hint Resolve same_clock_refl same_clock_trans same_metrics_refl same_metrics_trans
  : frames.

Ltac respects :=
  repeat first
    [ solve [eauto with frames]
    | match goal with
      | |- same_clock _ _ => reflexivity
      | |- same_metrics _ _ => reflexivity
      | |- forall _, _ => intros ?
      end
    | apply respects_ret
    | apply respects_throw
    | apply respects_ask
    | apply respects_get_world
    | apply respects_now
    | apply respects_deref
    | apply respects_get_prop
    | apply respects_async
    | apply respects_attempt
    | apply respects_mapM
    | apply respects_try_catch
    | apply respects_try_finally
    | apply respects_bind
    | apply respects_modify
    | match goal with
      | |- respects _ (if ?b then _ else _) => destruct b
      | |- respects _ (match ?x with Some _ => _ | None => _ end) => destruct x
      | |- respects _ (match ?x with Normal _ => _ | Throw _ => _ end) => destruct x
      | |- respects _ (match ?x with (_, _) => _ end) => destruct x
      | |- respects _ (match ?x with _ => _ end) => destruct x
      end ].

(** Starting a step does not take time: the clock moves at the [await]. *)
Lemma runStepWithIntegration_same_clock type integrationName parameters wf :
  respects same_clock
    (WorkflowExecutor.runStepWithIntegration type integrationName parameters wf).
Proof.
  unfold WorkflowExecutor.runStepWithIntegration,
    WorkflowExecutor.handleAnalyzeStep, WorkflowExecutor.handleGenerateCodeStep,
    WorkflowExecutor.handleRunTestsStep, WorkflowExecutor.handleCommitChangesStep,
    WorkflowExecutor.handleMonitorStep, WorkflowExecutor.handleDeployStep,
    WorkflowExecutor.then_result, call_method.
  respects.
Qed.


(** ** The claims about the facade and the executor *)

(** C6 (as amended). On an initialized engine whose plan provider
    rejects with errors (not with [null] or [undefined]), [execute()]
    resolves for every instruction and options, with an envelope
    [{ success, workflowId, result }] or [{ success, workflowId, error }]:
    whatever goes wrong during planning or in a step is returned as data
    with [success = false]. *)
Theorem executeWorkflow_always_resolves (env : Env) (w : World)
    (instruction : string) (options : JSValue) :
  isInitialized w = true ->
  plan_provider_throws_errors env ->
  exists envelope w',
    OrchestrationEngine.executeWorkflow instruction options env w = (Normal envelope, w')
    /\ env_workflowId envelope = uuid_of env (uuid_count w)
    /\ (if success envelope
        then is_Some (env_result envelope) /\ env_error envelope = None
        else env_result envelope = None /\ is_Some (env_error envelope)).
Proof.
  intros Hinit Hprov.
  unfold OrchestrationEngine.executeWorkflow.
  unfold bind at 1, get_world. rewrite Hinit. cbn [negb].
  unfold bind at 1. rewrite new_workflow_run.
  unfold try_catch, OrchestrationEngine.run_workflow.
  match goal with
  | |- context [bind (OrchestrationEngine.createWorkflowPlan instruction options) _ env ?w0] =>
      destruct (OrchestrationEngine.createWorkflowPlan instruction options env w0)
        as [[plan | e] w1] eqn:Hplan
  end.
  - rewrite (bind_Normal _ _ _ _ _ _ Hplan). rewrite !bind_update_wf.
    unfold bind at 1, OrchestrationEngine.workflowExecutor_execute.
    unfold bind at 1, get_world.
    match goal with
    | |- context [match workflowExecutor ?W with _ => _ end] =>
        destruct (workflowExecutor W) as [running0 |];
        [ destruct (execute_outcome (length (heap w)) env W) as (r & w2 & Hex & Hnn);
          rewrite Hex; destruct r as [result | e] | ]
    end.
    + unfold bind, update_wf, modify, now, ret.
      eexists. eexists. split; [reflexivity |]. cbn. eauto.
    + rewrite on_failure_run by (apply Hnn; reflexivity).
      eexists. eexists. split; [reflexivity |]. cbn. eauto.
    + unfold throw. rewrite on_failure_run by reflexivity.
      eexists. eexists. split; [reflexivity |]. cbn. eauto.
  - rewrite (bind_Throw _ _ _ _ _ _ Hplan).
    rewrite on_failure_run by (eapply createWorkflowPlan_throws; eauto).
    eexists. eexists. split; [reflexivity |]. cbn. eauto.
Qed.

Lemma new_workflow_inv instruction options env w id l w0 plan w1 wf :
  OrchestrationEngine.new_workflow instruction options env w = (Normal (id, l), w0) ->
  OrchestrationEngine.createWorkflowPlan instruction options env w0 = (Normal plan, w1) ->
  heap w1 !! l = Some wf ->
  id = uuid_of env (uuid_count w)
  /\ l = length (heap w)
  /\ w0 = snd (OrchestrationEngine.new_workflow instruction options env w)
  /\ wf = created (uuid_of env (uuid_count w)) instruction options (clock w).
Proof.
  intros Hnew Hplan Hwf.
  destruct (createWorkflowPlan_frame _ _ _ _ _ _ Hplan) as (n & t & c & Hw1).
  rewrite Hnew. cbn [snd].
  rewrite new_workflow_run in Hnew. injection Hnew as <- <- <-.
  repeat split.
  rewrite Hw1 in Hwf.
  cbn [heap set_uuid_count set_clock set_calls set_activeWorkflows set_heap] in Hwf.
  rewrite list_lookup_middle in Hwf by reflexivity.
  injection Hwf as <-. reflexivity.
Qed.



Lemma number_to_string_decimal n :
  Z.abs n < 2 ^ 53 -> number_to_string n = pretty n.
Proof.
  intros Hn. unfold number_to_string.
  destruct (Z.ltb_spec (Z.abs n) (2 ^ 53)) as [_ | Hge]; [reflexivity | lia].
Qed.

(** A timeout of 10^21 ms is printed with its exponent, one of 2^60 ms
    with the digits that matter. *)
Lemma timeout_error_of_large_timeouts :
  WorkflowExecutor.timeout_error
    (fallbackStep "s1" "analyze" "Analyze requirements" "taskMaster" (10 ^ 21) 1)
  = Error "Step s1 timed out after 1e+21ms"
  /\ WorkflowExecutor.timeout_error
       (fallbackStep "s1" "analyze" "Analyze requirements" "taskMaster" (2 ^ 60) 1)
     = Error "Step s1 timed out after 1152921504606847000ms".
Proof. split; vm_compute; reflexivity. Qed.

Lemma executeStep_times_out s wf env w2 p w3 ms :
  WorkflowExecutor.runStepWithIntegration (step_type s) (step_integration s)
    (step_parameters s) wf env w2 = (Normal p, w3) ->
  step_timeout s = JNumber ms ->
  1 <= ms ->
  ms < settles_after p ->
  WorkflowExecutor.executeStep s wf env w2
  = (Throw (Error ("Step " +:+ ToString (step_id s) +:+ " timed out after "
                   +:+ ToString (JNumber ms) +:+ "ms")),
     set_clock (clock w3 + timer_delay env (JNumber ms)) w3)
  /\ timer_delay env (JNumber ms) <= ms.
Proof.
  intros Hp Ht Hpos Hlate.
  assert (Hdelay : timer_delay env (JNumber ms) <= ms).
  { unfold timer_delay. cbn [ToNumber].
    destruct (Z.leb 1 ms && Z.leb ms 2147483647); lia. }
  split; [| exact Hdelay].
  unfold WorkflowExecutor.executeStep. rewrite (bind_Normal _ _ _ _ _ _ Hp).
  unfold bind at 1, ask. rewrite Ht.
  replace (Z.leb (settles_after p) (timer_delay env (JNumber ms))) with false
    by (symmetry; apply Z.leb_gt; lia).
  unfold WorkflowExecutor.timeout_error. rewrite Ht.
  unfold bind, sleep, modify, throw. reflexivity.
Qed.

(** C5. When the provider call of step k takes longer than the step's
    timeout (a positive number of milliseconds), after the steps before
    it succeeded: the execution of the step rejects, no later than the
    timeout after it started, with an error that names the step and its
    timeout; the owning workflow ends with status failed and carries that
    error. The message prints the timeout as the template literal does:
    in decimal below 2^53, and as the shortest decimal of the double
    from there on ([1e+21ms] for a timeout of 10^21). *)
Theorem step_timeout_fails_workflow (env : Env) (w : World)
    (instruction : string) (options : JSValue)
    (id : string) (l : nat) (w0 : World) (plan : Plan) (w1 : World)
    (pre : list Step) (s : Step) (post : list Step) (wf : Workflow)
    (rs : list StepResult) (w2 : World) (p : Promise StepResult) (w3 : World) (ms : Z) :
  isInitialized w = true ->
  is_Some (workflowExecutor w) ->
  OrchestrationEngine.new_workflow instruction options env w = (Normal (id, l), w0) ->
  OrchestrationEngine.createWorkflowPlan instruction options env w0 = (Normal plan, w1) ->
  plan_steps plan = (pre ++ s :: post)%list ->
  heap w1 !! l = Some wf ->
  WorkflowExecutor.run_steps pre l [] env w1 = (Normal (rs, None), w2) ->
  WorkflowExecutor.runStepWithIntegration (step_type s) (step_integration s)
    (step_parameters s) wf env w2 = (Normal p, w3) ->
  step_timeout s = JNumber ms ->
  1 <= ms ->
  ms < settles_after p ->
  let message := "Step " +:+ ToString (step_id s) +:+ " timed out after "
                 +:+ ToString (JNumber ms) +:+ "ms" in
  exists w3' envelope w' wf',
    WorkflowExecutor.executeStep s wf env w2 = (Throw (Error message), w3')
    /\ clock w3' - clock w2 <= ms
    /\ OrchestrationEngine.executeWorkflow instruction options env w = (Normal envelope, w')
    /\ success envelope = false
    /\ env_error envelope = Some (JString message)
    /\ heap w' !! l = Some wf'
    /\ wf_status wf' = failed
    /\ wf_error wf' = Some (JString message)
    /\ (ms < 2 ^ 53 -> ToString (JNumber ms) = pretty ms).
Proof.
  intros Hinit Hexec Hnew Hplan Hsplit Hwf Hpre Hp Ht Hpos Hlate message.
  destruct (executeStep_times_out s wf env w2 p w3 ms Hp Ht Hpos Hlate) as [Hstep Hdelay].
  fold message in Hstep.
  assert (Hclock : clock w3 = clock w2).
  { pose proof (runStepWithIntegration_same_clock (step_type s) (step_integration s)
                  (step_parameters s) wf env w2) as Hsame.
    rewrite Hp in Hsame. exact Hsame. }
  destruct (new_workflow_inv _ _ _ _ _ _ _ _ _ _ Hnew Hplan Hwf) as (-> & -> & -> & ->).
  destruct (executeWorkflow_step_throws env w instruction options plan w1 pre s post
              rs w2 _ _ Hinit Hexec Hplan Hsplit Hpre Hstep)
    as (w' & wf' & Hrun & Hheap & Hstatus & Herror & _).
  eexists. eexists. exists w', wf'.
  split; [exact Hstep |].
  split; [unfold set_clock; cbn [clock]; lia |].
  split; [exact Hrun |]. split; [reflexivity |]. split; [reflexivity |].
  split; [exact Hheap |]. split; [exact Hstatus |]. split; [exact Herror |].
  intros Hsafe. cbn [ToString]. apply number_to_string_decimal. lia.
Qed.


(** ** The aggregator is never told *)

Lemma updateMetrics_counts workflow m :
  totalWorkflows (StateManager.updateMetrics workflow m) = totalWorkflows m + 1
  /\ completedWorkflows (StateManager.updateMetrics workflow m)
     = (if decide (wf_status workflow = completed)
        then completedWorkflows m + 1 else completedWorkflows m)
  /\ failedWorkflows (StateManager.updateMetrics workflow m)
     = (if decide (wf_status workflow = failed)
        then failedWorkflows m + 1 else failedWorkflows m).
Proof.
  unfold StateManager.updateMetrics. cbn.
  destruct (wf_status workflow); repeat split; reflexivity.
Qed.

Lemma uuidv4_same_metrics : respects same_metrics uuidv4.
Proof. intros env w. reflexivity. Qed.

Lemma alloc_same_metrics wf : respects same_metrics (alloc wf).
Proof. intros env w. reflexivity. Qed.

#[local] Hint Resolve uuidv4_same_metrics alloc_same_metrics : frames.

Lemma executeStep_same_metrics step wf :
  respects same_metrics (WorkflowExecutor.executeStep step wf).
Proof.
  unfold WorkflowExecutor.executeStep, WorkflowExecutor.runStepWithIntegration,
    WorkflowExecutor.handleAnalyzeStep, WorkflowExecutor.handleGenerateCodeStep,
    WorkflowExecutor.handleRunTestsStep, WorkflowExecutor.handleCommitChangesStep,
    WorkflowExecutor.handleMonitorStep, WorkflowExecutor.handleDeployStep,
    WorkflowExecutor.then_result, call_method, await, sleep.
  respects.
Qed.

#[local] Hint Resolve executeStep_same_metrics : frames.

Lemma run_steps_same_metrics steps l rs :
  respects same_metrics (WorkflowExecutor.run_steps steps l rs).
Proof.
  revert l rs.
  induction steps as [| step rest IH]; intros l rs; cbn [WorkflowExecutor.run_steps].
  - respects.
  - unfold update_wf. respects.
Qed.

Lemma pure_comp_respects (P : World -> World -> Prop) {A : Type} (m : M A) :
  (forall w, P w w) -> pure_comp m -> respects P m.
Proof. intros Hrefl [r Hr] env w. rewrite Hr. apply Hrefl. Qed.

Lemma generateSummary_same_metrics results :
  respects same_metrics (WorkflowExecutor.generateSummary results).
Proof.
  apply pure_comp_respects; [apply same_metrics_refl | apply pure_comp_generateSummary].
Qed.

#[local] Hint Resolve run_steps_same_metrics generateSummary_same_metrics : frames.

Lemma execute_same_metrics l : respects same_metrics (WorkflowExecutor.execute l).
Proof.
  unfold WorkflowExecutor.execute, WorkflowExecutor.on_error,
    WorkflowExecutor.modify_running, WorkflowExecutor.emit.
  respects.
Qed.

Lemma validateStep_same_metrics step : respects same_metrics (validateStep step).
Proof. unfold validateStep. respects. Qed.

#[local] Hint Resolve validateStep_same_metrics : frames.

Lemma parseWorkflowPlan_same_metrics aiResponse :
  respects same_metrics (parseWorkflowPlan aiResponse).
Proof.
  unfold parseWorkflowPlan, JSON_parse_or_throw, validateWorkflowPlan, createFallbackPlan.
  respects.
Qed.

#[local] Hint Resolve execute_same_metrics parseWorkflowPlan_same_metrics : frames.

(** No path through [executeWorkflow] reaches [updateMetrics]: the
    counters of the aggregator are the same after every call. *)
Lemma executeWorkflow_same_metrics instruction options :
  respects same_metrics (OrchestrationEngine.executeWorkflow instruction options).
Proof.
  unfold OrchestrationEngine.executeWorkflow, OrchestrationEngine.new_workflow,
    OrchestrationEngine.run_workflow, OrchestrationEngine.on_failure,
    OrchestrationEngine.createWorkflowPlan, OrchestrationEngine.workflowExecutor_execute,
    call_method, await, sleep, update_wf.
  respects.
Qed.

Lemma cancelWorkflow_same_metrics workflowId :
  respects same_metrics (OrchestrationEngine.cancelWorkflow workflowId).
Proof.
  unfold OrchestrationEngine.cancelWorkflow, OrchestrationEngine.workflowExecutor_cancel,
    WorkflowExecutor.cancel, WorkflowExecutor.modify_running, update_wf.
  respects.
Qed.


(** ** Cancellation *)

(** C8 (as amended). [cancel] on an unknown id throws the not-found
    error and changes nothing. [cancel] on a registered workflow removes
    it from the active registry and returns it; its status becomes
    cancelled when it was running, and is left as it was otherwise (a
    pending workflow stays pending). *)
Theorem cancelWorkflow_outcomes (env : Env) (w : World) (workflowId : string) :
  (activeWorkflows w !! workflowId = None ->
   OrchestrationEngine.cancelWorkflow workflowId env w
   = (Throw (Error ("Workflow " +:+ workflowId +:+ " not found")), w))
  /\ (forall l wf,
        activeWorkflows w !! workflowId = Some l ->
        heap w !! l = Some wf ->
        wf_status wf = running ->
        is_Some (workflowExecutor w) ->
        exists w' wf',
          OrchestrationEngine.cancelWorkflow workflowId env w = (Normal l, w')
          /\ heap w' !! l = Some wf'
          /\ wf_status wf' = cancelled
          /\ wf_cancelledAt wf' = Some (clock w)
          /\ activeWorkflows w' !! workflowId = None)
  /\ (forall l wf,
        activeWorkflows w !! workflowId = Some l ->
        heap w !! l = Some wf ->
        wf_status wf <> running ->
        OrchestrationEngine.cancelWorkflow workflowId env w
        = (Normal l, set_activeWorkflows (delete workflowId (activeWorkflows w)) w)).
Proof.
  split; [| split].
  - intros Hnone. unfold OrchestrationEngine.cancelWorkflow, bind, get_world.
    rewrite Hnone. reflexivity.
  - intros l wf Hreg Hwf Hstatus [running0 Hexec].
    unfold OrchestrationEngine.cancelWorkflow. unfold bind at 1, get_world.
    rewrite Hreg. rewrite (bind_Normal _ _ _ _ _ _ (deref_Some l wf env w Hwf)).
    rewrite Hstatus.
    unfold OrchestrationEngine.workflowExecutor_cancel, WorkflowExecutor.cancel.
    unfold bind at 1. unfold bind at 1. unfold bind at 1, get_world. rewrite Hexec.
    unfold bind at 1, get_world. rewrite Hexec. cbn [mbind option_bind].
    destruct (running0 !! workflowId) as [l2 |].
    + unfold bind, update_wf, WorkflowExecutor.modify_running, modify, now, ret.
      assert (Hl : exists wf2, alter (set_wf_status cancelling) l2 (heap w) !! l = Some wf2).
      { destruct (decide (l2 = l)) as [-> | Hne].
        - rewrite list_lookup_alter_eq, Hwf. eauto.
        - rewrite list_lookup_alter_ne by exact Hne. eauto. }
      destruct Hl as [wf2 Hwf2].
      eexists. eexists. split; [reflexivity |].
      world_simpl. rewrite !list_lookup_alter_eq, Hwf2. workflow_simpl.
      repeat split. apply lookup_delete_eq.
    + unfold bind, update_wf, modify, now, ret.
      eexists. eexists. split; [reflexivity |].
      world_simpl. rewrite !list_lookup_alter_eq, Hwf. workflow_simpl.
      repeat split. apply lookup_delete_eq.
  - intros l wf Hreg Hwf Hstatus.
    unfold OrchestrationEngine.cancelWorkflow. unfold bind at 1, get_world.
    rewrite Hreg. rewrite (bind_Normal _ _ _ _ _ _ (deref_Some l wf env w Hwf)).
    destruct (wf_status wf); try reflexivity. contradiction.
Qed.

(** ** The task queue *)

Lemma size_add_job (x : string) (X : gset string) :
  (size ({[ x ]} ∪ X) <= S (size X))%nat.
Proof.
  rewrite size_union_alt, size_singleton.
  pose proof (subseteq_size (X ∖ {[ x ]}) X) as Hsub.
  assert (X ∖ {[ x ]} ⊆ X) as Hle by set_solver.
  specialize (Hsub Hle). lia.
Qed.

Lemma size_remove_job (x : string) (X : gset string) :
  (size (X ∖ {[ x ]}) <= size X)%nat.
Proof. apply subseteq_size. set_solver. Qed.

Lemma poll_bounded now q :
  (size (TaskQueue.activeJobs q) <= TaskQueue.maxConcurrent q)%nat ->
  (size (TaskQueue.activeJobs (TaskQueue.poll now q))
   <= TaskQueue.maxConcurrent (TaskQueue.poll now q))%nat
  /\ TaskQueue.maxConcurrent (TaskQueue.poll now q) = TaskQueue.maxConcurrent q.
Proof.
  intros Hinv. unfold TaskQueue.poll.
  destruct (TaskQueue.queue q) as [| task rest]; [auto |].
  destruct (decide (size (TaskQueue.activeJobs q) < TaskQueue.maxConcurrent q)%nat)
    as [Hlt | Hge]; [| auto].
  unfold TaskQueue.processTask. cbn. split; [| reflexivity].
  pose proof (size_add_job (TaskQueue.id task) (TaskQueue.activeJobs q)). lia.
Qed.

Lemma step_bounded a q :
  (size (TaskQueue.activeJobs q) <= TaskQueue.maxConcurrent q)%nat ->
  (size (TaskQueue.activeJobs (TaskQueue.step a q))
   <= TaskQueue.maxConcurrent (TaskQueue.step a q))%nat
  /\ TaskQueue.maxConcurrent (TaskQueue.step a q) = TaskQueue.maxConcurrent q.
Proof.
  intros Hinv. destruct a as [task now | now | now | i now |]; cbn [TaskQueue.step].
  - cbn. auto.
  - unfold TaskQueue.startProcessing. destruct (TaskQueue.is_processing q); [auto |].
    match goal with
    | |- context [TaskQueue.poll now ?q1] =>
        destruct (poll_bounded now q1) as [H1 H2]; [exact Hinv | ]
    end.
    split; [exact H1 | exact H2].
  - unfold TaskQueue.wake. destruct (TaskQueue.loops q) as [| n]; [auto |].
    destruct (TaskQueue.is_processing q); [apply poll_bounded; exact Hinv | cbn; auto].
  - unfold TaskQueue.settle. destruct (TaskQueue.inflight q !! i) as [task |]; [| auto].
    destruct (TaskQueue.executeTask task); cbn; (split; [| reflexivity]);
      pose proof (size_remove_job (TaskQueue.id task) (TaskQueue.activeJobs q)); lia.
  - cbn. auto.
Qed.

Lemma run_bounded actions :
  forall q,
    (size (TaskQueue.activeJobs q) <= TaskQueue.maxConcurrent q)%nat ->
    (size (TaskQueue.activeJobs (TaskQueue.run actions q))
     <= TaskQueue.maxConcurrent (TaskQueue.run actions q))%nat
    /\ TaskQueue.maxConcurrent (TaskQueue.run actions q) = TaskQueue.maxConcurrent q.
Proof.
  induction actions as [| a actions IH]; intros q Hinv; [auto |].
  change (TaskQueue.run (a :: actions) q)
    with (TaskQueue.run actions (TaskQueue.step a q)).
  destruct (step_bounded a q Hinv) as [H1 H2].
  destruct (IH (TaskQueue.step a q) H1) as [H3 H4].
  split; [exact H3 | rewrite H4; exact H2].
Qed.

(** C7. Whatever enqueues, starts, stops, wake-ups of the admission
    loop and task completions or failures have happened since the queue
    was built, in whatever order, the number of active jobs the queue
    holds (and reports) does not exceed [maxConcurrent], which is 3; and
    an event starts a queued task only in a state where the number of
    active jobs is strictly below [maxConcurrent]. *)
Theorem activeJobs_never_exceed_maxConcurrent (actions : list TaskQueue.Action)
    (a : TaskQueue.Action) :
  let q := TaskQueue.run actions TaskQueue.constructor in
  (size (TaskQueue.activeJobs q) <= TaskQueue.maxConcurrent q)%nat
  /\ TaskQueue.maxConcurrent q = 3%nat
  /\ (TaskQueue.qs_active (TaskQueue.getQueueStatus q) <= 3)%nat
  /\ ((length (TaskQueue.inflight q) < length (TaskQueue.inflight (TaskQueue.step a q)))%nat ->
      (size (TaskQueue.activeJobs q) < TaskQueue.maxConcurrent q)%nat
      /\ (length (TaskQueue.queue (TaskQueue.step a q)) < length (TaskQueue.queue q))%nat).
Proof.
  intros q.
  destruct (run_bounded actions TaskQueue.constructor) as [Hinv Hmax].
  { cbn. rewrite size_empty. lia. }
  fold q in Hinv, Hmax. cbn in Hmax.
  split; [exact Hinv |]. split; [exact Hmax |].
  split; [cbn; lia |].
  destruct a as [task now | now | now | i now |]; cbn [TaskQueue.step].
  - cbn. lia.
  - unfold TaskQueue.startProcessing. destruct (TaskQueue.is_processing q); [lia |].
    unfold TaskQueue.poll. cbn.
    destruct (TaskQueue.queue q) as [| task rest]; [cbn; lia |].
    destruct (decide (size (TaskQueue.activeJobs q) < TaskQueue.maxConcurrent q)%nat);
      cbn; [auto | lia].
  - unfold TaskQueue.wake. destruct (TaskQueue.loops q) as [| n]; [lia |].
    destruct (TaskQueue.is_processing q); [| cbn; lia].
    unfold TaskQueue.poll.
    destruct (TaskQueue.queue q) as [| task rest]; [cbn; lia |].
    destruct (decide (size (TaskQueue.activeJobs q) < TaskQueue.maxConcurrent q)%nat);
      cbn; [auto | lia].
  - unfold TaskQueue.settle.
    destruct (TaskQueue.inflight q !! i) as [task |] eqn:Hi; [| lia].
    destruct (TaskQueue.executeTask task); cbn;
      pose proof (length_delete (TaskQueue.inflight q) i (mk_is_Some _ _ Hi)); lia.
  - cbn. lia.
Qed.


(** ** The claims on concrete runs *)

(** C1. The scenario of the specification: the plan provider fails to
    produce JSON, the four steps of the fallback plan run against stubs
    that succeed, [execute()] reports success and the workflow has left
    the registry with status completed. The counters of the aggregator
    are what they were before the call, all zero: nothing has been folded
    into them, although [updateMetrics] applied to the finished workflow
    would have counted it. *)
Theorem completed_workflow_is_not_counted :
  exists envelope w' wf',
    OrchestrationEngine.executeWorkflow "add a health endpoint" (JObject [])
      (Sample.runtime Sample.prose Sample.no_files) Sample.engine
    = (Normal envelope, w')
    /\ success envelope = true
    /\ heap w' !! 0%nat = Some wf'
    /\ wf_status wf' = completed
    /\ length (wf_steps wf') = 4%nat
    /\ activeWorkflows w' !! env_workflowId envelope = None
    /\ stateManager Sample.engine = Some StateManager.initial
    /\ stateManager w' = Some StateManager.initial
    /\ totalWorkflows StateManager.initial = 0
    /\ completedWorkflows StateManager.initial = 0
    /\ totalWorkflows (StateManager.updateMetrics wf' StateManager.initial) = 1
    /\ completedWorkflows (StateManager.updateMetrics wf' StateManager.initial) = 1.
Proof.
  eexists. eexists. eexists.
  split; [vm_compute; reflexivity |].
  split; [reflexivity |].
  split; [vm_compute; reflexivity |].
  repeat split; vm_compute; reflexivity.
Qed.




(** Outside the provider interface: the four provider calls of the
    fallback plan all resolve and the log gets its four success entries,
    but the code generator resolved with nothing; [generateSummary]
    reads [result.data.files] without the test for [data] its filter
    makes, the summary cannot be built, and the workflow ends with
    status failed. *)
Lemma unreadable_result_fails_workflow :
  exists envelope w' wf',
    OrchestrationEngine.executeWorkflow "add a health endpoint" (JObject [])
      (Sample.runtime Sample.prose Sample.nothing) Sample.engine
    = (Normal envelope, w')
    /\ success envelope = false
    /\ env_error envelope
       = Some (JString "Cannot read properties of undefined (reading 'files')")
    /\ heap w' !! 0%nat = Some wf'
    /\ wf_status wf' = failed
    /\ length (wf_steps wf') = 4%nat
    /\ Forall (fun r => rec_status r = "completed") (wf_steps wf')
    /\ map method (calls w')
       = ["generatePlan"; "analyzeRequirements"; "generateCode"; "runTests"; "commitChanges"].
Proof.
  eexists. eexists. eexists.
  split; [vm_compute; reflexivity |].
  split; [reflexivity |]. split; [reflexivity |].
  split; [vm_compute; reflexivity |].
  split; [reflexivity |]. split; [reflexivity |].
  split; [repeat constructor | reflexivity].
Qed.


(** The code generator needs 200000 ms, the step allows 120000 ms. *)
Lemma step_timeout_fails_workflow_witness :
  exists envelope w' wf',
    OrchestrationEngine.executeWorkflow "add a health endpoint" (JObject [])
      (Sample.runtime Sample.prose Sample.slow) Sample.engine
    = (Normal envelope, w')
    /\ success envelope = false
    /\ env_error envelope = Some (JString "Step uuid-2 timed out after 120000ms")
    /\ heap w' !! 0%nat = Some wf'
    /\ wf_status wf' = failed.
Proof.
  edestruct (step_timeout_fails_workflow
               (Sample.runtime Sample.prose Sample.slow) Sample.engine
               "add a health endpoint" (JObject []))
    with (pre := [fallbackStep "uuid-1" "analyze" "Analyze requirements" "taskMaster" 30000 1])
         (ms := 120000)
    as (w3' & envelope & w' & wf' & _ & _ & Hrun & Hfail & Herror & Hheap & Hstatus & _).
  - reflexivity.
  - eexists. reflexivity.
  - vm_compute. reflexivity.
  - vm_compute. reflexivity.
  - vm_compute. reflexivity.
  - vm_compute. reflexivity.
  - vm_compute. reflexivity.
  - vm_compute. reflexivity.
  - reflexivity.
  - lia.
  - vm_compute. reflexivity.
  - exists envelope, w', wf'. auto.
Defined.

(** C6, as stated, fails: on an engine that has not been initialized
    [execute()] rejects; and it rejects on an initialized engine when the
    plan provider rejects with [undefined], because the [catch] block
    reads [error.message]. *)
Lemma executeWorkflow_can_reject :
  OrchestrationEngine.executeWorkflow "add a health endpoint" (JObject [])
    (Sample.runtime Sample.prose Sample.no_files) OrchestrationEngine.constructor
  = (Throw (Error "Orchestration Engine not initialized"), OrchestrationEngine.constructor)
  /\ exists w',
       OrchestrationEngine.executeWorkflow "add a health endpoint" (JObject [])
         (Sample.runtime Sample.rejects_nothing Sample.no_files) Sample.engine
       = (Throw (TypeError "Cannot read properties of undefined (reading 'message')"), w').
Proof.
  split; [reflexivity |].
  eexists. vm_compute. reflexivity.
Qed.

Lemma sample_provider_throws_errors :
  plan_provider_throws_errors (Sample.runtime Sample.prose Sample.overloaded).
Proof.
  intros taskMaster generatePlan history arguments e Htm Hgp Hsettle.
  cbn in Htm. injection Htm as <-. cbn in Hgp. injection Hgp as <-.
  discriminate Hsettle.
Qed.

(** A failing step on an initialized engine: the call resolves. *)
Lemma executeWorkflow_always_resolves_witness :
  exists envelope w',
    OrchestrationEngine.executeWorkflow "add a health endpoint" (JObject [])
      (Sample.runtime Sample.prose Sample.overloaded) Sample.engine
    = (Normal envelope, w')
    /\ env_workflowId envelope = "uuid-0".
Proof.
  destruct (executeWorkflow_always_resolves
              (Sample.runtime Sample.prose Sample.overloaded) Sample.engine
              "add a health endpoint" (JObject []))
    as (envelope & w' & Hrun & Hid & _).
  - reflexivity.
  - exact sample_provider_throws_errors.
  - exists envelope, w'. split; [exact Hrun | exact Hid].
Defined.

(** C8, as stated, fails: [cancel] on a pending workflow removes it
    from the registry and returns it with its status still pending. *)
Lemma cancel_leaves_pending_workflow_pending :
  exists w' wf',
    OrchestrationEngine.cancelWorkflow "uuid-0"
      (Sample.runtime Sample.prose Sample.no_files) Sample.with_pending
    = (Normal 0%nat, w')
    /\ activeWorkflows w' !! "uuid-0" = None
    /\ heap w' !! 0%nat = Some wf'
    /\ wf_status wf' = pending
    /\ wf_cancelledAt wf' = None.
Proof.
  eexists. eexists.
  split; [vm_compute; reflexivity |].
  split; [vm_compute; reflexivity |].
  split; [vm_compute; reflexivity |].
  split; reflexivity.
Qed.

(** A workflow that fails while its plan is made is not handed to the
    executor, no event reports it, and it stays in the registry with
    status failed: [cancel] still finds it. *)
Remark planning_failure_stays_registered :
  exists envelope w' wf',
    OrchestrationEngine.executeWorkflow "add a health endpoint" (JObject [])
      (Sample.runtime Sample.overloaded Sample.no_files) Sample.engine
    = (Normal envelope, w')
    /\ success envelope = false
    /\ activeWorkflows w' !! "uuid-0" = Some 0%nat
    /\ heap w' !! 0%nat = Some wf'
    /\ wf_status wf' = failed
    /\ emitted w' = [].
Proof.
  eexists. eexists. eexists.
  split; [vm_compute; reflexivity |].
  split; [reflexivity |].
  split; [vm_compute; reflexivity |].
  split; [vm_compute; reflexivity |].
  split; reflexivity.
Qed.

(** An unknown id, a running workflow and a pending one. *)
Lemma cancelWorkflow_outcomes_witness :
  OrchestrationEngine.cancelWorkflow "no-such-id"
    (Sample.runtime Sample.prose Sample.no_files) Sample.with_running
  = (Throw (Error "Workflow no-such-id not found"), Sample.with_running)
  /\ (exists w' wf',
        OrchestrationEngine.cancelWorkflow "uuid-0"
          (Sample.runtime Sample.prose Sample.no_files) Sample.with_running
        = (Normal 0%nat, w')
        /\ heap w' !! 0%nat = Some wf'
        /\ wf_status wf' = cancelled
        /\ activeWorkflows w' !! "uuid-0" = None)
  /\ (exists w',
        OrchestrationEngine.cancelWorkflow "uuid-0"
          (Sample.runtime Sample.prose Sample.no_files) Sample.with_pending
        = (Normal 0%nat, w')
        /\ heap w' = heap Sample.with_pending).
Proof.
  split; [| split].
  - apply (proj1 (cancelWorkflow_outcomes
                    (Sample.runtime Sample.prose Sample.no_files) Sample.with_running
                    "no-such-id")).
    vm_compute. reflexivity.
  - edestruct (proj1 (proj2 (cancelWorkflow_outcomes
                               (Sample.runtime Sample.prose Sample.no_files)
                               Sample.with_running "uuid-0")))
      as (w' & wf' & Hrun & Hheap & Hstatus & _ & Hgone).
    + vm_compute. reflexivity.
    + vm_compute. reflexivity.
    + reflexivity.
    + eexists. reflexivity.
    + exists w', wf'. auto.
  - eexists. split.
    + eapply (proj2 (proj2 (cancelWorkflow_outcomes
                              (Sample.runtime Sample.prose Sample.no_files)
                              Sample.with_pending "uuid-0"))).
      * vm_compute. reflexivity.
      * vm_compute. reflexivity.
      * discriminate.
    + reflexivity.
Defined.

(** A burst of five tasks: three are active in the end, and the loop
    admitted the second one while one was active. *)
Lemma activeJobs_never_exceed_maxConcurrent_witness :
  (size (TaskQueue.activeJobs (TaskQueue.run Sample.burst TaskQueue.constructor)) <= 3)%nat
  /\ (size (TaskQueue.activeJobs
              (TaskQueue.run (take 6 Sample.burst) TaskQueue.constructor)) < 3)%nat.
Proof.
  split.
  - destruct (activeJobs_never_exceed_maxConcurrent Sample.burst TaskQueue.Stop)
      as (Hinv & Hmax & _).
    rewrite Hmax in Hinv. exact Hinv.
  - destruct (activeJobs_never_exceed_maxConcurrent (take 6 Sample.burst)
                (TaskQueue.Wake 101))
      as (_ & Hmax & _ & Hstart).
    rewrite Hmax in Hstart. apply Hstart.
    vm_compute. lia.
Defined.

(** * Further properties *)

(** ** The aggregator, told *)

Lemma told_snoc workflows workflow :
  told (workflows ++ [workflow]) = StateManager.updateMetrics workflow (told workflows).
Proof. unfold told. rewrite fold_left_app. reflexivity. Qed.

Lemma with_status_snoc s workflows workflow :
  with_status s (workflows ++ [workflow])
  = (with_status s workflows
     ++ (if decide (wf_status workflow = s) then [workflow] else []))%list.
Proof.
  unfold with_status. rewrite filter_app. reflexivity.
Qed.

Lemma told_counters (workflows : list Workflow) :
  totalWorkflows (told workflows) = Z.of_nat (length workflows)
  /\ completedWorkflows (told workflows)
     = Z.of_nat (length (with_status completed workflows))
  /\ failedWorkflows (told workflows)
     = Z.of_nat (length (with_status failed workflows)).
Proof.
  induction workflows as [| workflow workflows IH] using rev_ind.
  - cbn. repeat split; lia.
  - destruct IH as (Htotal & Hcompleted & Hfailed).
    rewrite told_snoc.
    destruct (updateMetrics_counts workflow (told workflows)) as (Ht & Hc & Hf).
    rewrite Ht, Hc, Hf, !with_status_snoc, !length_app.
    destruct (wf_status workflow) eqn:Hs;
      repeat match goal with
             | |- context [decide (?a = ?b)] =>
                 destruct (decide (a = b)); try discriminate; try contradiction
             end;
      cbn [length]; repeat split; lia.
Qed.

(** X1. After [updateMetrics] has been called for each of a sequence
    of workflows, on a new aggregator: [totalWorkflows] is the number of
    calls, [completedWorkflows] and [failedWorkflows] are the numbers of
    workflows that had status completed and failed when they were
    reported, and the two together never exceed the total (a cancelled
    workflow counts in the total only). *)
Theorem updateMetrics_counters (workflows : list Workflow) :
  totalWorkflows (told workflows) = Z.of_nat (length workflows)
  /\ completedWorkflows (told workflows)
     = Z.of_nat (length (with_status completed workflows))
  /\ failedWorkflows (told workflows)
     = Z.of_nat (length (with_status failed workflows))
  /\ completedWorkflows (told workflows) + failedWorkflows (told workflows)
     <= totalWorkflows (told workflows).
Proof.
  destruct (told_counters workflows) as (Htotal & Hcompleted & Hfailed).
  split; [exact Htotal |]. split; [exact Hcompleted |]. split; [exact Hfailed |].
  rewrite Htotal, Hcompleted, Hfailed.
  assert (Hdisjoint : (length (with_status completed workflows)
                       + length (with_status failed workflows)
                       <= length workflows)%nat).
  { unfold with_status. clear.
    induction workflows as [| workflow workflows IH]; [reflexivity |].
    rewrite !filter_cons.
    destruct (decide (wf_status workflow = completed)) as [Hc | Hc];
      destruct (decide (wf_status workflow = failed)) as [Hf | Hf];
      cbn [length]; try lia.
    rewrite Hc in Hf. discriminate Hf. }
  lia.
Qed.

Lemma inject_Z_pos z : 0 < z -> (0 < inject_Z z)%Q.
Proof. intros H. unfold Qlt. cbn. lia. Qed.

(** X2. [getSuccessRate()] is 0 on a new aggregator (no division by
    zero), and after any sequence of reports it lies between 0 and 1 and
    is the share of the reported workflows that were completed. *)
Theorem getSuccessRate_is_a_share (workflows : list Workflow) :
  StateManager.getSuccessRate (told []) = 0%Q
  /\ (0 <= StateManager.getSuccessRate (told workflows) <= 1)%Q
  /\ (StateManager.getSuccessRate (told workflows)
      * inject_Z (Z.of_nat (length workflows))
      == inject_Z (Z.of_nat (length (with_status completed workflows))))%Q.
Proof.
  split; [reflexivity |].
  destruct (told_counters workflows) as (Htotal & Hcompleted & _).
  unfold StateManager.getSuccessRate. rewrite Htotal, Hcompleted.
  assert (Hc : (length (with_status completed workflows) <= length workflows)%nat)
    by apply length_filter.
  set (n := Z.of_nat (length workflows)) in *.
  set (c := Z.of_nat (length (with_status completed workflows))) in *.
  assert (Hcn : 0 <= c <= n) by (subst c n; lia).
  destruct (Z.eqb_spec n 0) as [Hn | Hn].
  - assert (c = 0) as -> by lia. rewrite Hn.
    split; [split; unfold Qle; cbn; lia | reflexivity].
  - assert (Hpos : (0 < inject_Z n)%Q) by (apply inject_Z_pos; lia).
    split; [split |].
    + apply Qle_shift_div_l; [exact Hpos |]. rewrite Qmult_0_l.
      unfold Qle. cbn. lia.
    + apply Qle_shift_div_r; [exact Hpos |]. rewrite Qmult_1_l.
      unfold Qle. cbn. lia.
    + unfold Qdiv. rewrite <- Qmult_assoc, (Qmult_comm (/ inject_Z n)).
      rewrite Qmult_inv_r; [apply Qmult_1_r |].
      intros H0. rewrite H0 in Hpos. discriminate Hpos.
Qed.

(** Folding a finished workflow into an average over [k] workflows. *)
Lemma average_step (avg : Q) (k d : Z) :
  0 <= k ->
  ((avg * inject_Z (k + 1 - 1) + inject_Z d) / inject_Z (k + 1) * inject_Z (k + 1)
   == avg * inject_Z k + inject_Z d)%Q.
Proof.
  intros Hk. replace (k + 1 - 1) with k by lia.
  unfold Qdiv. rewrite <- Qmult_assoc, (Qmult_comm (/ inject_Z (k + 1))).
  rewrite Qmult_inv_r; [apply Qmult_1_r |].
  intros H0. assert (Hpos : (0 < inject_Z (k + 1))%Q) by (apply inject_Z_pos; lia).
  rewrite H0 in Hpos. discriminate Hpos.
Qed.

Lemma total_duration_snoc workflows workflow :
  total_duration (workflows ++ [workflow]) = total_duration workflows + duration workflow.
Proof.
  unfold total_duration. induction workflows as [| x workflows IH]; cbn in *; lia.
Qed.

Lemma averageDuration_told workflows :
  Forall (fun workflow => is_Some (wf_completedAt workflow)) workflows ->
  (averageDuration (told workflows) * inject_Z (Z.of_nat (length workflows))
   == inject_Z (total_duration workflows))%Q.
Proof.
  induction workflows as [| workflow workflows IH] using rev_ind; intros Hall.
  - reflexivity.
  - apply Forall_app in Hall as [Hall Hlast].
    apply Forall_cons in Hlast as [[completedAt Hc] _].
    specialize (IH Hall).
    destruct (told_counters workflows) as (Htotal & _).
    rewrite told_snoc, total_duration_snoc, length_app. cbn [length].
    unfold StateManager.updateMetrics. cbn [averageDuration].
    rewrite Hc, Htotal.
    replace (Z.of_nat (length workflows + 1)) with (Z.of_nat (length workflows) + 1) by lia.
    rewrite average_step by lia.
    rewrite IH. unfold duration. rewrite Hc.
    rewrite <- inject_Z_plus. reflexivity.
Qed.

(** X3. When every workflow reported to the aggregator carries its
    time of completion, [getAverageDuration()] is the arithmetic mean of
    the durations (completion minus creation) of the reported
    workflows. *)
Theorem averageDuration_is_mean (workflows : list Workflow) :
  workflows <> [] ->
  Forall (fun workflow => is_Some (wf_completedAt workflow)) workflows ->
  (StateManager.getAverageDuration (told workflows)
   == inject_Z (total_duration workflows) / inject_Z (Z.of_nat (length workflows)))%Q.
Proof.
  intros Hne Hall. unfold StateManager.getAverageDuration.
  rewrite <- (averageDuration_told workflows Hall).
  unfold Qdiv. rewrite <- Qmult_assoc, Qmult_inv_r; [rewrite Qmult_1_r; reflexivity |].
  intros H0.
  assert (Hpos : (0 < inject_Z (Z.of_nat (length workflows)))%Q).
  { apply inject_Z_pos. destruct workflows; [contradiction | cbn; lia]. }
  rewrite H0 in Hpos. discriminate Hpos.
Qed.

(** ** Saved states *)

Lemma cleanup_fold (cutoff : Z) (entries : list (string * WorkflowStates.SavedState)) :
  forall (remaining : gmap string WorkflowStates.SavedState) (workflowId : string),
    fold_left
      (fun remaining entry =>
         if decide (WorkflowStates.lastUpdated entry.2 < cutoff)
         then delete entry.1 remaining
         else remaining)
      entries remaining !! workflowId
    = if decide (Exists (fun entry => entry.1 = workflowId
                                     /\ WorkflowStates.lastUpdated entry.2 < cutoff) entries)
      then None
      else remaining !! workflowId.
Proof.
  induction entries as [| [k s] entries IH]; intros remaining workflowId.
  - cbn [fold_left]. destruct (decide _) as [H | H]; [inversion H | reflexivity].
  - cbn [fold_left fst snd]. rewrite IH.
    destruct (decide (Exists _ entries)) as [Hrest | Hrest].
    + rewrite decide_True by (right; exact Hrest). reflexivity.
    + destruct (decide (WorkflowStates.lastUpdated s < cutoff)) as [Hold | Hnew].
      * destruct (decide (k = workflowId)) as [-> | Hne].
        -- rewrite decide_True by (left; cbn; auto). apply lookup_delete_eq.
        -- rewrite lookup_delete_ne by exact Hne.
           rewrite decide_False; [reflexivity |].
           intros Hex. apply Exists_cons in Hex as [[Hk _] | Hex]; [| contradiction].
           cbn in Hk. contradiction.
      * rewrite decide_False; [reflexivity |].
        intros Hex. apply Exists_cons in Hex as [[_ Hk] | Hex]; [| contradiction].
        cbn in Hk. contradiction.
Qed.

Lemma cleanup_lookup now workflows workflowId :
  WorkflowStates.getWorkflowState workflowId (WorkflowStates.cleanup now workflows)
  = match WorkflowStates.getWorkflowState workflowId workflows with
    | Some state =>
        if decide (WorkflowStates.lastUpdated state < now - 86400000)
        then None else Some state
    | None => None
    end.
Proof.
  unfold WorkflowStates.getWorkflowState, WorkflowStates.cleanup.
  change (24 * 60 * 60 * 1000) with 86400000.
  rewrite cleanup_fold.
  destruct (workflows !! workflowId) as [state |] eqn:Hlook.
  - destruct (decide (WorkflowStates.lastUpdated state < now - 86400000)) as [Hold | Hnew].
    + rewrite decide_True; [reflexivity |].
      apply Exists_exists. exists (workflowId, state). split; [| cbn; auto].
      apply elem_of_map_to_list. exact Hlook.
    + rewrite decide_False; [reflexivity |].
      intros Hex. apply Exists_exists in Hex as ([k s] & Hin & Hk & Hold). cbn in Hk, Hold.
      subst k. apply elem_of_map_to_list in Hin.
      rewrite Hlook in Hin. injection Hin as <-. contradiction.
  - destruct (decide _); reflexivity.
Qed.

(** X5. [cleanup()] deletes exactly the saved states that were last
    updated more than 24 hours before: a state is still there afterwards
    if and only if it was there and at most 86400000 ms have passed since
    its last update. *)
Theorem cleanup_keeps_last_24_hours (now : Z)
    (workflows : gmap string WorkflowStates.SavedState) (workflowId : string) :
  WorkflowStates.getWorkflowState workflowId (WorkflowStates.cleanup now workflows)
  = match WorkflowStates.getWorkflowState workflowId workflows with
    | Some state =>
        if decide (now - WorkflowStates.lastUpdated state <= 86400000)
        then Some state else None
    | None => None
    end.
Proof.
  rewrite cleanup_lookup.
  destruct (WorkflowStates.getWorkflowState workflowId workflows) as [state |];
    [| reflexivity].
  destruct (decide (WorkflowStates.lastUpdated state < now - 86400000)),
           (decide (now - WorkflowStates.lastUpdated state <= 86400000));
    try reflexivity; lia.
Qed.

(** X4. [getWorkflowState(id)] after [saveWorkflowState(id, state)]
    returns the properties of [state] stamped with the time of the call
    (a [lastUpdated] of [state] itself is overwritten), a [cleanup()] at
    that time keeps the entry, and the states saved under other ids are
    as they were. *)
Theorem saveWorkflowState_getWorkflowState (workflowId other : string)
    (state : JSValue) (now : Z) (workflows : gmap string WorkflowStates.SavedState) :
  let workflows' := WorkflowStates.saveWorkflowState workflowId state now workflows in
  (exists entry,
     WorkflowStates.getWorkflowState workflowId workflows' = Some entry
     /\ WorkflowStates.lastUpdated entry = now
     /\ (forall key, key <> "lastUpdated" ->
           assoc key (WorkflowStates.saved entry) = assoc key (own_properties state))
     /\ WorkflowStates.getWorkflowState workflowId
          (WorkflowStates.cleanup now workflows') = Some entry)
  /\ (other <> workflowId ->
      WorkflowStates.getWorkflowState other workflows'
      = WorkflowStates.getWorkflowState other workflows).
Proof.
  intros workflows'. split.
  - eexists. split; [apply lookup_insert_eq |]. split; [reflexivity |]. split.
    + intros key Hkey. cbn [WorkflowStates.saved].
      induction (own_properties state) as [| [k v] fields IH]; [reflexivity |].
      rewrite filter_cons. cbn [fst].
      destruct (decide (k <> "lastUpdated")) as [Hk | Hk].
      * cbn [assoc]. destruct (String.eqb key k); [reflexivity | exact IH].
      * cbn [assoc]. destruct (String.eqb_spec key k) as [-> | Hne]; [| exact IH].
        contradiction.
    + rewrite cleanup_lookup. unfold workflows', WorkflowStates.getWorkflowState,
        WorkflowStates.saveWorkflowState.
      rewrite lookup_insert_eq. cbn [WorkflowStates.lastUpdated].
      rewrite decide_False by lia. reflexivity.
  - intros Hne. apply lookup_insert_ne. congruence.
Qed.

(** ** The queue, in order *)

Lemma run_cons a actions q :
  TaskQueue.run (a :: actions) q = TaskQueue.run actions (TaskQueue.step a q).
Proof. reflexivity. Qed.

Lemma run_snoc actions a q :
  TaskQueue.run (actions ++ [a]) q = TaskQueue.step a (TaskQueue.run actions q).
Proof. unfold TaskQueue.run. rewrite fold_left_app. reflexivity. Qed.

Lemma announced_snoc name q events' name' task :
  TaskQueue.events q = (events' ++ [(name', task)])%list ->
  announced name q
  = (map (fun ev => TaskQueue.id ev.2) (filter (fun ev => ev.1 = name) events')
     ++ (if decide (name' = name) then [TaskQueue.id task] else []))%list.
Proof.
  intros H. unfold announced. rewrite H, filter_app, map_app. f_equal.
  rewrite filter_cons, filter_nil. cbn [fst].
  destruct (decide (name' = name)); reflexivity.
Qed.

Ltac event_names :=
  repeat match goal with
         | |- context [decide (?a = ?b)] =>
             first [ rewrite (decide_True (P := a = b)) by reflexivity
                   | rewrite (decide_False (P := a = b)) by discriminate ]
         end.

(** What one round of the admission loop does to the lists of the queue. *)
Lemma poll_cases now q :
  (TaskQueue.poll now q = q)
  \/ (exists task rest started,
        TaskQueue.queue q = task :: rest
        /\ (size (TaskQueue.activeJobs q) < TaskQueue.maxConcurrent q)%nat
        /\ TaskQueue.id started = TaskQueue.id task
        /\ TaskQueue.poll now q
           = TaskQueue.mkState rest (TaskQueue.is_processing q) (TaskQueue.maxConcurrent q)
               ({[ TaskQueue.id task ]} ∪ TaskQueue.activeJobs q)
               (TaskQueue.inflight q ++ [started]) (TaskQueue.loops q)
               (TaskQueue.events q ++ [("task:started", started)])).
Proof.
  unfold TaskQueue.poll.
  destruct (TaskQueue.queue q) as [| task rest] eqn:Hq; [left; reflexivity |].
  destruct (decide (size (TaskQueue.activeJobs q) < TaskQueue.maxConcurrent q)%nat)
    as [Hlt | Hge]; [| left; reflexivity].
  right. eexists task, rest, _. split; [reflexivity |]. split; [exact Hlt |].
  split; [| reflexivity]. reflexivity.
Qed.

(** What the settlement of a task does. *)
Lemma settle_cases i now q :
  (TaskQueue.inflight q !! i = None /\ TaskQueue.settle i now q = q)
  \/ (exists task finished name,
        TaskQueue.inflight q !! i = Some task
        /\ TaskQueue.id finished = TaskQueue.id task
        /\ (name = "task:completed" \/ name = "task:failed")
        /\ TaskQueue.settle i now q
           = TaskQueue.mkState (TaskQueue.queue q) (TaskQueue.is_processing q)
               (TaskQueue.maxConcurrent q)
               (TaskQueue.activeJobs q ∖ {[ TaskQueue.id task ]})
               (delete i (TaskQueue.inflight q)) (TaskQueue.loops q)
               (TaskQueue.events q ++ [(name, finished)])).
Proof.
  unfold TaskQueue.settle.
  destruct (TaskQueue.inflight q !! i) as [task |] eqn:Hi; [| left; auto].
  right. destruct (TaskQueue.executeTask task) as [r | e].
  - eexists task, _, _. split; [reflexivity |]. split; [| split].
    3: reflexivity. 1: reflexivity. left; reflexivity.
  - eexists task, _, _. split; [reflexivity |]. split; [| split].
    3: reflexivity. 1: reflexivity. right; reflexivity.
Qed.

Lemma accounted_poll now q : accounted q -> accounted (TaskQueue.poll now q).
Proof.
  intros [Hfifo Hcount].
  destruct (poll_cases now q) as [-> | (task & rest & started & Hq & _ & Hid & ->)];
    [split; assumption |].
  unfold accounted, waiting, in_flight in *. rewrite Hq in Hfifo. cbn [map] in Hfifo.
  rewrite !(announced_snoc _ _ (TaskQueue.events q) "task:started" started) by reflexivity.
  fold (announced "task:started" q) (announced "task:queued" q)
       (announced "task:completed" q) (announced "task:failed" q).
  event_names.
  cbn [TaskQueue.queue TaskQueue.inflight]. rewrite !app_nil_r, Hid.
  split.
  - rewrite <- app_assoc. exact Hfifo.
  - rewrite map_app, !length_app. cbn [map length]. lia.
Qed.

Lemma accounted_step a q : accounted q -> accounted (TaskQueue.step a q).
Proof.
  intros Hacc. destruct a as [task now | now | now | i now |]; cbn [TaskQueue.step].
  - destruct Hacc as [Hfifo Hcount].
    unfold accounted, waiting, in_flight in *. unfold TaskQueue.addTask. cbn [snd].
    rewrite !(announced_snoc _ _ (TaskQueue.events q) "task:queued" _) by reflexivity.
    fold (announced "task:started" q) (announced "task:queued" q)
         (announced "task:completed" q) (announced "task:failed" q).
    event_names.
    cbn [TaskQueue.queue TaskQueue.inflight TaskQueue.id]. rewrite !app_nil_r.
    split; [| exact Hcount].
    rewrite map_app, app_assoc, Hfifo. reflexivity.
  - unfold TaskQueue.startProcessing. destruct (TaskQueue.is_processing q); [exact Hacc |].
    apply accounted_poll. exact Hacc.
  - unfold TaskQueue.wake. destruct (TaskQueue.loops q) as [| n]; [exact Hacc |].
    destruct (TaskQueue.is_processing q); [apply accounted_poll; exact Hacc | exact Hacc].
  - destruct (settle_cases i now q)
      as [[_ ->] | (task & finished & name & Hi & Hid & Hname & ->)]; [exact Hacc |].
    destruct Hacc as [Hfifo Hcount].
    unfold accounted, waiting, in_flight in *.
    rewrite !(announced_snoc _ _ (TaskQueue.events q) name finished) by reflexivity.
    fold (announced "task:started" q) (announced "task:queued" q)
         (announced "task:completed" q) (announced "task:failed" q).
    cbn [TaskQueue.queue TaskQueue.inflight].
    pose proof (length_delete (TaskQueue.inflight q) i (mk_is_Some _ _ Hi)) as Hdel.
    assert (Hpos : (0 < length (TaskQueue.inflight q))%nat).
    { apply lookup_lt_Some in Hi. lia. }
    rewrite !length_map in *.
    destruct Hname as [-> | ->]; event_names;
      rewrite ?app_nil_r, ?length_app; cbn [length];
      (split; [exact Hfifo | lia]).
  - exact Hacc.
Qed.

Lemma accounted_run actions : forall q, accounted q -> accounted (TaskQueue.run actions q).
Proof.
  induction actions as [| a actions IH]; intros q Hacc; [exact Hacc |].
  rewrite run_cons. apply IH, accounted_step, Hacc.
Qed.

(** X17. The queue is first-in, first-out: whatever has happened since
    it was built, the tasks started so far, in the order of their
    [task:started] events, followed by the tasks still waiting, are the
    tasks accepted by [addTask] in the order of their [task:queued]
    events. No task is started twice, skipped or overtaken. *)
Theorem tasks_start_in_order_of_arrival (actions : list TaskQueue.Action) :
  let q := TaskQueue.run actions TaskQueue.constructor in
  (announced "task:started" q ++ waiting q)%list = announced "task:queued" q.
Proof.
  intros q.
  destruct (accounted_run actions TaskQueue.constructor) as [Hfifo _];
    [split; reflexivity |].
  exact Hfifo.
Qed.

(** X18. No task is lost: at every moment the number of tasks accepted
    by [addTask] is the number [getQueueStatus().queued] of waiting tasks
    plus the number of tasks in flight plus the numbers of
    [task:completed] and of [task:failed] events; every task that
    settles is announced under exactly one of the two. *)
Theorem every_task_is_accounted_for (actions : list TaskQueue.Action) :
  let q := TaskQueue.run actions TaskQueue.constructor in
  (length (announced "task:queued" q)
   = TaskQueue.qs_queued (TaskQueue.getQueueStatus q)
     + length (TaskQueue.inflight q)
     + length (announced "task:completed" q)
     + length (announced "task:failed" q))%nat.
Proof.
  intros q.
  destruct (accounted_run actions TaskQueue.constructor) as [Hfifo Hcount];
    [split; reflexivity |].
  fold q in Hfifo, Hcount.
  rewrite <- Hfifo, length_app, Hcount. unfold waiting, in_flight. rewrite !length_map.
  cbn [TaskQueue.getQueueStatus TaskQueue.qs_queued]. lia.
Qed.

(** ** Identifiers of tasks *)

Lemma size_list_to_set_le (l : list string) :
  (size (list_to_set l : gset string) <= length l)%nat.
Proof.
  induction l as [| x l IH]; cbn [list_to_set length].
  - rewrite size_empty. lia.
  - pose proof (size_add_job x (list_to_set l)). lia.
Qed.

Lemma in_flight_delete i q task :
  TaskQueue.inflight q !! i = Some task ->
  exists before after,
    in_flight q = (before ++ TaskQueue.id task :: after)%list
    /\ map TaskQueue.id (delete i (TaskQueue.inflight q)) = (before ++ after)%list.
Proof.
  intros Hi. unfold in_flight.
  exists (map TaskQueue.id (take i (TaskQueue.inflight q))),
         (map TaskQueue.id (drop (S i) (TaskQueue.inflight q))).
  split.
  - rewrite <- (take_drop_middle _ _ _ Hi) at 1. rewrite map_app. reflexivity.
  - rewrite delete_take_drop, map_app. reflexivity.
Qed.

Lemma covered_poll now q : covered q -> covered (TaskQueue.poll now q).
Proof.
  intros Hcov.
  destruct (poll_cases now q) as [-> | (task & rest & started & Hq & _ & Hid & ->)];
    [exact Hcov |].
  unfold covered, in_flight in *. cbn [TaskQueue.activeJobs TaskQueue.inflight].
  rewrite map_app, list_to_set_app_L. cbn [map list_to_set]. rewrite Hid. set_solver.
Qed.

Lemma covered_step a q : covered q -> covered (TaskQueue.step a q).
Proof.
  intros Hcov. destruct a as [task now | now | now | i now |]; cbn [TaskQueue.step].
  - exact Hcov.
  - unfold TaskQueue.startProcessing. destruct (TaskQueue.is_processing q); [exact Hcov |].
    apply covered_poll. exact Hcov.
  - unfold TaskQueue.wake. destruct (TaskQueue.loops q) as [| n]; [exact Hcov |].
    destruct (TaskQueue.is_processing q); [apply covered_poll; exact Hcov | exact Hcov].
  - destruct (settle_cases i now q)
      as [[_ ->] | (task & finished & name & Hi & Hid & Hname & ->)]; [exact Hcov |].
    destruct (in_flight_delete i q task Hi) as (before & after & Hall & Hdel).
    unfold covered in *. cbn [TaskQueue.activeJobs]. unfold in_flight at 1.
    cbn [TaskQueue.inflight]. rewrite Hdel. rewrite Hall in Hcov.
    rewrite list_to_set_app_L in *. cbn [list_to_set] in Hcov. set_solver.
  - exact Hcov.
Qed.

Lemma covered_run actions : forall q, covered q -> covered (TaskQueue.run actions q).
Proof.
  induction actions as [| a actions IH]; intros q Hcov; [exact Hcov |].
  rewrite run_cons. apply IH, covered_step, Hcov.
Qed.

Lemma tracked_poll seen now q : tracked seen q -> tracked seen (TaskQueue.poll now q).
Proof.
  intros (Hnd & Hseen & Hact).
  destruct (poll_cases now q) as [-> | (task & rest & started & Hq & _ & Hid & ->)];
    [repeat split; assumption |].
  unfold tracked, in_flight, waiting in *.
  cbn [TaskQueue.activeJobs TaskQueue.inflight TaskQueue.queue].
  rewrite Hq in Hnd, Hseen. cbn [map] in Hnd, Hseen.
  rewrite map_app. cbn [map]. rewrite Hid, <- app_assoc. cbn [app].
  split; [exact Hnd |]. split; [exact Hseen |].
  rewrite list_to_set_app_L, Hact. cbn [list_to_set]. set_solver.
Qed.

Lemma tracked_step seen a q :
  tracked seen q ->
  NoDup (seen ++ enqueued [a]) ->
  tracked (seen ++ enqueued [a]) (TaskQueue.step a q).
Proof.
  intros Htr Hfresh.
  assert (Hweak : tracked (seen ++ enqueued [a]) q).
  { destruct Htr as (Hnd & Hseen & Hact). repeat split; try assumption.
    intros x Hx. apply elem_of_app. left. apply Hseen, Hx. }
  destruct a as [task now | now | now | i now |]; cbn [TaskQueue.step].
  - destruct Htr as (Hnd & Hseen & Hact).
    unfold tracked, in_flight, waiting in *. unfold TaskQueue.addTask. cbn [snd].
    cbn [TaskQueue.activeJobs TaskQueue.inflight TaskQueue.queue].
    cbn [enqueued flat_map app] in *.
    rewrite map_app. cbn [map TaskQueue.id]. rewrite app_assoc.
    apply NoDup_app in Hfresh as (_ & Hnew & _).
    split; [| split; [| exact Hact]].
    + apply NoDup_app. split; [exact Hnd |]. split; [| apply NoDup_singleton].
      intros x Hx Hx'. apply list_elem_of_singleton in Hx'. subst x.
      apply (Hnew _ (Hseen _ Hx)). apply list_elem_of_singleton. reflexivity.
    + intros x Hx. apply elem_of_app in Hx as [Hx | Hx]; apply elem_of_app;
        [left; apply Hseen, Hx | right; exact Hx].
  - unfold TaskQueue.startProcessing. destruct (TaskQueue.is_processing q); [exact Hweak |].
    apply tracked_poll. exact Hweak.
  - unfold TaskQueue.wake. destruct (TaskQueue.loops q) as [| n]; [exact Hweak |].
    destruct (TaskQueue.is_processing q); [apply tracked_poll; exact Hweak | exact Hweak].
  - destruct (settle_cases i now q)
      as [[_ ->] | (task & finished & name & Hi & Hid & Hname & ->)]; [exact Hweak |].
    destruct (in_flight_delete i q task Hi) as (before & after & Hall & Hdel).
    destruct Hweak as (Hnd & Hseen & Hact).
    unfold tracked in *. unfold in_flight at 1 2 3. unfold waiting in *.
    cbn [TaskQueue.activeJobs TaskQueue.inflight TaskQueue.queue].
    rewrite Hdel. rewrite Hall in Hnd, Hseen, Hact.
    rewrite <- app_assoc in Hnd. cbn [app] in Hnd.
    apply NoDup_app in Hnd as (Hbefore & Hsep & Hrest).
    apply NoDup_cons in Hrest as (Hnotin & Hrest).
    split; [| split].
    + rewrite <- app_assoc. apply NoDup_app. split; [exact Hbefore |].
      split; [| exact Hrest].
      intros x Hx Hx'. apply (Hsep x Hx). right. exact Hx'.
    + intros x Hx. apply Hseen. rewrite <- app_assoc in Hx |- *.
      apply elem_of_app in Hx as [Hx | Hx]; apply elem_of_app;
        [left; exact Hx | right; right; exact Hx].
    + rewrite Hact, !list_to_set_app_L. cbn [list_to_set].
      assert (TaskQueue.id task ∉ before).
      { intros Hin. apply (Hsep _ Hin). left. }
      assert (TaskQueue.id task ∉ after).
      { intros Hin. apply Hnotin. apply elem_of_app. left. exact Hin. }
      set_solver.
  - exact Hweak.
Qed.

Lemma enqueued_snoc actions a : enqueued (actions ++ [a]) = (enqueued actions ++ enqueued [a])%list.
Proof. unfold enqueued. rewrite flat_map_app. reflexivity. Qed.

Lemma tracked_run actions :
  NoDup (enqueued actions) ->
  tracked (enqueued actions) (TaskQueue.run actions TaskQueue.constructor).
Proof.
  induction actions as [| a actions IH] using rev_ind; intros Hnd.
  - split; [apply NoDup_nil_2 |]. split; [intros x Hx; inversion Hx | reflexivity].
  - rewrite enqueued_snoc in Hnd |- *. rewrite run_snoc.
    apply tracked_step; [| exact Hnd].
    apply IH. apply NoDup_app in Hnd as (Hnd & _). exact Hnd.
Qed.

(** X19. The number [getQueueStatus().active] never exceeds the
    number of tasks in flight, and the two are equal, so that at most 3
    tasks are in flight, when the tasks were given pairwise distinct
    identifiers. ([activeJobs] is a set of identifiers: of two tasks in
    flight under one identifier, as two tasks without [id] enqueued in
    the same millisecond are, it counts one.) *)
Theorem distinct_ids_bound_tasks_in_flight (actions : list TaskQueue.Action) :
  let q := TaskQueue.run actions TaskQueue.constructor in
  (TaskQueue.qs_active (TaskQueue.getQueueStatus q) <= length (TaskQueue.inflight q))%nat
  /\ (NoDup (enqueued actions) ->
      length (TaskQueue.inflight q) = TaskQueue.qs_active (TaskQueue.getQueueStatus q)
      /\ (length (TaskQueue.inflight q) <= 3)%nat).
Proof.
  intros q. cbn [TaskQueue.getQueueStatus TaskQueue.qs_active]. split.
  - pose proof (covered_run actions TaskQueue.constructor) as Hcov.
    fold q in Hcov. unfold covered in Hcov.
    etransitivity; [apply subseteq_size, Hcov; set_solver |].
    etransitivity; [apply size_list_to_set_le |].
    unfold in_flight. rewrite length_map. reflexivity.
  - intros Hnd. destruct (tracked_run actions Hnd) as (Hnodup & _ & Hact).
    fold q in Hnodup, Hact.
    assert (Hlen : length (TaskQueue.inflight q) = size (TaskQueue.activeJobs q)).
    { rewrite Hact, size_list_to_set.
      - unfold in_flight. rewrite length_map. reflexivity.
      - apply NoDup_app in Hnodup as (H & _). exact H. }
    split; [exact Hlen |].
    destruct (run_bounded actions TaskQueue.constructor) as [Hinv Hmax].
    { cbn. rewrite size_empty. lia. }
    fold q in Hinv, Hmax. cbn in Hmax. lia.
Qed.

(** Four tasks without [id] arrive in the same millisecond and get the
    same identifier: all four are in flight at once, and the queue
    reports one active job. *)
Remark tasks_under_one_id_are_counted_once :
  let anonymous := {| TaskQueue.raw_id := None;
                      TaskQueue.raw_type := JString "code_analysis";
                      TaskQueue.raw_data := JObject [] |} in
  let q := TaskQueue.run
             [ TaskQueue.Enqueue anonymous 7; TaskQueue.Enqueue anonymous 7;
               TaskQueue.Enqueue anonymous 7; TaskQueue.Enqueue anonymous 7;
               TaskQueue.Start 8; TaskQueue.Wake 108; TaskQueue.Wake 208;
               TaskQueue.Wake 308 ]
             TaskQueue.constructor in
  length (TaskQueue.inflight q) = 4%nat
  /\ TaskQueue.qs_active (TaskQueue.getQueueStatus q) = 1%nat.
Proof. split; vm_compute; reflexivity. Qed.

(** ** A queue that does not process *)

Lemma idle_step a q :
  TaskQueue.is_processing q = false ->
  never_started [a] ->
  TaskQueue.is_processing (TaskQueue.step a q) = false
  /\ announced "task:started" (TaskQueue.step a q) = announced "task:started" q
  /\ waiting (TaskQueue.step a q) = (waiting q ++ enqueued [a])%list.
Proof.
  intros Hidle Hns. apply Forall_cons in Hns as [Hns _].
  destruct a as [task now | now | now | i now |]; cbn [TaskQueue.step]; [| contradiction | | |].
  - unfold TaskQueue.addTask. cbn [snd]. split; [exact Hidle |]. split.
    + rewrite (announced_snoc _ _ (TaskQueue.events q) "task:queued" _) by reflexivity.
      event_names. rewrite app_nil_r. reflexivity.
    + unfold waiting. cbn [TaskQueue.queue]. rewrite map_app. reflexivity.
  - unfold TaskQueue.wake. destruct (TaskQueue.loops q) as [| n].
    + cbn [enqueued flat_map]. rewrite app_nil_r. auto.
    + rewrite Hidle. cbn [enqueued flat_map]. unfold waiting, announced.
      cbn [TaskQueue.queue TaskQueue.events TaskQueue.is_processing].
      rewrite app_nil_r. auto.
  - cbn [enqueued flat_map]. rewrite app_nil_r.
    destruct (settle_cases i now q)
      as [[_ ->] | (task & finished & name & Hi & Hid & Hname & ->)]; [auto |].
    split; [exact Hidle |]. split; [| reflexivity].
    rewrite (announced_snoc _ _ (TaskQueue.events q) name finished) by reflexivity.
    destruct Hname as [-> | ->]; event_names; rewrite app_nil_r; reflexivity.
  - cbn [enqueued flat_map]. rewrite app_nil_r. unfold waiting, announced.
    cbn [TaskQueue.queue TaskQueue.events TaskQueue.is_processing TaskQueue.stop]. auto.
Qed.

(** X20. A queue that is not processing (it was never started, or
    [stop()] was called) starts no task until [startProcessing()] is
    called: whatever is enqueued, whichever loop wakes and whichever task
    settles meanwhile, [processing] stays false, no [task:started] event
    is emitted, and the accepted tasks wait in the order of arrival. *)
Theorem idle_queue_starts_nothing (actions : list TaskQueue.Action) (q : TaskQueue.State) :
  TaskQueue.is_processing q = false ->
  never_started actions ->
  let q' := TaskQueue.run actions q in
  TaskQueue.is_processing q' = false
  /\ announced "task:started" q' = announced "task:started" q
  /\ waiting q' = (waiting q ++ enqueued actions)%list.
Proof.
  revert q. induction actions as [| a actions IH]; intros q Hidle Hns q'.
  - subst q'. cbn. rewrite app_nil_r. auto.
  - subst q'. rewrite run_cons.
    pose proof Hns as Hns'. apply Forall_cons in Hns' as [Ha Hrest].
    destruct (idle_step a q Hidle) as (H1 & H2 & H3); [constructor; [exact Ha | constructor] |].
    destruct (IH (TaskQueue.step a q) H1 Hrest) as (H4 & H5 & H6).
    split; [exact H4 |]. split; [congruence |].
    rewrite H6, H3, <- app_assoc. f_equal.
    unfold enqueued. cbn [flat_map]. rewrite app_nil_r. reflexivity.
Qed.

(** ** Steps without a handler *)

Lemma timer_delay_pos env timeout : 1 <= timer_delay env timeout.
Proof.
  unfold timer_delay. destruct (ToNumber env timeout) as [n |]; [| lia].
  destruct (Z.leb 1 n && Z.leb n 2147483647) eqn:H; [| lia].
  apply andb_prop in H as [H _]. apply Z.leb_le in H. exact H.
Qed.

Lemma set_clock_same w : set_clock (clock w + 0) w = w.
Proof. destruct w. unfold set_clock. cbn. rewrite Z.add_0_r. reflexivity. Qed.

(** A step whose promise is rejected before the first [await]. *)
Lemma executeStep_rejected step wf env w e :
  WorkflowExecutor.runStepWithIntegration (step_type step) (step_integration step)
    (step_parameters step) wf env w = (Normal (rejected e), w) ->
  WorkflowExecutor.executeStep step wf env w = (Throw e, w).
Proof.
  intros Hp. unfold WorkflowExecutor.executeStep.
  rewrite (bind_Normal _ _ _ _ _ _ Hp). unfold bind at 1, ask.
  cbn [rejected settles_after].
  replace (Z.leb 0 (timer_delay env (step_timeout step))) with true
    by (symmetry; apply Z.leb_le; pose proof (timer_delay_pos env (step_timeout step)); lia).
  unfold await, bind, sleep, modify. cbn [settles_after outcome]. unfold throw.
  rewrite set_clock_same. reflexivity.
Qed.

Lemma lookup_integration_own env name integration :
  integrations env name = Some integration ->
  lookup_integration env name = Some integration.
Proof. intros H. unfold lookup_integration. rewrite H. reflexivity. Qed.

Lemma lookup_integration_inherited env name :
  integrations env name = None -> name ∈ Object_prototype ->
  lookup_integration env name = Some (fun _ => None).
Proof.
  intros H Hin. unfold lookup_integration. rewrite H.
  rewrite bool_decide_eq_true_2 by exact Hin. reflexivity.
Qed.

Lemma lookup_integration_none env name :
  integrations env name = None -> name ∉ Object_prototype ->
  lookup_integration env name = None.
Proof.
  intros H Hin. unfold lookup_integration. rewrite H.
  rewrite bool_decide_eq_false_2 by exact Hin. reflexivity.
Qed.

Lemma unhandled_type_rejected type integrationName parameters wf env w integration :
  lookup_integration env (ToString integrationName) = Some integration ->
  handled type = false ->
  WorkflowExecutor.runStepWithIntegration type integrationName parameters wf env w
  = (Normal (rejected (Error ("Unknown step type: " +:+ ToString type))), w).
Proof.
  intros Hsome Htype.
  unfold WorkflowExecutor.runStepWithIntegration, async, try_catch.
  unfold bind at 1, ask. rewrite Hsome.
  unfold handled in Htype. cbn [existsb] in Htype.
  repeat (apply orb_false_iff in Htype as [?H Htype]).
  repeat match goal with H : strict_eq_string _ _ = false |- _ => rewrite H; clear H end.
  reflexivity.
Qed.

(** X12. A step that names an integration the registry neither holds
    nor inherits rejects with [Integration '<name>' not found]. A name
    that is found, held or inherited, passes that test, and the step
    rejects with [Unknown step type: <type>] when its type is none of
    analyze, generate_code, run_tests, commit_changes, monitor, deploy.
    A name the registry only inherits from [Object.prototype]
    ([constructor], [toString], ...) has none of the methods of an
    integration: a step of a known type rejects with
    [integration.<method> is not a function]. In every one of these
    cases no provider is called and no time passes: the step does not
    wait for its timeout. *)
Theorem step_without_handler_fails_at_once (env : Env) (w : World)
    (step : Step) (workflow : Workflow) :
  let name := ToString (step_integration step) in
  (integrations env name = None -> name ∉ Object_prototype ->
   WorkflowExecutor.executeStep step workflow env w
   = (Throw (Error ("Integration '" +:+ name +:+ "' not found")), w))
  /\ (is_Some (integrations env name) \/ name ∈ Object_prototype ->
      handled (step_type step) = false ->
      WorkflowExecutor.executeStep step workflow env w
      = (Throw (Error ("Unknown step type: " +:+ ToString (step_type step))), w))
  /\ (integrations env name = None -> name ∈ Object_prototype ->
      forall type method,
        (type, method) ∈ [("analyze", "analyzeRequirements");
                          ("generate_code", "generateCode");
                          ("run_tests", "runTests");
                          ("monitor", "setupMonitoring");
                          ("deploy", "deploy")] ->
        step_type step = JString type ->
        WorkflowExecutor.executeStep step workflow env w
        = (Throw (TypeError ("integration." +:+ method +:+ " is not a function")), w))
  /\ (integrations env name = None -> name ∈ Object_prototype ->
      step_type step = JString "commit_changes" ->
      nullish (step_parameters step) = false ->
      WorkflowExecutor.executeStep step workflow env w
      = (Throw (TypeError "integration.commitChanges is not a function"), w)).
Proof.
  intros name. split; [| split; [| split]].
  - intros Hnone Hout. apply executeStep_rejected.
    unfold WorkflowExecutor.runStepWithIntegration, async, try_catch.
    unfold bind at 1, ask. fold name.
    rewrite (lookup_integration_none _ _ Hnone Hout). reflexivity.
  - intros Hfound Htype. apply executeStep_rejected.
    destruct (integrations env name) as [integration |] eqn:Hown.
    + apply (unhandled_type_rejected _ _ _ _ _ _ integration); [| exact Htype].
      apply lookup_integration_own. exact Hown.
    + destruct Hfound as [[integration Hsome] | Hin]; [discriminate |].
      apply (unhandled_type_rejected _ _ _ _ _ _ (fun _ => None)); [| exact Htype].
      apply lookup_integration_inherited; assumption.
  - intros Hnone Hin type method Hpair Htype. apply executeStep_rejected.
    unfold WorkflowExecutor.runStepWithIntegration, async, try_catch.
    unfold bind at 1, ask. fold name.
    rewrite (lookup_integration_inherited _ _ Hnone Hin), Htype.
    repeat (apply elem_of_cons in Hpair as [[= -> ->] | Hpair]; [reflexivity |]).
    apply elem_of_nil in Hpair. destruct Hpair.
  - intros Hnone Hin Htype Hparameters. apply executeStep_rejected.
    unfold WorkflowExecutor.runStepWithIntegration, async, try_catch.
    unfold bind at 1, ask. fold name.
    rewrite (lookup_integration_inherited _ _ Hnone Hin), Htype.
    cbn [strict_eq_string String.eqb Ascii.eqb Bool.eqb].
    unfold WorkflowExecutor.handleCommitChangesStep, async, try_catch, get_prop.
    rewrite Hparameters. reflexivity.
Qed.

(** ** Provider calls *)

Lemma calls_at_most_weaken {A : Type} (n n' : nat) (m : M A) :
  (n <= n')%nat -> calls_at_most n m -> calls_at_most n' m.
Proof.
  intros Hle Hm env w. destruct (Hm env w) as (made & Hcalls & Hlen).
  exists made. split; [exact Hcalls | lia].
Qed.

Lemma calls_at_most_same {A : Type} (m : M A) :
  (forall env w, calls (snd (m env w)) = calls w) -> calls_at_most 0 m.
Proof.
  intros H env w. exists []. rewrite app_nil_r. split; [apply H | reflexivity].
Qed.

Lemma calls_at_most_ret {A : Type} (a : A) : calls_at_most 0 (ret a).
Proof. apply calls_at_most_same. reflexivity. Qed.

Lemma calls_at_most_throw {A : Type} (e : JSValue) : calls_at_most 0 (@throw A e).
Proof. apply calls_at_most_same. reflexivity. Qed.

Lemma calls_at_most_ask : calls_at_most 0 ask.
Proof. apply calls_at_most_same. reflexivity. Qed.

Lemma calls_at_most_now : calls_at_most 0 now.
Proof. apply calls_at_most_same. reflexivity. Qed.

Lemma calls_at_most_sleep ms : calls_at_most 0 (sleep ms).
Proof. apply calls_at_most_same. reflexivity. Qed.

Lemma calls_at_most_deref l : calls_at_most 0 (deref l).
Proof.
  apply calls_at_most_same. intros env w. unfold deref.
  destruct (heap w !! l); reflexivity.
Qed.

Lemma calls_at_most_get_prop v k : calls_at_most 0 (get_prop v k).
Proof.
  apply calls_at_most_same. intros env w. unfold get_prop.
  destruct (nullish v); reflexivity.
Qed.

Lemma calls_at_most_modify f :
  (forall w, calls (f w) = calls w) -> calls_at_most 0 (modify f).
Proof. intros H. apply calls_at_most_same. intros env w. apply H. Qed.

Lemma calls_at_most_bind {A B : Type} (a b : nat) (m : M A) (f : A -> M B) :
  calls_at_most a m -> (forall x, calls_at_most b (f x)) ->
  calls_at_most (a + b) (bind m f).
Proof.
  intros Hm Hf env w. unfold bind.
  destruct (Hm env w) as (made & Hcalls & Hlen).
  destruct (m env w) as [[x | e] w1]; cbn [snd] in *.
  - destruct (Hf x env w1) as (made' & Hcalls' & Hlen').
    exists (made ++ made')%list. rewrite Hcalls', Hcalls, app_assoc, length_app.
    split; [reflexivity | lia].
  - exists made. split; [exact Hcalls | lia].
Qed.

Lemma calls_at_most_try_catch {A : Type} (a b : nat) (m : M A) (h : JSValue -> M A) :
  calls_at_most a m -> (forall e, calls_at_most b (h e)) ->
  calls_at_most (a + b) (try_catch m h).
Proof.
  intros Hm Hh env w. unfold try_catch.
  destruct (Hm env w) as (made & Hcalls & Hlen).
  destruct (m env w) as [[x | e] w1]; cbn [snd] in *.
  - exists made. split; [exact Hcalls | lia].
  - destruct (Hh e env w1) as (made' & Hcalls' & Hlen').
    exists (made ++ made')%list. rewrite Hcalls', Hcalls, app_assoc, length_app.
    split; [reflexivity | lia].
Qed.

Lemma calls_at_most_try_finally {A : Type} (a : nat) (m : M A) (fin : M unit) :
  calls_at_most a m -> calls_at_most 0 fin -> calls_at_most a (try_finally m fin).
Proof.
  intros Hm Hfin env w. unfold try_finally.
  destruct (Hm env w) as (made & Hcalls & Hlen).
  destruct (m env w) as [r w1]; cbn [snd] in *.
  destruct (Hfin env w1) as (made' & Hcalls' & Hlen').
  destruct made'; [| cbn in Hlen'; lia]. rewrite app_nil_r in Hcalls'.
  exists made. destruct (fin env w1) as [[u | e] w2]; cbn [snd] in *;
    (split; [congruence | exact Hlen]).
Qed.

Lemma calls_at_most_attempt {A : Type} (a : nat) (m : M A) :
  calls_at_most a m -> calls_at_most a (attempt m).
Proof.
  intros Hm env w. unfold attempt. destruct (Hm env w) as (made & Hcalls & Hlen).
  destruct (m env w) as [r w1]. exists made. auto.
Qed.

Lemma calls_at_most_async {A : Type} (a : nat) (m : M (Promise A)) :
  calls_at_most a m -> calls_at_most a (async m).
Proof.
  intros Hm. unfold async. replace a with (a + 0)%nat by lia.
  apply calls_at_most_try_catch; [exact Hm |]. intros e. apply calls_at_most_ret.
Qed.

Lemma calls_at_most_await {A : Type} (p : Promise A) : calls_at_most 0 (await p).
Proof.
  unfold await. change 0%nat with (0 + 0)%nat.
  apply calls_at_most_bind; [apply calls_at_most_sleep |].
  intros _. destruct (outcome p); [apply calls_at_most_ret | apply calls_at_most_throw].
Qed.

Lemma calls_at_most_call_method path name ig meth arguments :
  calls_at_most 1 (call_method path name ig meth arguments).
Proof.
  unfold call_method. destruct (ig meth) as [f |].
  - intros env w. exists [mkCall name meth arguments]. split; reflexivity.
  - apply (calls_at_most_weaken 0); [lia | apply calls_at_most_throw].
Qed.

Lemma calls_at_most_then_result kind p :
  calls_at_most 0 (WorkflowExecutor.then_result kind p).
Proof.
  unfold WorkflowExecutor.then_result. change 0%nat with (0 + 0)%nat.
  apply calls_at_most_bind; [apply calls_at_most_now |]. intros t. apply calls_at_most_ret.
Qed.

(** A handler: properties of the parameters are read, one method of the
    integration is called, the result is wrapped. *)
Lemma calls_at_most_handler path name ig meth arguments kind :
  calls_at_most 1
    (async (p <- call_method path name ig meth arguments ;;
            WorkflowExecutor.then_result kind p)).
Proof.
  apply calls_at_most_async. change 1%nat with (1 + 0)%nat.
  apply calls_at_most_bind; [apply calls_at_most_call_method |].
  intros p. apply calls_at_most_then_result.
Qed.

Lemma calls_at_most_runStepWithIntegration type integrationName parameters wf :
  calls_at_most 1
    (WorkflowExecutor.runStepWithIntegration type integrationName parameters wf).
Proof.
  unfold WorkflowExecutor.runStepWithIntegration.
  apply calls_at_most_async. change 1%nat with (0 + 1)%nat.
  apply calls_at_most_bind; [apply calls_at_most_ask |]. intros env.
  destruct (lookup_integration env (ToString integrationName)) as [integration |];
    [| apply (calls_at_most_weaken 0); [lia | apply calls_at_most_throw]].
  repeat match goal with
         | |- calls_at_most _ (if ?b then _ else _) => destruct b
         end;
    try apply calls_at_most_handler;
    try (apply (calls_at_most_weaken 0); [lia | apply calls_at_most_throw]).
  unfold WorkflowExecutor.handleCommitChangesStep.
  apply calls_at_most_async.
  change 1%nat with (0 + (0 + (0 + (1 + 0))))%nat.
  repeat (apply calls_at_most_bind; [apply calls_at_most_get_prop |]; intros ?).
  apply calls_at_most_bind; [apply calls_at_most_call_method |].
  intros p. apply calls_at_most_then_result.
Qed.

Lemma calls_at_most_executeStep step wf :
  calls_at_most 1 (WorkflowExecutor.executeStep step wf).
Proof.
  unfold WorkflowExecutor.executeStep. change 1%nat with (1 + (0 + 0))%nat.
  apply calls_at_most_bind; [apply calls_at_most_runStepWithIntegration |].
  intros p. apply calls_at_most_bind; [apply calls_at_most_ask |]. intros env.
  destruct (Z.leb _ _); [apply calls_at_most_await |].
  change 0%nat with (0 + 0)%nat.
  apply calls_at_most_bind; [apply calls_at_most_sleep |]. intros _.
  apply calls_at_most_throw.
Qed.

Lemma calls_at_most_run_steps steps :
  forall l rs, calls_at_most (length steps) (WorkflowExecutor.run_steps steps l rs).
Proof.
  induction steps as [| step rest IH]; intros l rs; cbn [WorkflowExecutor.run_steps length].
  - apply calls_at_most_ret.
  - change (S (length rest)) with (1 + length rest)%nat.
    apply calls_at_most_bind.
    + apply calls_at_most_attempt. change 1%nat with (0 + 1)%nat.
      apply calls_at_most_bind; [apply calls_at_most_deref |].
      intros wf. apply calls_at_most_executeStep.
    + intros [sr | e].
      * replace (length rest) with (0 + (0 + length rest))%nat by lia.
        apply calls_at_most_bind; [apply calls_at_most_now |]. intros t.
        apply calls_at_most_bind; [| intros _; apply IH].
        apply calls_at_most_modify. reflexivity.
      * apply (calls_at_most_weaken 0); [lia | apply calls_at_most_ret].
Qed.

Lemma calls_at_most_generateSummary results :
  calls_at_most 0 (WorkflowExecutor.generateSummary results).
Proof.
  apply calls_at_most_same. intros env w.
  destruct (pure_comp_generateSummary results) as [r Hr]. rewrite Hr. reflexivity.
Qed.

Lemma calls_at_most_emit ev : calls_at_most 0 (WorkflowExecutor.emit ev).
Proof.
  apply calls_at_most_modify. intros w. destruct ev; reflexivity.
Qed.

Lemma calls_at_most_modify_running f : calls_at_most 0 (WorkflowExecutor.modify_running f).
Proof. apply calls_at_most_modify. reflexivity. Qed.

Lemma calls_at_most_on_error id plan results error :
  calls_at_most 0 (WorkflowExecutor.on_error id plan results error).
Proof.
  unfold WorkflowExecutor.on_error. change 0%nat with (0 + (0 + 0))%nat.
  apply calls_at_most_bind; [apply calls_at_most_get_prop |]. intros message.
  apply calls_at_most_bind; [apply calls_at_most_emit |]. intros _.
  apply calls_at_most_throw.
Qed.

(** X11. No step is retried: running a step makes at most one
    provider call, whatever its [retryCount] says and however the call
    ends, and [execute(workflow)] as a whole makes at most as many
    provider calls as the plan has steps. Calls already made are never
    taken back. *)
Theorem execute_calls_each_step_at_most_once (env : Env) (w : World) (l : nat)
    (workflow : Workflow) (plan : Plan) :
  heap w !! l = Some workflow ->
  wf_plan workflow = Some plan ->
  (exists made,
     calls (snd (WorkflowExecutor.execute l env w)) = (calls w ++ made)%list
     /\ (length made <= length (plan_steps plan))%nat)
  /\ (forall step wf env0 w0,
        exists made,
          calls (snd (WorkflowExecutor.executeStep step wf env0 w0)) = (calls w0 ++ made)%list
          /\ (length made <= 1)%nat).
Proof.
  intros Hwf Hplan. split.
  - unfold WorkflowExecutor.execute.
    rewrite (bind_Normal _ _ _ _ _ _ (deref_Some l workflow env w Hwf)).
    unfold bind at 1, WorkflowExecutor.modify_running at 1, modify at 1.
    unfold bind at 1, WorkflowExecutor.emit at 1, modify at 1.
    rewrite Hplan.
    match goal with
    | |- context [try_finally ?body ?fin env ?w0] =>
        assert (Hbody : calls_at_most (length (plan_steps plan)) (try_finally body fin));
        [| destruct (Hbody env w0) as (made & Hcalls & Hlen) ]
    end.
    { apply calls_at_most_try_finally; [| apply calls_at_most_modify_running].
      replace (length (plan_steps plan)) with (length (plan_steps plan) + 0)%nat by lia.
      apply calls_at_most_bind; [apply calls_at_most_run_steps |].
      intros [results [error |]]; [apply calls_at_most_on_error |].
      change 0%nat with (0 + 0)%nat.
      apply calls_at_most_try_catch; [| intros e; apply calls_at_most_on_error].
      apply (calls_at_most_bind 0 0); [apply calls_at_most_generateSummary |].
      intros summary.
      apply (calls_at_most_bind 0 0); [apply calls_at_most_emit |]. intros _.
      apply calls_at_most_ret. }
    exists made. split; [| exact Hlen]. rewrite Hcalls. reflexivity.
  - intros step wf env0 w0. apply calls_at_most_executeStep.
Qed.

(** ** The events of an execution *)

Lemma running_deleted id (running0 : option (gmap string nat)) :
  (delete id <$> running0) ≫= (fun runningWorkflows => runningWorkflows !! id) = None.
Proof. destruct running0 as [m |]; cbn; [apply lookup_delete_eq | reflexivity]. Qed.

(** X10. [execute(workflow)] on a workflow that has a plan: whether it
    resolves or rejects, the workflow is no longer in
    [runningWorkflows] afterwards, and the events emitted are
    [workflow:started] followed by at most one other event. When it
    resolves, that event is [workflow:completed] with the result. When
    it rejects, a value was thrown in the [try] block: if that value is
    neither [null] nor [undefined], [execute] rejects with it and the
    event is [workflow:failed] with its message, with [completedSteps]
    at most [totalSteps]; if it is [null] or [undefined], reading its
    message throws, no event follows and [execute] rejects with that
    [TypeError]. Either event removes the workflow from the registry of
    the engine. In particular, when a step throws a value that is
    neither [null] nor [undefined], [workflow:failed] is emitted with
    the number of the steps before it. *)
Theorem execute_announces_and_cleans_up (env : Env) (w : World) (l : nat)
    (workflow : Workflow) (plan : Plan) :
  heap w !! l = Some workflow ->
  wf_plan workflow = Some plan ->
  let id := wf_id workflow in
  exists r w' terminal,
    WorkflowExecutor.execute l env w = (r, w')
    /\ workflowExecutor w' ≫= (fun runningWorkflows => runningWorkflows !! id) = None
    /\ emitted w' = (emitted w ++ WorkflowStarted id (Some plan) :: terminal)%list
    /\ match r with
       | Normal result =>
           terminal = [WorkflowCompleted result]
           /\ fin_workflowId result = id
           /\ activeWorkflows w' !! id = None
       | Throw error =>
           exists cause completedSteps,
             (completedSteps <= length (plan_steps plan))%nat
             /\ if nullish cause
                then terminal = [] /\ error = no_message cause
                else error = cause
                     /\ terminal
                        = [WorkflowFailed
                             {| fail_workflowId := id;
                                fail_status := "failed";
                                fail_error := own_prop cause "message";
                                fail_completedSteps := completedSteps;
                                fail_totalSteps := length (plan_steps plan) |}]
                     /\ activeWorkflows w' !! id = None
       end
    /\ (forall results cause w1,
          WorkflowExecutor.run_steps (plan_steps plan) l [] env (entered id l (Some plan) w)
          = (Normal (results, Some cause), w1) ->
          nullish cause = false ->
          r = Throw cause
          /\ terminal = [WorkflowFailed (failure id plan results cause)]).
Proof.
  intros Hwf Hplan id.
  assert (Hin : heap (entered id l (Some plan) w) !! l = Some workflow) by exact Hwf.
  destruct (run_steps_spec (plan_steps plan) l [] env _ workflow Hin)
    as (recs & thrown & t & c & _ & Hshape & Hrun).
  specialize (Hrun _ workflow eq_refl eq_refl Hin eq_refl eq_refl). cbn [app] in Hrun.
  assert (Hdone : (length (map rec_result recs) <= length (plan_steps plan))%nat).
  { destruct thrown as [e |].
    - destruct Hshape as (s & post & ->). rewrite length_app, !length_map. lia.
    - rewrite <- Hshape, !length_map. lia. }
  assert (Hfailed : forall e,
    (thrown = None \/ thrown = Some e) ->
    WorkflowExecutor.execute l env w
    = (if nullish e
       then (Throw (no_message e),
             left_running id (looped recs l t c (entered id l (Some plan) w)))
       else (Throw e,
             left_running id
               (setupEventListeners
                  (WorkflowFailed (failure id plan (map rec_result recs) e))
                  (looped recs l t c (entered id l (Some plan) w))))) ->
    exists r w' terminal,
      WorkflowExecutor.execute l env w = (r, w')
      /\ workflowExecutor w' ≫= (fun runningWorkflows => runningWorkflows !! id) = None
      /\ emitted w' = (emitted w ++ WorkflowStarted id (Some plan) :: terminal)%list
      /\ match r with
         | Normal result =>
             terminal = [WorkflowCompleted result]
             /\ fin_workflowId result = id
             /\ activeWorkflows w' !! id = None
         | Throw error =>
             exists cause completedSteps,
               (completedSteps <= length (plan_steps plan))%nat
               /\ if nullish cause
                  then terminal = [] /\ error = no_message cause
                  else error = cause
                       /\ terminal
                          = [WorkflowFailed
                               {| fail_workflowId := id;
                                  fail_status := "failed";
                                  fail_error := own_prop cause "message";
                                  fail_completedSteps := completedSteps;
                                  fail_totalSteps := length (plan_steps plan) |}]
                       /\ activeWorkflows w' !! id = None
         end
      /\ (forall results cause w1,
            WorkflowExecutor.run_steps (plan_steps plan) l [] env
              (entered id l (Some plan) w)
            = (Normal (results, Some cause), w1) ->
            nullish cause = false ->
            r = Throw cause
            /\ terminal = [WorkflowFailed (failure id plan results cause)])).
  { intros e Hthrown Hex. rewrite Hex. destruct (nullish e) eqn:He.
    - eexists. eexists. exists []. split; [reflexivity |]. world_simpl.
      split; [apply running_deleted |]. split; [reflexivity |].
      split.
      + exists e, (length (map rec_result recs)). split; [exact Hdone |].
        rewrite He. split; reflexivity.
      + intros results cause w1 Hloop Hcause. rewrite Hrun in Hloop.
        injection Hloop as _ Hthrew _.
        destruct Hthrown as [-> | ->]; [discriminate |].
        injection Hthrew as ->. congruence.
    - eexists. eexists. eexists. split; [reflexivity |]. world_simpl.
      split; [apply running_deleted |].
      split; [rewrite <- app_assoc; reflexivity |].
      split.
      + exists e, (length (map rec_result recs)). split; [exact Hdone |].
        rewrite He. split; [reflexivity |]. split; [reflexivity |].
        apply lookup_delete_eq.
      + intros results cause w1 Hloop Hcause. rewrite Hrun in Hloop.
        injection Hloop as <- Hthrew _.
        destruct Hthrown as [-> | ->]; [discriminate |].
        injection Hthrew as ->. split; reflexivity. }
  destruct thrown as [e |].
  - apply (Hfailed e); [right; reflexivity |].
    exact (execute_thrown l env w workflow plan _ e _ Hwf Hplan Hrun).
  - destruct (pure_comp_generateSummary (map rec_result recs)) as [r Hr].
    destruct r as [summary | e].
    + rewrite (execute_completed l env w workflow plan _ _ summary Hwf Hplan Hrun (Hr _ _)).
      eexists. eexists. eexists. split; [reflexivity |]. world_simpl.
      split; [apply running_deleted |].
      split; [rewrite <- app_assoc; reflexivity |].
      split; [split; [reflexivity |]; split; [reflexivity |]; apply lookup_delete_eq |].
      intros results cause w1 Hloop _. rewrite Hrun in Hloop. discriminate Hloop.
    + apply (Hfailed e); [left; reflexivity |].
      exact (execute_summary_throws l env w workflow plan _ _ e Hwf Hplan Hrun (Hr _ _)).
Qed.

(** ** What the summary holds *)

Lemma summarize_Normal summary result env w summary' w' :
  WorkflowExecutor.summarize summary result env w = (Normal summary', w') ->
  readable result = true
  /\ totalSteps summary' = totalSteps summary
  /\ successfulSteps summary' = successfulSteps summary
  /\ executionTime summary' = executionTime summary
  /\ recommendations summary' = recommendations summary
  /\ artifacts summary' = (artifacts summary ++ files_of result)%list
  /\ testsPassed summary'
     = (if String.eqb (result_type result) "test_results"
        then Some (js_or (own_prop (result_data result) "passed") (JNumber 0))
        else testsPassed summary)
  /\ testsFailed summary'
     = (if String.eqb (result_type result) "test_results"
        then Some (js_or (own_prop (result_data result) "failed") (JNumber 0))
        else testsFailed summary)
  /\ commitSha summary'
     = (if String.eqb (result_type result) "commit"
        then Some (own_prop (result_data result) "sha")
        else commitSha summary)
  /\ commitUrl summary'
     = (if String.eqb (result_type result) "commit"
        then Some (own_prop (result_data result) "html_url")
        else commitUrl summary).
Proof.
  destruct result as [ty data ts].
  unfold WorkflowExecutor.summarize, readable, files_of.
  cbn [result_type result_data].
  destruct (String.eqb ty "code_generation") eqn:E1;
    destruct (String.eqb ty "test_results") eqn:E2;
    destruct (String.eqb ty "commit") eqn:E3;
    try (apply String.eqb_eq in E1; apply String.eqb_eq in E2; subst; discriminate);
    try (apply String.eqb_eq in E1; apply String.eqb_eq in E3; subst; discriminate);
    try (apply String.eqb_eq in E2; apply String.eqb_eq in E3; subst; discriminate);
    unfold get_prop; destruct (nullish data) eqn:Hdata;
    cbv [bind ret throw]; try discriminate;
    try (destruct (truthy (own_prop data "files")) eqn:Hfiles;
         [ destruct (own_prop data "files") as [| | b | n | s | items | fields];
           cbv [WorkflowExecutor.spread bind ret throw]; try discriminate
         | destruct (own_prop data "files") as [| | b | n | s | items | fields];
           try discriminate;
           try (destruct s; [| discriminate]) ]);
    intros [= <- <-]; cbn [totalSteps successfulSteps executionTime recommendations
                           artifacts testsPassed testsFailed commitSha commitUrl
                           negb andb orb iterable code_points map];
    rewrite ?app_nil_r; repeat split; reflexivity.
Qed.

Lemma of_type_cons kind result results :
  of_type kind (result :: results)
  = if String.eqb (result_type result) kind
    then result :: of_type kind results
    else of_type kind results.
Proof.
  unfold of_type. rewrite filter_cons.
  destruct (decide (result_type result = kind)) as [H | H].
  - rewrite (proj2 (String.eqb_eq _ _) H). reflexivity.
  - rewrite (proj2 (String.eqb_neq _ _) H). reflexivity.
Qed.

Lemma latest_cons {A : Type} (read : StepResult -> A) kind result results before :
  latest read (of_type kind (result :: results)) before
  = latest read (of_type kind results)
      (if String.eqb (result_type result) kind then Some (read result) else before).
Proof.
  rewrite of_type_cons. unfold latest.
  destruct (String.eqb (result_type result) kind); [| reflexivity].
  destruct (of_type kind results) as [| r rs] eqn:H; [reflexivity |].
  rewrite last_cons_cons.
  destruct (last (r :: rs)) eqn:Hl; [reflexivity |].
  apply last_None in Hl. discriminate Hl.
Qed.

Lemma forEach_Normal results :
  forall summary env w summary' w',
    WorkflowExecutor.forEach results summary env w = (Normal summary', w') ->
    forallb readable results = true
    /\ totalSteps summary' = totalSteps summary
    /\ successfulSteps summary' = successfulSteps summary
    /\ executionTime summary' = executionTime summary
    /\ recommendations summary' = recommendations summary
    /\ artifacts summary' = (artifacts summary ++ flat_map files_of results)%list
    /\ testsPassed summary'
       = latest (fun r => js_or (own_prop (result_data r) "passed") (JNumber 0))
           (of_type "test_results" results) (testsPassed summary)
    /\ testsFailed summary'
       = latest (fun r => js_or (own_prop (result_data r) "failed") (JNumber 0))
           (of_type "test_results" results) (testsFailed summary)
    /\ commitSha summary'
       = latest (fun r => own_prop (result_data r) "sha")
           (of_type "commit" results) (commitSha summary)
    /\ commitUrl summary'
       = latest (fun r => own_prop (result_data r) "html_url")
           (of_type "commit" results) (commitUrl summary).
Proof.
  induction results as [| result results IH]; intros summary env w summary' w' Hrun.
  - cbn in Hrun. injection Hrun as <- <-. cbn. rewrite app_nil_r. repeat split.
  - cbn [WorkflowExecutor.forEach] in Hrun. unfold bind in Hrun.
    destruct (WorkflowExecutor.summarize summary result env w) as [[s1 | e] w1] eqn:H1;
      [| discriminate].
    destruct (summarize_Normal _ _ _ _ _ _ H1)
      as (Hr & Ht & Hs & Hx & Hrec & Ha & Htp & Htf & Hcs & Hcu).
    destruct (IH _ _ _ _ _ Hrun)
      as (Hr' & Ht' & Hs' & Hx' & Hrec' & Ha' & Htp' & Htf' & Hcs' & Hcu').
    cbn [forallb flat_map]. rewrite Hr, Hr'. rewrite !latest_cons.
    rewrite Ha', Ha, <- app_assoc, Htp', Htp, Htf', Htf, Hcs', Hcs, Hcu', Hcu.
    repeat split; congruence.
Qed.

(** X13. [generateSummary(results)] touches nothing, and it returns a
    summary if and only if every result is readable: the data of each
    code-generation, test and commit result is neither [null] nor
    [undefined], and the [files] of a code-generation result, when
    truthy, is an array or a string. Otherwise it throws. *)
Theorem generateSummary_returns_iff_readable (env : Env) (w : World)
    (results : list StepResult) :
  exists r,
    WorkflowExecutor.generateSummary results env w = (r, w)
    /\ ((exists summary, r = Normal summary) <-> forallb readable results = true).
Proof.
  destruct (pure_comp_generateSummary results) as [r Hr].
  exists r. split; [apply Hr |]. split.
  - intros [summary ->]. specialize (Hr env w).
    unfold WorkflowExecutor.generateSummary in Hr.
    destruct (forEach_Normal _ _ _ _ _ _ Hr) as [Hread _]. exact Hread.
  - intros Hread. destruct (generateSummary_readable results env w Hread) as (summary & Hs & _).
    exists summary. rewrite Hr in Hs. injection Hs as ->. reflexivity.
Qed.

(** X14. The summary [generateSummary(results)] returns: [totalSteps]
    is the number of results; [successfulSteps] is the number of results
    with truthy data, at most [totalSteps]; [executionTime] is always 0
    and [recommendations] always empty; [artifacts] lists the files of
    the code-generation results in order (the entries of a [files] that
    is an array, the code points of one that is a string); the test
    counts and the commit fields are those of the last test result and
    of the last commit result (they are overwritten, not added up), and
    are absent when there is none. *)
Theorem generateSummary_contents (env : Env) (w : World)
    (results : list StepResult) (summary : Summary) (w' : World) :
  WorkflowExecutor.generateSummary results env w = (Normal summary, w') ->
  totalSteps summary = length results
  /\ successfulSteps summary
     = length (filter (fun r => truthy (result_data r) = true) results)
  /\ (successfulSteps summary <= totalSteps summary)%nat
  /\ executionTime summary = 0
  /\ recommendations summary = []
  /\ artifacts summary = flat_map files_of results
  /\ testsPassed summary
     = (fun r => js_or (own_prop (result_data r) "passed") (JNumber 0))
         <$> last (of_type "test_results" results)
  /\ testsFailed summary
     = (fun r => js_or (own_prop (result_data r) "failed") (JNumber 0))
         <$> last (of_type "test_results" results)
  /\ commitSha summary
     = (fun r => own_prop (result_data r) "sha") <$> last (of_type "commit" results)
  /\ commitUrl summary
     = (fun r => own_prop (result_data r) "html_url") <$> last (of_type "commit" results).
Proof.
  intros Hrun. unfold WorkflowExecutor.generateSummary in Hrun.
  destruct (forEach_Normal _ _ _ _ _ _ Hrun)
    as (_ & Ht & Hs & Hx & Hrec & Ha & Htp & Htf & Hcs & Hcu).
  cbn [totalSteps successfulSteps executionTime recommendations artifacts
       testsPassed testsFailed commitSha commitUrl app] in *.
  unfold WorkflowExecutor.count_successful in Hs.
  split; [exact Ht |]. split; [exact Hs |].
  split; [rewrite Ht, Hs; apply length_filter |].
  split; [exact Hx |]. split; [exact Hrec |]. split; [exact Ha |].
  unfold latest in *.
  split; [rewrite Htp; destruct (last _); reflexivity |].
  split; [rewrite Htf; destruct (last _); reflexivity |].
  split; [rewrite Hcs; destruct (last _); reflexivity |].
  rewrite Hcu; destruct (last _); reflexivity.
Qed.

(** ** The registry *)

Lemma cancelWorkflow_unregisters workflowId env w l w' :
  OrchestrationEngine.cancelWorkflow workflowId env w = (Normal l, w') ->
  activeWorkflows w !! workflowId = Some l
  /\ activeWorkflows w' !! workflowId = None.
Proof.
  unfold OrchestrationEngine.cancelWorkflow. unfold bind at 1, get_world.
  destruct (activeWorkflows w !! workflowId) as [workflow |]; [| discriminate].
  unfold bind at 1. destruct (deref workflow env w) as [[wf | e] w0]; [| discriminate].
  unfold bind at 1.
  match goal with
  | |- context [match ?m env w0 with _ => _ end] => destruct (m env w0) as [[u | e] w1]
  end; [| discriminate].
  unfold bind, modify, ret. intros [= <- <-]. split; [reflexivity |].
  cbn [activeWorkflows set_activeWorkflows]. apply lookup_delete_eq.
Qed.

(** X6. Once [cancelWorkflow(id)] has returned, the engine has
    forgotten the workflow: [getWorkflowStatus(id)], which returned it
    before, and a second [cancelWorkflow(id)] both throw
    [Workflow <id> not found] and change nothing. *)
Theorem cancelled_workflow_is_forgotten (env : Env) (w : World) (workflowId : string)
    (l : nat) (w' : World) :
  OrchestrationEngine.cancelWorkflow workflowId env w = (Normal l, w') ->
  OrchestrationEngine.getWorkflowStatus workflowId env w = (Normal l, w)
  /\ OrchestrationEngine.getWorkflowStatus workflowId env w'
     = (Throw (Error ("Workflow " +:+ workflowId +:+ " not found")), w')
  /\ OrchestrationEngine.cancelWorkflow workflowId env w'
     = (Throw (Error ("Workflow " +:+ workflowId +:+ " not found")), w').
Proof.
  intros Hcancel. destruct (cancelWorkflow_unregisters _ _ _ _ _ Hcancel) as [Hreg Hgone].
  unfold OrchestrationEngine.getWorkflowStatus, OrchestrationEngine.cancelWorkflow,
    bind, get_world.
  rewrite Hreg, Hgone. repeat split.
Qed.

(** ** Identifiers of workflows *)

Lemma uuid_grows_refl w : uuid_grows w w.
Proof. unfold uuid_grows. lia. Qed.

Lemma uuid_grows_trans a b c : uuid_grows a b -> uuid_grows b c -> uuid_grows a c.
Proof. unfold uuid_grows. lia. Qed.

Lemma uuidv4_uuid_grows : respects uuid_grows uuidv4.
Proof. intros env w. unfold uuid_grows. cbn. lia. Qed.

Lemma alloc_uuid_grows wf : respects uuid_grows (alloc wf).
Proof. intros env w. unfold uuid_grows. cbn. lia. Qed.

#[local] Hint Resolve uuid_grows_refl uuid_grows_trans uuidv4_uuid_grows alloc_uuid_grows
  : frames.
#[local] Hint Extern 1 (uuid_grows _ _) => (unfold uuid_grows; apply le_n) : frames.

Lemma executeStep_uuid_grows step wf :
  respects uuid_grows (WorkflowExecutor.executeStep step wf).
Proof.
  unfold WorkflowExecutor.executeStep, WorkflowExecutor.runStepWithIntegration,
    WorkflowExecutor.handleAnalyzeStep, WorkflowExecutor.handleGenerateCodeStep,
    WorkflowExecutor.handleRunTestsStep, WorkflowExecutor.handleCommitChangesStep,
    WorkflowExecutor.handleMonitorStep, WorkflowExecutor.handleDeployStep,
    WorkflowExecutor.then_result, call_method, await, sleep.
  respects.
Qed.

#[local] Hint Resolve executeStep_uuid_grows : frames.

Lemma run_steps_uuid_grows steps l rs :
  respects uuid_grows (WorkflowExecutor.run_steps steps l rs).
Proof.
  revert l rs.
  induction steps as [| step rest IH]; intros l rs; cbn [WorkflowExecutor.run_steps].
  - respects.
  - unfold update_wf. respects.
Qed.

Lemma generateSummary_uuid_grows results :
  respects uuid_grows (WorkflowExecutor.generateSummary results).
Proof.
  apply pure_comp_respects; [apply uuid_grows_refl | apply pure_comp_generateSummary].
Qed.

#[local] Hint Resolve run_steps_uuid_grows generateSummary_uuid_grows : frames.

Lemma execute_uuid_grows l : respects uuid_grows (WorkflowExecutor.execute l).
Proof.
  unfold WorkflowExecutor.execute, WorkflowExecutor.on_error,
    WorkflowExecutor.modify_running, WorkflowExecutor.emit.
  respects.
Qed.

Lemma validateStep_uuid_grows step : respects uuid_grows (validateStep step).
Proof. unfold validateStep. respects. Qed.

#[local] Hint Resolve validateStep_uuid_grows : frames.

Lemma parseWorkflowPlan_uuid_grows aiResponse :
  respects uuid_grows (parseWorkflowPlan aiResponse).
Proof.
  unfold parseWorkflowPlan, JSON_parse_or_throw, validateWorkflowPlan, createFallbackPlan.
  respects.
Qed.

#[local] Hint Resolve execute_uuid_grows parseWorkflowPlan_uuid_grows : frames.

Lemma run_workflow_uuid_grows workflowId workflow instruction options :
  respects uuid_grows
    (try_catch (OrchestrationEngine.run_workflow workflowId workflow instruction options)
               (OrchestrationEngine.on_failure workflowId workflow)).
Proof.
  unfold OrchestrationEngine.run_workflow, OrchestrationEngine.on_failure,
    OrchestrationEngine.createWorkflowPlan, OrchestrationEngine.workflowExecutor_execute,
    call_method, await, sleep, update_wf.
  respects.
Qed.

Lemma bind_Normal_inv {A B : Type} (m : M A) (f : A -> M B) env w b w' :
  bind m f env w = (Normal b, w') ->
  exists a w1, m env w = (Normal a, w1) /\ f a env w1 = (Normal b, w').
Proof.
  unfold bind. destruct (m env w) as [[a | e] w1]; [eauto | discriminate].
Qed.

Lemma run_workflow_id workflowId workflow instruction options env w envelope w' :
  try_catch (OrchestrationEngine.run_workflow workflowId workflow instruction options)
            (OrchestrationEngine.on_failure workflowId workflow) env w
  = (Normal envelope, w') ->
  env_workflowId envelope = workflowId.
Proof.
  unfold try_catch.
  destruct (OrchestrationEngine.run_workflow workflowId workflow instruction options env w)
    as [[r | e] w1] eqn:Hrun.
  - intros [= <- <-]. unfold OrchestrationEngine.run_workflow in Hrun.
    repeat (apply bind_Normal_inv in Hrun as (? & ? & _ & Hrun)).
    unfold ret in Hrun. injection Hrun as <- _. reflexivity.
  - unfold OrchestrationEngine.on_failure. intros Hfail.
    repeat (apply bind_Normal_inv in Hfail as (? & ? & _ & Hfail)).
    unfold ret in Hfail. injection Hfail as <- _. reflexivity.
Qed.

(** Every call of [executeWorkflow] that returns has drawn the
    identifier of its workflow, and the counter has moved on. *)
Lemma executeWorkflow_draws instruction options env w envelope w' :
  OrchestrationEngine.executeWorkflow instruction options env w = (Normal envelope, w') ->
  env_workflowId envelope = uuid_of env (uuid_count w)
  /\ (uuid_count w < uuid_count w')%nat.
Proof.
  unfold OrchestrationEngine.executeWorkflow. unfold bind at 1, get_world.
  destruct (isInitialized w); cbn [negb]; [| discriminate].
  unfold bind at 1. rewrite new_workflow_run. intros Hrun. split.
  - exact (run_workflow_id _ _ _ _ _ _ _ _ Hrun).
  - match type of Hrun with
    | try_catch _ _ env ?w0 = _ =>
        pose proof (run_workflow_uuid_grows (uuid_of env (uuid_count w)) (length (heap w))
                      instruction options env w0) as Hgrow
    end.
    rewrite Hrun in Hgrow. unfold uuid_grows in Hgrow. cbn in Hgrow. lia.
Qed.

Lemma executeWorkflow_batch_ids env requests :
  (forall n m, uuid_of env n = uuid_of env m -> n = m) ->
  forall w envelopes w',
    mapM (fun request => OrchestrationEngine.executeWorkflow request.1 request.2)
         requests env w = (Normal envelopes, w') ->
    (uuid_count w <= uuid_count w')%nat
    /\ Forall (fun envelope =>
                 exists n, (uuid_count w <= n < uuid_count w')%nat
                           /\ env_workflowId envelope = uuid_of env n) envelopes
    /\ NoDup (map env_workflowId envelopes).
Proof.
  intros Hinj. induction requests as [| request requests IH]; intros w envelopes w' Hrun.
  - cbn in Hrun. injection Hrun as <- <-. split; [lia |]. split; constructor.
  - cbn [mapM] in Hrun.
    apply bind_Normal_inv in Hrun as (envelope & w1 & Hfirst & Hrun).
    apply bind_Normal_inv in Hrun as (rest & w2 & Hrest & Hrun).
    unfold ret in Hrun. injection Hrun as <- <-.
    destruct (executeWorkflow_draws _ _ _ _ _ _ Hfirst) as [Hid Hlt].
    destruct (IH _ _ _ Hrest) as (Hle & Hall & Hnd).
    split; [lia |]. split.
    + constructor; [exists (uuid_count w); split; [lia | exact Hid] |].
      eapply Forall_impl; [exact Hall |]. intros e (n & Hn & He). exists n. split; [lia | exact He].
    + cbn [map]. apply NoDup_cons. split; [| exact Hnd].
      intros Hin. apply list_elem_of_fmap in Hin as (e & He & Hin).
      rewrite Forall_forall in Hall. destruct (Hall e Hin) as (n & Hn & Hen).
      rewrite Hid, Hen in He. apply Hinj in He. lia.
Qed.

(** X7. With a generator of identifiers that does not repeat itself,
    the workflows of a series of [executeWorkflow] calls made one after
    the other get pairwise distinct ids: each call that returns has
    drawn the id of its workflow first, and the counter of identifiers
    never goes back. *)
Theorem executeWorkflow_ids_are_fresh (env : Env) (w : World)
    (requests : list (string * JSValue)) (envelopes : list Envelope) (w' : World) :
  (forall n m, uuid_of env n = uuid_of env m -> n = m) ->
  mapM (fun request => OrchestrationEngine.executeWorkflow request.1 request.2)
       requests env w = (Normal envelopes, w') ->
  length envelopes = length requests
  /\ NoDup (map env_workflowId envelopes).
Proof.
  intros Hinj Hrun. split.
  - clear Hinj. revert w envelopes w' Hrun.
    induction requests as [| request requests IH]; intros w envelopes w' Hrun.
    + cbn in Hrun. injection Hrun as <- <-. reflexivity.
    + cbn [mapM] in Hrun.
      apply bind_Normal_inv in Hrun as (envelope & w1 & Hfirst & Hrun).
      apply bind_Normal_inv in Hrun as (rest & w2 & Hrest & Hrun).
      unfold ret in Hrun. injection Hrun as <- <-. cbn. f_equal. eapply IH, Hrest.
  - destruct (executeWorkflow_batch_ids env requests Hinj _ _ _ Hrun) as (_ & _ & Hnd).
    exact Hnd.
Qed.

(** ** Planning *)

(** X8. When planning throws an error (the plan provider rejects, or
    there is none), [executeWorkflow] returns
    [{ success: false, workflowId, error: <message> }] and marks the
    workflow failed; the executor is never called, no event is emitted,
    and the workflow stays in the registry of active workflows, without
    a plan and with an empty step log. *)
Theorem failed_planning_leaves_workflow_registered (env : Env) (w : World)
    (instruction : string) (options : JSValue) (e : JSValue) (w1 : World) :
  isInitialized w = true ->
  OrchestrationEngine.createWorkflowPlan instruction options env
    (snd (OrchestrationEngine.new_workflow instruction options env w)) = (Throw e, w1) ->
  nullish e = false ->
  let id := uuid_of env (uuid_count w) in
  let l := length (heap w) in
  exists w' workflow,
    OrchestrationEngine.executeWorkflow instruction options env w
    = (Normal {| success := false;
                 env_workflowId := id;
                 env_result := None;
                 env_error := Some (own_prop e "message") |}, w')
    /\ activeWorkflows w' !! id = Some l
    /\ heap w' !! l = Some workflow
    /\ wf_status workflow = failed
    /\ wf_error workflow = Some (own_prop e "message")
    /\ wf_plan workflow = None
    /\ wf_steps workflow = []
    /\ emitted w' = emitted w
    /\ workflowExecutor w' = workflowExecutor w.
Proof.
  intros Hinit Hplan He id l.
  destruct (createWorkflowPlan_frame _ _ _ _ _ _ Hplan) as (n & t & c & Hw1).
  rewrite new_workflow_run in Hw1. cbn [snd] in Hw1. fold id l in Hw1.
  unfold OrchestrationEngine.executeWorkflow.
  unfold bind at 1, get_world. rewrite Hinit. cbn [negb].
  unfold bind at 1. rewrite new_workflow_run in Hplan |- *. cbn [snd] in Hplan.
  unfold try_catch, OrchestrationEngine.run_workflow.
  rewrite (bind_Throw _ _ _ _ _ _ Hplan).
  rewrite on_failure_run by exact He. fold id l.
  eexists. eexists. split; [reflexivity |].
  rewrite Hw1. world_simpl.
  split; [apply lookup_insert_eq |].
  rewrite !list_lookup_alter_eq, list_lookup_middle by reflexivity.
  workflow_simpl. repeat split.
Qed.

Lemma createWorkflowPlan_run instruction options env w taskMaster generatePlan :
  integrations env "taskMaster" = Some taskMaster ->
  taskMaster "generatePlan" = Some generatePlan ->
  OrchestrationEngine.createWorkflowPlan instruction options env w
  = match settle (generatePlan (calls w)
                    [JString (OrchestrationEngine.prompt instruction); options]) with
    | Resolves aiResponse =>
        parseWorkflowPlan aiResponse env
          (set_clock
             (clock w + latency (generatePlan (calls w)
                                   [JString (OrchestrationEngine.prompt instruction); options]))
             (set_calls
                (calls w ++ [mkCall "taskMaster" "generatePlan"
                               [JString (OrchestrationEngine.prompt instruction); options]])
                w))
    | Rejects e =>
        (Throw e,
         set_clock
           (clock w + latency (generatePlan (calls w)
                                 [JString (OrchestrationEngine.prompt instruction); options]))
           (set_calls
              (calls w ++ [mkCall "taskMaster" "generatePlan"
                             [JString (OrchestrationEngine.prompt instruction); options]])
              w))
    end.
Proof.
  intros Htm Hgp.
  unfold OrchestrationEngine.createWorkflowPlan. unfold bind at 1, ask. rewrite Htm.
  unfold call_method. rewrite Hgp.
  unfold bind at 1. unfold bind at 1, get_world. unfold bind at 1, modify, ret.
  unfold bind at 1, await. unfold bind at 1, sleep, modify.
  cbn [settles_after outcome].
  destruct (settle _) as [aiResponse | e]; destruct w; reflexivity.
Qed.

(** X9. [createWorkflowPlan] calls [taskMaster.generatePlan] exactly
    once, with the prompt built from the instruction and with the
    caller's options, and waits for the answer. Whatever the provider
    resolves with, it returns a plan (the normalized plan of the answer);
    it throws only what the provider rejects with. *)
Theorem createWorkflowPlan_returns_when_provider_resolves (env : Env) (w : World)
    (instruction : string) (options : JSValue)
    (taskMaster : Integration) (generatePlan : Method) :
  integrations env "taskMaster" = Some taskMaster ->
  taskMaster "generatePlan" = Some generatePlan ->
  let arguments := [JString (OrchestrationEngine.prompt instruction); options] in
  let reply := generatePlan (calls w) arguments in
  let asked :=
    set_clock (clock w + latency reply)
      (set_calls (calls w ++ [mkCall "taskMaster" "generatePlan" arguments]) w) in
  match settle reply with
  | Resolves aiResponse =>
      exists plan n,
        OrchestrationEngine.createWorkflowPlan instruction options env w
        = (Normal plan, drawn n asked)
        /\ parseWorkflowPlan aiResponse env asked = (Normal plan, drawn n asked)
  | Rejects e =>
      OrchestrationEngine.createWorkflowPlan instruction options env w = (Throw e, asked)
  end.
Proof.
  intros Htm Hgp arguments reply asked.
  rewrite (createWorkflowPlan_run instruction options env w taskMaster generatePlan Htm Hgp).
  fold arguments reply asked.
  destruct (settle reply) as [aiResponse | e]; [| reflexivity].
  destruct (parseWorkflowPlan_returns aiResponse env asked) as (plan & n & Hp).
  exists plan, n. split; exact Hp.
Qed.

(** ** The log *)

(** X15. [execute(workflow)] appends to the step log of the workflow
    one entry with status completed for each step it has run with
    success, in the order of the plan: the steps logged are a prefix of
    the plan. When it resolves they are the whole plan, and the [steps]
    of the result are the results of the logged entries. *)
Theorem execute_logs_a_prefix_of_the_plan (env : Env) (w : World) (l : nat)
    (workflow : Workflow) (plan : Plan) :
  heap w !! l = Some workflow ->
  wf_plan workflow = Some plan ->
  exists r w' recs workflow',
    WorkflowExecutor.execute l env w = (r, w')
    /\ heap w' !! l = Some workflow'
    /\ wf_steps workflow' = (wf_steps workflow ++ recs)%list
    /\ Forall (fun entry => rec_status entry = "completed") recs
    /\ map rec_step recs `prefix_of` plan_steps plan
    /\ match r with
       | Normal result =>
           map rec_step recs = plan_steps plan
           /\ fin_steps result = map rec_result recs
           /\ fin_status result = "completed"
       | Throw _ => True
       end.
Proof.
  intros Hwf Hplan.
  assert (Hin : heap (entered (wf_id workflow) l (Some plan) w) !! l = Some workflow)
    by exact Hwf.
  destruct (run_steps_spec (plan_steps plan) l [] env _ workflow Hin)
    as (recs & thrown & t & c & Hall & Hshape & Hrun).
  specialize (Hrun _ workflow eq_refl eq_refl Hin eq_refl eq_refl). cbn [app] in Hrun.
  assert (Hprefix : map rec_step recs `prefix_of` plan_steps plan).
  { destruct thrown as [e |].
    - destruct Hshape as (s & post & ->). eexists. reflexivity.
    - rewrite Hshape. reflexivity. }
  assert (Hlog : forall w0,
            heap w0 = heap (looped recs l t c (entered (wf_id workflow) l (Some plan) w)) ->
            heap w0 !! l = Some (append_log recs workflow)).
  { intros w0 ->. world_simpl. rewrite list_lookup_alter_eq, Hwf. reflexivity. }
  assert (Hfailed : forall e,
    WorkflowExecutor.execute l env w
    = (if nullish e
       then (Throw (no_message e),
             left_running (wf_id workflow)
               (looped recs l t c (entered (wf_id workflow) l (Some plan) w)))
       else (Throw e,
             left_running (wf_id workflow)
               (setupEventListeners
                  (WorkflowFailed (failure (wf_id workflow) plan (map rec_result recs) e))
                  (looped recs l t c (entered (wf_id workflow) l (Some plan) w))))) ->
    exists r w' recs0 workflow',
      WorkflowExecutor.execute l env w = (r, w')
      /\ heap w' !! l = Some workflow'
      /\ wf_steps workflow' = (wf_steps workflow ++ recs0)%list
      /\ Forall (fun entry => rec_status entry = "completed") recs0
      /\ map rec_step recs0 `prefix_of` plan_steps plan
      /\ match r with
         | Normal result =>
             map rec_step recs0 = plan_steps plan
             /\ fin_steps result = map rec_result recs0
             /\ fin_status result = "completed"
         | Throw _ => True
         end).
  { intros e Hex. rewrite Hex.
    destruct (nullish e); eexists; eexists; exists recs; eexists;
      (split; [reflexivity |]); (split; [apply Hlog; reflexivity |]);
      repeat split; assumption. }
  destruct thrown as [e |].
  - apply (Hfailed e). exact (execute_thrown l env w workflow plan _ e _ Hwf Hplan Hrun).
  - destruct (pure_comp_generateSummary (map rec_result recs)) as [r Hr].
    destruct r as [summary | e].
    + rewrite (execute_completed l env w workflow plan _ _ summary Hwf Hplan Hrun (Hr _ _)).
      eexists. eexists. exists recs. eexists.
      split; [reflexivity |]. split; [apply Hlog; reflexivity |].
      repeat split; assumption.
    + apply (Hfailed e).
      exact (execute_summary_throws l env w workflow plan _ _ e Hwf Hplan Hrun (Hr _ _)).
Qed.

(** ** Time *)

Lemma takes_at_most_same env {A : Type} (m : M A) :
  (forall w, clock (snd (m env w)) = clock w) -> takes_at_most env 0 m.
Proof. intros H w. rewrite H. lia. Qed.

Lemma takes_at_most_bind env {A B : Type} (a b : Z) (m : M A) (f : A -> M B) :
  0 <= b ->
  takes_at_most env a m -> (forall x, takes_at_most env b (f x)) ->
  takes_at_most env (a + b) (bind m f).
Proof.
  intros Hb Hm Hf w. unfold bind. specialize (Hm w).
  destruct (m env w) as [[x | e] w1]; cbn [snd] in *.
  - specialize (Hf x w1). lia.
  - lia.
Qed.

Lemma allowance_nonneg env steps : 0 <= allowance env steps.
Proof.
  induction steps as [| step steps IH]; cbn [allowance foldr]; [lia |].
  pose proof (timer_delay_pos env (step_timeout step)). fold (allowance env steps). lia.
Qed.

Lemma takes_at_most_executeStep env step wf :
  takes_at_most env (timer_delay env (step_timeout step))
    (WorkflowExecutor.executeStep step wf).
Proof.
  intros w. unfold WorkflowExecutor.executeStep. unfold bind at 1.
  pose proof (runStepWithIntegration_same_clock (step_type step) (step_integration step)
                (step_parameters step) wf env w) as Hsame.
  destruct (WorkflowExecutor.runStepWithIntegration _ _ _ wf env w) as [[p | e] w1];
    unfold same_clock in Hsame; cbn [snd] in *.
  - unfold bind at 1, ask.
    destruct (Z.leb (settles_after p) (timer_delay env (step_timeout step))) eqn:Hrace.
    + apply Z.leb_le in Hrace. unfold await, bind, sleep, modify.
      destruct (outcome p); cbn; lia.
    + unfold bind, sleep, modify, throw. cbn. lia.
  - pose proof (timer_delay_pos env (step_timeout step)). lia.
Qed.

Lemma takes_at_most_run_steps env steps :
  forall l rs, takes_at_most env (allowance env steps) (WorkflowExecutor.run_steps steps l rs).
Proof.
  induction steps as [| step rest IH]; intros l rs; cbn [WorkflowExecutor.run_steps].
  - apply takes_at_most_same. reflexivity.
  - cbn [allowance foldr]. fold (allowance env rest).
    apply takes_at_most_bind; [apply allowance_nonneg | |].
    + intros w. unfold attempt, bind at 1, deref.
      destruct (heap w !! l) as [wf |].
      * pose proof (takes_at_most_executeStep env step wf w) as H.
        destruct (WorkflowExecutor.executeStep step wf env w). exact H.
      * cbn. pose proof (timer_delay_pos env (step_timeout step)). lia.
    + intros [sr | e].
      * intros w. unfold bind at 1, now. unfold bind at 1, update_wf, modify.
        exact (IH l _ _).
      * intros w. cbn. pose proof (allowance_nonneg env rest). lia.
Qed.

(** X16. [execute(workflow)] ends, one way or the other, no later than
    the sum of the delays of its steps' timers after it began. The delay
    of a timer is at least 1 ms, and it is the step's [timeout] when
    that is a number from 1 to 2^31 - 1. *)
Theorem execute_ends_within_the_timeouts (env : Env) (w : World) (l : nat)
    (workflow : Workflow) (plan : Plan) :
  heap w !! l = Some workflow ->
  wf_plan workflow = Some plan ->
  clock (snd (WorkflowExecutor.execute l env w))
  <= clock w + allowance env (plan_steps plan)
  /\ (forall step, 1 <= timer_delay env (step_timeout step))
  /\ (forall step ms,
        step_timeout step = JNumber ms -> 1 <= ms <= 2147483647 ->
        timer_delay env (step_timeout step) = ms).
Proof.
  intros Hwf Hplan. split; [| split].
  - assert (Hin : heap (entered (wf_id workflow) l (Some plan) w) !! l = Some workflow)
      by exact Hwf.
    destruct (run_steps_spec (plan_steps plan) l [] env _ workflow Hin)
      as (recs & thrown & t & c & _ & _ & Hrun).
    specialize (Hrun _ workflow eq_refl eq_refl Hin eq_refl eq_refl). cbn [app] in Hrun.
    pose proof (takes_at_most_run_steps env (plan_steps plan) l []
                  (entered (wf_id workflow) l (Some plan) w)) as Htime.
    rewrite Hrun in Htime. cbn [snd] in Htime.
    change (clock (entered (wf_id workflow) l (Some plan) w)) with (clock w) in Htime.
    destruct thrown as [e |].
    + rewrite (execute_thrown l env w workflow plan _ e _ Hwf Hplan Hrun).
      destruct (nullish e); exact Htime.
    + destruct (pure_comp_generateSummary (map rec_result recs)) as [r Hr].
      destruct r as [summary | e].
      * rewrite (execute_completed l env w workflow plan _ _ summary Hwf Hplan Hrun (Hr _ _)).
        exact Htime.
      * rewrite (execute_summary_throws l env w workflow plan _ _ e Hwf Hplan Hrun (Hr _ _)).
        destruct (nullish e); exact Htime.
  - intros step. apply timer_delay_pos.
  - intros step ms -> [Hlo Hhi]. unfold timer_delay. cbn [ToNumber].
    replace (Z.leb 1 ms) with true by (symmetry; apply Z.leb_le; lia).
    replace (Z.leb ms 2147483647) with true by (symmetry; apply Z.leb_le; lia).
    reflexivity.
Qed.

(** ** Pages *)

Lemma slice_in_range {A : Type} (l : list A) (start count : Z) :
  0 <= start -> 0 <= count ->
  slice l start (start + count) = take (Z.to_nat count) (drop (Z.to_nat start) l).
Proof.
  intros Hstart Hcount. unfold slice, relative_index.
  replace (Z.ltb start 0) with false by (symmetry; apply Z.ltb_ge; lia).
  replace (Z.ltb (start + count) 0) with false by (symmetry; apply Z.ltb_ge; lia).
  set (len := Z.of_nat (length l)).
  destruct (Z.le_gt_cases len start) as [Hout | Hin].
  - rewrite Z.min_r by lia. rewrite !drop_ge by lia. rewrite !take_nil. reflexivity.
  - rewrite (Z.min_l start) by lia.
    destruct (Z.le_gt_cases (start + count) len) as [Hfit | Hlong].
    + rewrite Z.min_l by lia. f_equal. lia.
    + rewrite Z.min_r by lia.
      rewrite !take_ge; [reflexivity | |]; rewrite length_drop; lia.
Qed.

Lemma take_chunks {A : Type} (l : list A) (n m : nat) :
  concat (map (fun i => take n (drop (i * n) l)) (seq 0 m)) = take (m * n) l.
Proof.
  induction m as [| m IH]; [reflexivity |].
  rewrite seq_S, map_app, concat_app, IH. cbn [map concat plus]. rewrite app_nil_r.
  rewrite take_take_drop. f_equal. lia.
Qed.

Lemma pages_cover (total : nat) (limit : Z) :
  1 <= limit ->
  0 <= APIRoutes.pages total limit
  /\ Z.of_nat total <= APIRoutes.pages total limit * limit
  /\ (APIRoutes.pages total limit - 1) * limit < Z.of_nat total.
Proof.
  intros Hlimit. unfold APIRoutes.pages.
  pose proof (Z.mul_div_le (- Z.of_nat total) limit ltac:(lia)) as Hlow.
  pose proof (Z.mul_succ_div_gt (- Z.of_nat total) limit ltac:(lia)) as Hhigh.
  set (q := (- Z.of_nat total) / limit) in *.
  assert (q <= 0) by nia.
  repeat split; nia.
Qed.

Section Listing.

Variable parseInt : JSValue -> option Z.

Lemma handleGetActiveWorkflows_listed workflows page_value limit_value page limit :
  parseInt page_value = Some page ->
  parseInt limit_value = Some limit ->
  1 <= page -> 1 <= limit ->
  listed (APIRoutes.handleGetActiveWorkflows parseInt workflows
            (JObject [("page", page_value); ("limit", limit_value)]))
  = take (Z.to_nat limit) (drop (Z.to_nat (page - 1) * Z.to_nat limit) workflows).
Proof.
  intros Hpage Hlimit Hp Hl.
  unfold APIRoutes.handleGetActiveWorkflows, listed, APIRoutes.parsed_or.
  cbn [nullish own_prop assoc String.eqb Ascii.eqb Bool.eqb default APIRoutes.sent].
  cbn. rewrite Hpage, Hlimit.
  replace (Z.eqb page 0) with false by (symmetry; apply Z.eqb_neq; lia).
  replace (Z.eqb limit 0) with false by (symmetry; apply Z.eqb_neq; lia).
  rewrite slice_in_range by nia. f_equal. f_equal. nia.
Qed.

End Listing.

(** X25. [GET /workflows] with a page size [limit] of at least 1:
    requesting the pages 1, 2, ..., [totalPages] in turn lists every
    registered workflow exactly once, in the order of registration; a
    page never holds more than [limit] workflows, and the pages after
    [totalPages] are empty. *)
Theorem pages_list_every_workflow_once (parseInt : JSValue -> option Z)
    (workflows : list Workflow) (page_value : Z -> JSValue) (limit_value : JSValue)
    (limit : Z) :
  (forall page, parseInt (page_value page) = Some page) ->
  parseInt limit_value = Some limit ->
  1 <= limit ->
  let shown page :=
    listed (APIRoutes.handleGetActiveWorkflows parseInt workflows
              (JObject [("page", page_value page); ("limit", limit_value)])) in
  let totalPages := APIRoutes.pages (length workflows) limit in
  concat (map (fun i => shown (Z.of_nat i + 1)) (seq 0 (Z.to_nat totalPages))) = workflows
  /\ (forall page, 1 <= page -> Z.of_nat (length (shown page)) <= limit)
  /\ (forall page, totalPages < page -> shown page = []).
Proof.
  intros Hpage Hlimit Hl shown totalPages.
  destruct (pages_cover (length workflows) limit Hl) as (Hnonneg & Hcover & Hlast).
  fold totalPages in Hnonneg, Hcover, Hlast.
  assert (Hshown : forall page, 1 <= page ->
            shown page
            = take (Z.to_nat limit) (drop (Z.to_nat (page - 1) * Z.to_nat limit) workflows)).
  { intros page Hp. unfold shown.
    apply (handleGetActiveWorkflows_listed parseInt workflows _ _ page limit);
      auto. }
  split; [| split].
  - transitivity (take (Z.to_nat totalPages * Z.to_nat limit) workflows);
      [| apply take_ge; nia].
    rewrite <- take_chunks. apply f_equal. apply map_ext_in. intros i _.
    rewrite Hshown by lia. do 3 f_equal. lia.
  - intros page Hp. rewrite Hshown by exact Hp. rewrite length_take. lia.
  - intros page Hp. rewrite Hshown by lia. rewrite drop_ge by nia. apply take_nil.
Qed.

(** ** The routes of a workflow *)

Lemma substring_app_r needle before s :
  substring needle s = true -> substring needle (before +:+ s) = true.
Proof.
  intros H. induction before as [| c before IH]; [exact H |].
  change (substring needle (String c before +:+ s))
    with (String.prefix needle (String c (before +:+ s)) || substring needle (before +:+ s)).
  rewrite IH. apply orb_true_r.
Qed.

Lemma not_found_message workflowId :
  substring "not found" ("Workflow " +:+ workflowId +:+ " not found") = true.
Proof. do 2 apply substring_app_r. reflexivity. Qed.

(** The [catch] block of the two routes, on the error of the registry. *)
Lemma not_found_response workflowId env w :
  (message <- get_prop (Error ("Workflow " +:+ workflowId +:+ " not found")) "message" ;;
   found <- includes message "not found" ;;
   if found
   then ret (APIRoutes.mkResponse 404 (APIRoutes.NotFound message))
   else ret (APIRoutes.mkResponse 500 (APIRoutes.InternalServerError message))) env w
  = (Normal (APIRoutes.mkResponse 404
               (APIRoutes.NotFound (JString ("Workflow " +:+ workflowId +:+ " not found")))),
     w).
Proof.
  unfold get_prop, Error. cbn [nullish own_prop assoc String.eqb Ascii.eqb Bool.eqb default].
  cbn. unfold bind, ret, includes. rewrite not_found_message. reflexivity.
Qed.

(** X21. [GET /workflow/:workflowId] answers 400 with the validation
    errors when there are any, without consulting the engine; 404 with
    [{ error: 'Workflow <id> not found' }] when the engine does not know
    the id; 200 with the workflow when it does. The engine is left as it
    was in all three cases. *)
Theorem handleGetWorkflowStatus_responses (env : Env) (w : World)
    (errors : list JSValue) (workflowId : string) :
  (errors <> [] ->
   APIRoutes.handleGetWorkflowStatus errors workflowId env w
   = (Normal (APIRoutes.mkResponse 400 (APIRoutes.ValidationFailed errors)), w))
  /\ (activeWorkflows w !! workflowId = None ->
      APIRoutes.handleGetWorkflowStatus [] workflowId env w
      = (Normal (APIRoutes.mkResponse 404
                   (APIRoutes.NotFound
                      (JString ("Workflow " +:+ workflowId +:+ " not found")))), w))
  /\ (forall l workflow,
        activeWorkflows w !! workflowId = Some l ->
        heap w !! l = Some workflow ->
        APIRoutes.handleGetWorkflowStatus [] workflowId env w
        = (Normal (APIRoutes.mkResponse 200 (APIRoutes.TheWorkflow workflow)), w)).
Proof.
  split; [| split].
  - intros Herr. unfold APIRoutes.handleGetWorkflowStatus, try_catch.
    destruct errors; [contradiction | reflexivity].
  - intros Hnone. unfold APIRoutes.handleGetWorkflowStatus, try_catch.
    cbn [APIRoutes.invalid].
    unfold OrchestrationEngine.getWorkflowStatus. unfold bind at 1. unfold bind at 1, get_world.
    rewrite Hnone. unfold throw at 1. apply not_found_response.
  - intros l workflow Hreg Hwf. unfold APIRoutes.handleGetWorkflowStatus, try_catch.
    cbn [APIRoutes.invalid].
    unfold OrchestrationEngine.getWorkflowStatus. unfold bind at 1. unfold bind at 1, get_world.
    rewrite Hreg. unfold ret at 1.
    rewrite (bind_Normal _ _ _ _ _ _ (deref_Some l workflow env w Hwf)). reflexivity.
Qed.

Lemma cancelWorkflow_not_running workflowId env w l workflow :
  activeWorkflows w !! workflowId = Some l ->
  heap w !! l = Some workflow ->
  wf_status workflow <> running ->
  OrchestrationEngine.cancelWorkflow workflowId env w
  = (Normal l, set_activeWorkflows (delete workflowId (activeWorkflows w)) w).
Proof.
  intros Hreg Hwf Hstatus.
  unfold OrchestrationEngine.cancelWorkflow. unfold bind at 1, get_world.
  rewrite Hreg. rewrite (bind_Normal _ _ _ _ _ _ (deref_Some l workflow env w Hwf)).
  destruct (wf_status workflow); try reflexivity. contradiction.
Qed.

Lemma cancelWorkflow_running workflowId env w l workflow :
  activeWorkflows w !! workflowId = Some l ->
  heap w !! l = Some workflow ->
  wf_status workflow = running ->
  is_Some (workflowExecutor w) ->
  exists w' workflow',
    OrchestrationEngine.cancelWorkflow workflowId env w = (Normal l, w')
    /\ heap w' !! l = Some workflow'
    /\ wf_status workflow' = cancelled
    /\ wf_cancelledAt workflow' = Some (clock w)
    /\ wf_id workflow' = wf_id workflow
    /\ activeWorkflows w' !! workflowId = None.
Proof.
  intros Hreg Hwf Hstatus [running0 Hexec].
  unfold OrchestrationEngine.cancelWorkflow. unfold bind at 1, get_world.
  rewrite Hreg. rewrite (bind_Normal _ _ _ _ _ _ (deref_Some l workflow env w Hwf)).
  rewrite Hstatus.
  unfold OrchestrationEngine.workflowExecutor_cancel, WorkflowExecutor.cancel.
  unfold bind at 1. unfold bind at 1. unfold bind at 1, get_world. rewrite Hexec.
  unfold bind at 1, get_world. rewrite Hexec. cbn [mbind option_bind].
  destruct (running0 !! workflowId) as [l2 |].
  - unfold bind, update_wf, WorkflowExecutor.modify_running, modify, now, ret.
    assert (Hl : exists wf2, alter (set_wf_status cancelling) l2 (heap w) !! l = Some wf2
                             /\ wf_id wf2 = wf_id workflow).
    { destruct (decide (l2 = l)) as [-> | Hne].
      - rewrite list_lookup_alter_eq, Hwf. eexists. split; [reflexivity |]. reflexivity.
      - rewrite list_lookup_alter_ne by exact Hne. eauto. }
    destruct Hl as (wf2 & Hwf2 & Hid2).
    eexists. eexists. split; [reflexivity |].
    world_simpl. rewrite !list_lookup_alter_eq, Hwf2. workflow_simpl.
    repeat split; [exact Hid2 | apply lookup_delete_eq].
  - unfold bind, update_wf, modify, now, ret.
    eexists. eexists. split; [reflexivity |].
    world_simpl. rewrite !list_lookup_alter_eq, Hwf. workflow_simpl.
    repeat split. apply lookup_delete_eq.
Qed.

(** What the route answers when the registry knows the workflow. *)
Lemma handleCancelWorkflow_cancelled workflowId env w l w' workflow' :
  OrchestrationEngine.cancelWorkflow workflowId env w = (Normal l, w') ->
  heap w' !! l = Some workflow' ->
  APIRoutes.handleCancelWorkflow [] workflowId env w
  = (Normal (APIRoutes.mkResponse 200 (APIRoutes.Cancelled workflow')), w').
Proof.
  intros Hcancel Hwf. unfold APIRoutes.handleCancelWorkflow, try_catch.
  cbn [APIRoutes.invalid]. rewrite (bind_Normal _ _ _ _ _ _ Hcancel).
  rewrite (bind_Normal _ _ _ _ _ _ (deref_Some l workflow' env w' Hwf)). reflexivity.
Qed.

(** X22. [DELETE /workflow/:workflowId] answers 404 with
    [{ error: 'Workflow <id> not found' }] when the engine does not know
    the id. For a registered workflow it answers 200 with
    [{ message: 'Workflow cancelled successfully', workflow }] and the
    workflow leaves the registry; the workflow sent has status cancelled
    when it was running, and is unchanged otherwise (a pending workflow
    is reported as cancelled successfully with status pending). *)
Theorem handleCancelWorkflow_responses (env : Env) (w : World) (workflowId : string) :
  (activeWorkflows w !! workflowId = None ->
   APIRoutes.handleCancelWorkflow [] workflowId env w
   = (Normal (APIRoutes.mkResponse 404
                (APIRoutes.NotFound
                   (JString ("Workflow " +:+ workflowId +:+ " not found")))), w))
  /\ (forall l workflow,
        activeWorkflows w !! workflowId = Some l ->
        heap w !! l = Some workflow ->
        wf_status workflow <> running ->
        APIRoutes.handleCancelWorkflow [] workflowId env w
        = (Normal (APIRoutes.mkResponse 200 (APIRoutes.Cancelled workflow)),
           set_activeWorkflows (delete workflowId (activeWorkflows w)) w))
  /\ (forall l workflow,
        activeWorkflows w !! workflowId = Some l ->
        heap w !! l = Some workflow ->
        wf_status workflow = running ->
        is_Some (workflowExecutor w) ->
        exists w' workflow',
          APIRoutes.handleCancelWorkflow [] workflowId env w
          = (Normal (APIRoutes.mkResponse 200 (APIRoutes.Cancelled workflow')), w')
          /\ wf_id workflow' = wf_id workflow
          /\ wf_status workflow' = cancelled
          /\ activeWorkflows w' !! workflowId = None).
Proof.
  split; [| split].
  - intros Hnone. unfold APIRoutes.handleCancelWorkflow, try_catch.
    cbn [APIRoutes.invalid].
    unfold OrchestrationEngine.cancelWorkflow. unfold bind at 1. unfold bind at 1, get_world.
    rewrite Hnone. unfold throw at 1. apply not_found_response.
  - intros l workflow Hreg Hwf Hstatus.
    apply (handleCancelWorkflow_cancelled workflowId env w l).
    + apply (cancelWorkflow_not_running workflowId env w l workflow); assumption.
    + exact Hwf.
  - intros l workflow Hreg Hwf Hstatus Hexec.
    destruct (cancelWorkflow_running workflowId env w l workflow Hreg Hwf Hstatus Hexec)
      as (w' & workflow' & Hcancel & Hwf' & Hst & _ & Hid & Hgone).
    exists w', workflow'. split; [| auto].
    apply (handleCancelWorkflow_cancelled workflowId env w l); assumption.
Qed.

(** ** The routes that start a workflow *)

Lemma executeWorkflow_resolves instruction options env w :
  isInitialized w = true ->
  plan_provider_throws_errors env ->
  exists envelope w',
    OrchestrationEngine.executeWorkflow instruction options env w = (Normal envelope, w').
Proof.
  intros Hinit Hprov.
  unfold OrchestrationEngine.executeWorkflow.
  unfold bind at 1, get_world. rewrite Hinit. cbn [negb].
  unfold bind at 1. rewrite new_workflow_run.
  unfold try_catch, OrchestrationEngine.run_workflow.
  match goal with
  | |- context [bind (OrchestrationEngine.createWorkflowPlan instruction options) _ env ?w0] =>
      destruct (OrchestrationEngine.createWorkflowPlan instruction options env w0)
        as [[plan | e] w1] eqn:Hplan
  end.
  - rewrite (bind_Normal _ _ _ _ _ _ Hplan). rewrite !bind_update_wf.
    unfold bind at 1, OrchestrationEngine.workflowExecutor_execute.
    unfold bind at 1, get_world.
    match goal with
    | |- context [match workflowExecutor ?W with _ => _ end] =>
        destruct (workflowExecutor W) as [running0 |];
        [ destruct (execute_outcome (length (heap w)) env W) as (r & w2 & Hex & Hnn);
          rewrite Hex; destruct r as [result | e] | ]
    end.
    + unfold bind, update_wf, modify, now, ret. eexists. eexists. reflexivity.
    + rewrite on_failure_run by (apply Hnn; reflexivity). eexists. eexists. reflexivity.
    + unfold throw. rewrite on_failure_run by reflexivity. eexists. eexists. reflexivity.
  - rewrite (bind_Throw _ _ _ _ _ _ Hplan).
    rewrite on_failure_run by (eapply createWorkflowPlan_throws; eauto).
    eexists. eexists. reflexivity.
Qed.

Lemma executeWorkflow_uninitialized instruction options env w :
  isInitialized w = false ->
  OrchestrationEngine.executeWorkflow instruction options env w
  = (Throw (Error "Orchestration Engine not initialized"), w).
Proof.
  intros Hinit. unfold OrchestrationEngine.executeWorkflow, bind, get_world.
  rewrite Hinit. reflexivity.
Qed.

(** X23. [POST /workflow/execute] answers 400 with the validation
    errors when there are any; 500 with
    [{ error: 'Internal server error', message }] when the engine is not
    initialized; and on an initialized engine, whose plan provider
    rejects with errors only, it sends the envelope of [executeWorkflow]
    with status 200 when [success] is true and 500 when it is false. The
    options handed to the engine are the options of the request with
    [requestId] and [userAgent] taken from the headers. *)
Theorem handleExecuteWorkflow_status_follows_success (env : Env) (w : World)
    (errors : list JSValue) (instruction : string) (options headers : JSValue) :
  nullish headers = false ->
  (errors <> [] ->
   APIRoutes.handleExecuteWorkflow errors instruction options headers env w
   = (Normal (APIRoutes.mkResponse 400 (APIRoutes.ValidationFailed errors)), w))
  /\ (isInitialized w = false ->
      APIRoutes.handleExecuteWorkflow [] instruction options headers env w
      = (Normal (APIRoutes.mkResponse 500
                   (APIRoutes.InternalServerError
                      (JString "Orchestration Engine not initialized"))), w))
  /\ (isInitialized w = true ->
      plan_provider_throws_errors env ->
      exists result w',
        OrchestrationEngine.executeWorkflow instruction (request_options options headers) env w
        = (Normal result, w')
        /\ APIRoutes.handleExecuteWorkflow [] instruction options headers env w
           = (Normal (APIRoutes.mkResponse (if success result then 200 else 500)
                        (APIRoutes.Outcome result)), w')).
Proof.
  intros Hheaders. split; [| split].
  - intros Herr. unfold APIRoutes.handleExecuteWorkflow, try_catch.
    destruct errors; [contradiction | reflexivity].
  - intros Hinit. unfold APIRoutes.handleExecuteWorkflow, try_catch.
    cbn [APIRoutes.invalid].
    rewrite !(bind_Normal _ _ _ _ _ _ (get_prop_defined headers _ env w Hheaders)).
    rewrite (bind_Throw _ _ _ _ _ _ (executeWorkflow_uninitialized _ _ env w Hinit)).
    reflexivity.
  - intros Hinit Hprov.
    destruct (executeWorkflow_resolves instruction (request_options options headers)
                env w Hinit Hprov) as (result & w' & Hrun).
    exists result, w'. split; [exact Hrun |].
    unfold APIRoutes.handleExecuteWorkflow, try_catch.
    cbn [APIRoutes.invalid].
    rewrite !(bind_Normal _ _ _ _ _ _ (get_prop_defined headers _ env w Hheaders)).
    fold (request_options options headers).
    rewrite (bind_Normal _ _ _ _ _ _ Hrun). reflexivity.
Qed.

(** X24. [POST /deploy] hands the engine the instruction
    [Deploy application to <environment> environment], followed by
    [ from <branch> branch] when a branch is given, and sends the
    envelope with status 200 whether [success] is true or false. It
    answers 500 with [{ success: false, error: 'Deployment failed' }]
    when the request has no body or the engine is not initialized. *)
Theorem handleDeploy_answers_200_whatever_the_outcome (env : Env) (w : World)
    (body : JSValue) :
  (nullish body = true ->
   APIRoutes.handleDeploy [] body env w
   = (Normal (APIRoutes.mkResponse 500
                (APIRoutes.Unsuccessful "Deployment failed"
                   (JString ("Cannot destructure property 'environment' of 'req.body' as it is "
                             +:+ ToString body +:+ ".")))), w))
  /\ (nullish body = false ->
      isInitialized w = false ->
      APIRoutes.handleDeploy [] body env w
      = (Normal (APIRoutes.mkResponse 500
                   (APIRoutes.Unsuccessful "Deployment failed"
                      (JString "Orchestration Engine not initialized"))), w))
  /\ (nullish body = false ->
      isInitialized w = true ->
      plan_provider_throws_errors env ->
      exists result w',
        OrchestrationEngine.executeWorkflow
          (APIRoutes.deploymentInstruction (own_prop body "environment") (own_prop body "branch"))
          (deploy_options body) env w
        = (Normal result, w')
        /\ APIRoutes.handleDeploy [] body env w
           = (Normal (APIRoutes.mkResponse 200 (APIRoutes.Outcome result)), w')).
Proof.
  split; [| split].
  - intros Hbody. unfold APIRoutes.handleDeploy, try_catch. cbn [APIRoutes.invalid].
    rewrite Hbody. reflexivity.
  - intros Hbody Hinit. unfold APIRoutes.handleDeploy, try_catch. cbn [APIRoutes.invalid].
    rewrite Hbody.
    rewrite (bind_Throw _ _ _ _ _ _ (executeWorkflow_uninitialized _ _ env w Hinit)).
    reflexivity.
  - intros Hbody Hinit Hprov.
    destruct (executeWorkflow_resolves
                (APIRoutes.deploymentInstruction (own_prop body "environment")
                   (own_prop body "branch"))
                (deploy_options body) env w Hinit Hprov) as (result & w' & Hrun).
    exists result, w'. split; [exact Hrun |].
    unfold APIRoutes.handleDeploy, try_catch. cbn [APIRoutes.invalid]. rewrite Hbody.
    fold (deploy_options body).
    rewrite (bind_Normal _ _ _ _ _ _ Hrun). reflexivity.
Qed.

(** ** Plans are complete *)

Lemma js_or_truthy a b : truthy b = true -> truthy (js_or a b) = true.
Proof. intros Hb. unfold js_or. destruct (truthy a) eqn:Ha; [exact Ha | exact Hb]. Qed.

Lemma validateWorkflowPlan_fields plan env w p w' :
  validateWorkflowPlan plan env w = (Normal p, w') ->
  estimatedDuration p = js_or (own_prop plan "estimatedDuration") (JNumber 300)
  /\ priority p = js_or (own_prop plan "priority") (JString "medium")
  /\ dependencies p = js_or (own_prop plan "dependencies") (JArray [])
  /\ rollbackStrategy p = js_or (own_prop plan "rollbackStrategy") (JString "automatic").
Proof.
  unfold validateWorkflowPlan. intros Hrun.
  destruct (nullish plan) eqn:Hplan.
  - destruct (get_prop_nullish plan "estimatedDuration" env w Hplan) as [e He].
    rewrite (bind_Throw _ _ _ _ _ _ He) in Hrun. discriminate Hrun.
  - repeat (erewrite bind_Normal in Hrun; [| apply get_prop_defined; exact Hplan]).
    apply bind_Normal_inv in Hrun as (validated & w1 & _ & Hrun).
    unfold ret in Hrun. injection Hrun as <- _. repeat split.
Qed.

Lemma coerced_truthy raw s :
  coerced raw s ->
  truthy (step_parameters s) = true
  /\ truthy (step_timeout s) = true
  /\ truthy (step_retryCount s) = true.
Proof.
  intros (Hp & Ht & Hr & _). unfold defaulted in *.
  repeat split.
  - destruct (truthy (own_prop raw "parameters")) eqn:H; rewrite Hp; [exact H | reflexivity].
  - destruct (truthy (own_prop raw "timeout")) eqn:H; rewrite Ht; [exact H | reflexivity].
  - destruct (truthy (own_prop raw "retryCount")) eqn:H; rewrite Hr; [exact H | reflexivity].
Qed.

(** X26. Every plan that normalization returns is complete, whatever
    the source: [estimatedDuration], [priority], [dependencies] and
    [rollbackStrategy] are truthy (a missing or falsy value, 0 and the
    empty string included, has been replaced by 300, medium, the empty
    list and automatic), and every step has a truthy [parameters],
    [timeout] and [retryCount]. *)
Theorem normalized_plan_has_no_falsy_field (env : Env) (w : World) (source : JSValue) :
  exists p w',
    parseWorkflowPlan source env w = (Normal p, w')
    /\ truthy (estimatedDuration p) = true
    /\ truthy (priority p) = true
    /\ truthy (dependencies p) = true
    /\ truthy (rollbackStrategy p) = true
    /\ Forall (fun s => truthy (step_parameters s) = true
                        /\ truthy (step_timeout s) = true
                        /\ truthy (step_retryCount s) = true) (plan_steps p).
Proof.
  destruct (normalization_throws env source) eqn:Hthrows.
  - destruct (parseWorkflowPlan_fallback source env w Hthrows) as [n Hrun].
    rewrite Hrun, createFallbackPlan_run.
    eexists. eexists. split; [reflexivity |].
    repeat split; repeat constructor.
  - unfold normalization_throws in Hthrows.
    destruct (JSON_parse env (ToString source)) as [v |] eqn:Hparse; [| discriminate].
    rewrite (parseWorkflowPlan_validated source env w v Hparse Hthrows).
    destruct (validateWorkflowPlan_defined v env w Hthrows) as (p & n & Hrun & Hsteps & _).
    destruct (validateWorkflowPlan_fields v env w p _ Hrun) as (Hd & Hp & Hdeps & Hrb).
    exists p, (drawn n w). split; [exact Hrun |].
    rewrite Hd, Hp, Hdeps, Hrb.
    repeat (split; [apply js_or_truthy; reflexivity |]).
    destruct (own_prop v "steps") as [| | | | | items |]; try (rewrite Hsteps; constructor).
    clear -Hsteps. induction Hsteps as [| raw s items steps Hco _ IH]; constructor.
    + exact (coerced_truthy raw s Hco).
    + exact IH.
Qed.

(** ** The further properties on concrete runs *)

(** Two workflows that took 10 and 40 ms: the average is their mean. *)
Lemma averageDuration_is_mean_witness :
  (StateManager.getAverageDuration
     (told [Scenario.finished "a" 0 10; Scenario.finished "b" 5 45])
   == inject_Z 50 / inject_Z 2)%Q.
Proof.
  apply (averageDuration_is_mean [Scenario.finished "a" 0 10; Scenario.finished "b" 5 45]).
  - discriminate.
  - repeat constructor; eexists; reflexivity.
Defined.

(** A state that carries a stale [lastUpdated] is saved at time 1000. *)
Lemma saveWorkflowState_getWorkflowState_witness :
  exists entry,
    WorkflowStates.getWorkflowState "wf-1"
      (WorkflowStates.saveWorkflowState "wf-1"
         (JObject [("status", JString "running"); ("lastUpdated", JString "stale")])
         1000 WorkflowStates.constructor)
    = Some entry
    /\ WorkflowStates.lastUpdated entry = 1000
    /\ assoc "status" (WorkflowStates.saved entry) = Some (JString "running")
    /\ WorkflowStates.getWorkflowState "wf-2"
         (WorkflowStates.saveWorkflowState "wf-1"
            (JObject [("status", JString "running"); ("lastUpdated", JString "stale")])
            1000 WorkflowStates.constructor)
       = None.
Proof.
  destruct (saveWorkflowState_getWorkflowState "wf-1" "wf-2"
              (JObject [("status", JString "running"); ("lastUpdated", JString "stale")])
              1000 WorkflowStates.constructor)
    as [(entry & Hget & Htime & Hfields & _) Hother].
  exists entry. split; [exact Hget |]. split; [exact Htime |]. split.
  - rewrite (Hfields "status") by discriminate. reflexivity.
  - rewrite Hother by discriminate. reflexivity.
Defined.

Lemma burst_ids_distinct : NoDup (enqueued Sample.burst).
Proof. apply (bool_decide_unpack (NoDup (enqueued Sample.burst))). vm_compute. exact I. Qed.

(** The burst of five tasks with the identifiers a to e. *)
Lemma distinct_ids_bound_tasks_in_flight_witness :
  (length (TaskQueue.inflight (TaskQueue.run Sample.burst TaskQueue.constructor)) <= 3)%nat.
Proof.
  destruct (distinct_ids_bound_tasks_in_flight Sample.burst) as [_ Hdistinct].
  destruct (Hdistinct burst_ids_distinct) as [_ Hbound]. exact Hbound.
Defined.

(** A queue that was never started. *)
Lemma idle_queue_starts_nothing_witness :
  announced "task:started" (TaskQueue.run Scenario.idle TaskQueue.constructor) = []
  /\ waiting (TaskQueue.run Scenario.idle TaskQueue.constructor) = ["a"; "b"].
Proof.
  destruct (idle_queue_starts_nothing Scenario.idle TaskQueue.constructor)
    as (_ & Hstarted & Hwaiting).
  - reflexivity.
  - repeat constructor.
  - split; [exact Hstarted | exact Hwaiting].
Defined.

(** A step for an integration nobody registered, a step of a type
    without handler, and two steps for names every object inherits. *)
Lemma step_without_handler_fails_at_once_witness :
  WorkflowExecutor.executeStep
    (fallbackStep "s1" "analyze" "Analyze requirements" "jenkins" 30000 1)
    (created "uuid-0" "Test instruction" (JObject []) 0) Scenario.env Sample.engine
  = (Throw (Error "Integration 'jenkins' not found"), Sample.engine)
  /\ WorkflowExecutor.executeStep
       (fallbackStep "s2" "rollback" "Roll back" "github" 30000 1)
       (created "uuid-0" "Test instruction" (JObject []) 0) Scenario.env Sample.engine
     = (Throw (Error "Unknown step type: rollback"), Sample.engine)
  /\ WorkflowExecutor.executeStep
       (fallbackStep "s3" "analyze" "Analyze requirements" "constructor" 30000 1)
       (created "uuid-0" "Test instruction" (JObject []) 0) Scenario.env Sample.engine
     = (Throw (TypeError "integration.analyzeRequirements is not a function"),
        Sample.engine)
  /\ WorkflowExecutor.executeStep
       (fallbackStep "s4" "commit_changes" "Commit changes" "toString" 30000 1)
       (created "uuid-0" "Test instruction" (JObject []) 0) Scenario.env Sample.engine
     = (Throw (TypeError "integration.commitChanges is not a function"), Sample.engine).
Proof.
  split; [| split; [| split]].
  - apply (proj1 (step_without_handler_fails_at_once Scenario.env Sample.engine
                    (fallbackStep "s1" "analyze" "Analyze requirements" "jenkins" 30000 1)
                    (created "uuid-0" "Test instruction" (JObject []) 0))).
    + reflexivity.
    + apply (bool_decide_unpack ("jenkins" ∉ Object_prototype)). vm_compute. exact I.
  - apply (proj1 (proj2 (step_without_handler_fails_at_once Scenario.env Sample.engine
                           (fallbackStep "s2" "rollback" "Roll back" "github" 30000 1)
                           (created "uuid-0" "Test instruction" (JObject []) 0)))).
    + left. eexists. reflexivity.
    + reflexivity.
  - apply (proj1 (proj2 (proj2 (step_without_handler_fails_at_once
                                  Scenario.env Sample.engine
                                  (fallbackStep "s3" "analyze" "Analyze requirements"
                                     "constructor" 30000 1)
                                  (created "uuid-0" "Test instruction" (JObject []) 0)))))
      with (type := "analyze") (method := "analyzeRequirements").
    + reflexivity.
    + apply (bool_decide_unpack ("constructor" ∈ Object_prototype)). vm_compute. exact I.
    + apply (bool_decide_unpack (_ ∈ _)). vm_compute. exact I.
    + reflexivity.
  - apply (proj2 (proj2 (proj2 (step_without_handler_fails_at_once
                                  Scenario.env Sample.engine
                                  (fallbackStep "s4" "commit_changes" "Commit changes"
                                     "toString" 30000 1)
                                  (created "uuid-0" "Test instruction" (JObject []) 0))))).
    + reflexivity.
    + apply (bool_decide_unpack ("toString" ∈ Object_prototype)). vm_compute. exact I.
    + reflexivity.
    + reflexivity.
Defined.

(** The plan of one step, run against the stubs. *)
Lemma execute_calls_each_step_at_most_once_witness :
  exists made,
    calls (snd (WorkflowExecutor.execute 0 Scenario.env Scenario.planned))
    = (calls Scenario.planned ++ made)%list
    /\ (length made <= 1)%nat.
Proof.
  destruct (execute_calls_each_step_at_most_once Scenario.env Scenario.planned 0
              (set_wf_plan Scenario.analyze_only
                 (set_wf_status running
                    (created "uuid-0" "Test instruction" (JObject []) 0)))
              Scenario.analyze_only)
    as [Hexecute _].
  - vm_compute. reflexivity.
  - reflexivity.
  - exact Hexecute.
Defined.

Lemma execute_announces_and_cleans_up_witness :
  exists r w' terminal,
    WorkflowExecutor.execute 0 Scenario.env Scenario.planned = (r, w')
    /\ workflowExecutor w' ≫= (fun runningWorkflows => runningWorkflows !! "uuid-0") = None
    /\ emitted w'
       = (emitted Scenario.planned
          ++ WorkflowStarted "uuid-0" (Some Scenario.analyze_only) :: terminal)%list.
Proof.
  destruct (execute_announces_and_cleans_up Scenario.env Scenario.planned 0
              (set_wf_plan Scenario.analyze_only
                 (set_wf_status running
                    (created "uuid-0" "Test instruction" (JObject []) 0)))
              Scenario.analyze_only)
    as (r & w' & terminal & Hrun & Hgone & Hevents & _).
  - vm_compute. reflexivity.
  - reflexivity.
  - exists r, w', terminal. auto.
Defined.

Lemma execute_logs_a_prefix_of_the_plan_witness :
  exists r w' recs workflow',
    WorkflowExecutor.execute 0 Scenario.env Scenario.planned = (r, w')
    /\ heap w' !! 0%nat = Some workflow'
    /\ wf_steps workflow' = recs
    /\ map rec_step recs `prefix_of` plan_steps Scenario.analyze_only.
Proof.
  destruct (execute_logs_a_prefix_of_the_plan Scenario.env Scenario.planned 0
              (set_wf_plan Scenario.analyze_only
                 (set_wf_status running
                    (created "uuid-0" "Test instruction" (JObject []) 0)))
              Scenario.analyze_only)
    as (r & w' & recs & workflow' & Hrun & Hheap & Hlog & _ & Hprefix & _).
  - vm_compute. reflexivity.
  - reflexivity.
  - exists r, w', recs, workflow'. auto.
Defined.

(** The one step may take 30000 ms. *)
Lemma execute_ends_within_the_timeouts_witness :
  clock (snd (WorkflowExecutor.execute 0 Scenario.env Scenario.planned))
  <= clock Scenario.planned + 30000.
Proof.
  destruct (execute_ends_within_the_timeouts Scenario.env Scenario.planned 0
              (set_wf_plan Scenario.analyze_only
                 (set_wf_status running
                    (created "uuid-0" "Test instruction" (JObject []) 0)))
              Scenario.analyze_only)
    as (Hclock & _ & _).
  - vm_compute. reflexivity.
  - reflexivity.
  - exact Hclock.
Defined.

(** A code generation with one file, one whose [files] is a string of
    two characters, of two and of four bytes, then a test run. *)
Lemma generateSummary_contents_witness :
  exists summary,
    WorkflowExecutor.generateSummary
      [ mkStepResult "code_generation" (JObject [("files", JArray [JString "a.js"])]) 10;
        mkStepResult "code_generation" (JObject [("files", JString "é😀")]) 15;
        mkStepResult "test_results" (JObject [("passed", JNumber 3)]) 20 ]
      Scenario.env Sample.engine
    = (Normal summary, Sample.engine)
    /\ totalSteps summary = 3%nat
    /\ executionTime summary = 0
    /\ artifacts summary = [JString "a.js"; JString "é"; JString "😀"]
    /\ testsPassed summary = Some (JNumber 3)
    /\ testsFailed summary = Some (JNumber 0)
    /\ commitSha summary = None.
Proof.
  eexists. split; [vm_compute; reflexivity |].
  edestruct (generateSummary_contents Scenario.env Sample.engine
               [ mkStepResult "code_generation" (JObject [("files", JArray [JString "a.js"])]) 10;
                 mkStepResult "code_generation" (JObject [("files", JString "é😀")]) 15;
                 mkStepResult "test_results" (JObject [("passed", JNumber 3)]) 20 ])
    as (Htotal & _ & _ & Htime & _ & Hartifacts & Hpassed & Hfailed & Hsha & _).
  - vm_compute. reflexivity.
  - repeat split; reflexivity.
Defined.

(** The pending workflow of the test-suite is cancelled. *)
Lemma cancelled_workflow_is_forgotten_witness :
  OrchestrationEngine.getWorkflowStatus "uuid-0" Scenario.env
    (set_activeWorkflows (delete "uuid-0" (activeWorkflows Sample.with_pending))
       Sample.with_pending)
  = (Throw (Error "Workflow uuid-0 not found"),
     set_activeWorkflows (delete "uuid-0" (activeWorkflows Sample.with_pending))
       Sample.with_pending).
Proof.
  apply (cancelled_workflow_is_forgotten Scenario.env Sample.with_pending "uuid-0" 0%nat).
  vm_compute. reflexivity.
Defined.

Lemma sample_uuid_injective n m : Sample.uuid n = Sample.uuid m -> n = m.
Proof.
  unfold Sample.uuid. intros H. cbn in H. injection H as H.
  apply (inj pretty). exact H.
Qed.

(** Two workflows run one after the other. *)
Lemma executeWorkflow_ids_are_fresh_witness :
  exists envelopes w',
    mapM (fun request => OrchestrationEngine.executeWorkflow request.1 request.2)
         [("add a health endpoint", JObject []); ("add a readiness endpoint", JObject [])]
         (Sample.runtime Sample.prose Sample.no_files) Sample.engine
    = (Normal envelopes, w')
    /\ length envelopes = 2%nat
    /\ NoDup (map env_workflowId envelopes).
Proof.
  eexists. eexists. split; [vm_compute; reflexivity |].
  eapply (executeWorkflow_ids_are_fresh (Sample.runtime Sample.prose Sample.no_files)
            Sample.engine
            [("add a health endpoint", JObject []); ("add a readiness endpoint", JObject [])]).
  - exact sample_uuid_injective.
  - vm_compute. reflexivity.
Defined.

(** The plan provider rejects. *)
Lemma failed_planning_leaves_workflow_registered_witness :
  exists w',
    OrchestrationEngine.executeWorkflow "add a health endpoint" (JObject [])
      (Sample.runtime Sample.overloaded Sample.no_files) Sample.engine
    = (Normal {| success := false;
                 env_workflowId := "uuid-0";
                 env_result := None;
                 env_error := Some (JString "model overloaded") |}, w')
    /\ activeWorkflows w' !! "uuid-0" = Some 0%nat.
Proof.
  edestruct (failed_planning_leaves_workflow_registered
               (Sample.runtime Sample.overloaded Sample.no_files) Sample.engine
               "add a health endpoint" (JObject []))
    as (w' & workflow & Hrun & Hreg & _).
  - reflexivity.
  - vm_compute. reflexivity.
  - reflexivity.
  - exists w'. split; [exact Hrun | exact Hreg].
Defined.

(** The plan provider answers with prose. *)
Lemma createWorkflowPlan_returns_when_provider_resolves_witness :
  exists plan w',
    OrchestrationEngine.createWorkflowPlan "add a health endpoint" (JObject [])
      (Sample.runtime Sample.prose Sample.no_files) Sample.engine
    = (Normal plan, w').
Proof.
  pose proof (createWorkflowPlan_returns_when_provider_resolves
                (Sample.runtime Sample.prose Sample.no_files) Sample.engine
                "add a health endpoint" (JObject []) _ _ eq_refl eq_refl) as H.
  cbv zeta in H. unfold Sample.prose, Sample.resolves in H. cbn [settle] in H.
  destruct H as (plan & n & Hrun & _). eauto.
Defined.

(** A pending workflow, an unknown id, an invalid request. *)
Lemma handleGetWorkflowStatus_responses_witness :
  APIRoutes.handleGetWorkflowStatus [] "uuid-0" Scenario.env Sample.with_pending
  = (Normal (APIRoutes.mkResponse 200
               (APIRoutes.TheWorkflow
                  (created "uuid-0" "Test instruction" (JObject []) 0))),
     Sample.with_pending)
  /\ APIRoutes.handleGetWorkflowStatus [] "uuid-9" Scenario.env Sample.with_pending
     = (Normal (APIRoutes.mkResponse 404
                  (APIRoutes.NotFound (JString "Workflow uuid-9 not found"))),
        Sample.with_pending)
  /\ APIRoutes.handleGetWorkflowStatus [JString "Invalid workflow ID format"] "uuid-0"
       Scenario.env Sample.with_pending
     = (Normal (APIRoutes.mkResponse 400
                  (APIRoutes.ValidationFailed [JString "Invalid workflow ID format"])),
        Sample.with_pending).
Proof.
  split; [| split].
  - apply (proj2 (proj2 (handleGetWorkflowStatus_responses Scenario.env Sample.with_pending
                           [] "uuid-0")) 0%nat).
    + vm_compute. reflexivity.
    + vm_compute. reflexivity.
  - apply (proj1 (proj2 (handleGetWorkflowStatus_responses Scenario.env Sample.with_pending
                           [] "uuid-9"))).
    vm_compute. reflexivity.
  - apply (proj1 (handleGetWorkflowStatus_responses Scenario.env Sample.with_pending
                    [JString "Invalid workflow ID format"] "uuid-0")).
    discriminate.
Defined.

(** A pending workflow is reported as cancelled, with status pending. *)
Lemma handleCancelWorkflow_responses_witness :
  APIRoutes.handleCancelWorkflow [] "uuid-0" Scenario.env Sample.with_pending
  = (Normal (APIRoutes.mkResponse 200
               (APIRoutes.Cancelled (created "uuid-0" "Test instruction" (JObject []) 0))),
     set_activeWorkflows (delete "uuid-0" (activeWorkflows Sample.with_pending))
       Sample.with_pending)
  /\ APIRoutes.handleCancelWorkflow [] "uuid-9" Scenario.env Sample.with_pending
     = (Normal (APIRoutes.mkResponse 404
                  (APIRoutes.NotFound (JString "Workflow uuid-9 not found"))),
        Sample.with_pending)
  /\ exists w' workflow',
       APIRoutes.handleCancelWorkflow [] "uuid-0" Scenario.env Sample.with_running
       = (Normal (APIRoutes.mkResponse 200 (APIRoutes.Cancelled workflow')), w')
       /\ wf_status workflow' = cancelled.
Proof.
  split; [| split].
  - apply (proj1 (proj2 (handleCancelWorkflow_responses Scenario.env Sample.with_pending
                           "uuid-0")) 0%nat).
    + vm_compute. reflexivity.
    + vm_compute. reflexivity.
    + discriminate.
  - apply (proj1 (handleCancelWorkflow_responses Scenario.env Sample.with_pending "uuid-9")).
    vm_compute. reflexivity.
  - edestruct (proj2 (proj2 (handleCancelWorkflow_responses Scenario.env Sample.with_running
                               "uuid-0")) 0%nat)
      as (w' & workflow' & Hrun & _ & Hstatus & _).
    + vm_compute. reflexivity.
    + vm_compute. reflexivity.
    + reflexivity.
    + eexists. reflexivity.
    + exists w', workflow'. split; [exact Hrun | exact Hstatus].
Defined.

(** The code generator rejects: the workflow fails and the route
    answers 500; the route that deploys answers 200. *)
Lemma handleExecuteWorkflow_status_follows_success_witness :
  exists result w',
    APIRoutes.handleExecuteWorkflow [] "add a health endpoint" JUndefined (JObject [])
      Scenario.env Sample.engine
    = (Normal (APIRoutes.mkResponse (if success result then 200 else 500)
                 (APIRoutes.Outcome result)), w').
Proof.
  edestruct (proj2 (proj2 (handleExecuteWorkflow_status_follows_success
                             Scenario.env Sample.engine [] "add a health endpoint"
                             JUndefined (JObject []) eq_refl)))
    as (result & w' & _ & Hresponse).
  - reflexivity.
  - exact sample_provider_throws_errors.
  - exists result, w'. exact Hresponse.
Defined.

Lemma handleDeploy_answers_200_whatever_the_outcome_witness :
  (exists result w',
     APIRoutes.handleDeploy [] (JObject [("environment", JString "staging")])
       Scenario.env Sample.engine
     = (Normal (APIRoutes.mkResponse 200 (APIRoutes.Outcome result)), w'))
  /\ APIRoutes.deploymentInstruction (JString "staging") JUndefined
     = "Deploy application to staging environment".
Proof.
  split; [| reflexivity].
  edestruct (proj2 (proj2 (handleDeploy_answers_200_whatever_the_outcome
                             Scenario.env Sample.engine
                             (JObject [("environment", JString "staging")]))))
    as (result & w' & _ & Hresponse).
  - reflexivity.
  - reflexivity.
  - exact sample_provider_throws_errors.
  - exists result, w'. exact Hresponse.
Defined.

(** Three workflows, two to a page. *)
Lemma pages_list_every_workflow_once_witness :
  let workflows :=
    [Scenario.finished "a" 0 10; Scenario.finished "b" 5 45; Scenario.finished "c" 7 9] in
  concat
    (map (fun i =>
            listed (APIRoutes.handleGetActiveWorkflows Scenario.parseInt workflows
                      (JObject [("page", JNumber (Z.of_nat i + 1)); ("limit", JNumber 2)])))
         (seq 0 (Z.to_nat (APIRoutes.pages (length workflows) 2))))
  = workflows.
Proof.
  intros workflows.
  apply (proj1 (pages_list_every_workflow_once Scenario.parseInt workflows JNumber
                  (JNumber 2) 2 (fun page => eq_refl) eq_refl ltac:(lia))).
Defined.
